(** * toniebox-api-go: a shallow embedding of the client and its request handler

    The Go package [toniebox] is a thin client of a cloud REST API.  Its code
    is a sequence of HTTP exchanges, JSON (de)serialisation through
    [encoding/json] and one multipart upload.  This development embeds

    - the data model of the package (the structs and their JSON tags);
    - the request handler (login, the authenticated GET and PATCH, the
      three-step upload, refresh, commit, disconnect);
    - the methods of [Client] and [CreativeTonie];

    over an explicit model of what the code talks to: the network (a server
    that answers requests, and the log of exchanges), the local file system
    and the store of request handlers that tonies point back to.  Runtime
    panics (nil dereferences) are part of the model. *)

From stdpp Require Import base option list strings gmap pretty.
From Stdlib Require Import Ascii ZArith Floats.SpecFloat.

Set Warnings "-register-all".

Open Scope Z_scope.

(* ===================================================================== *)
(** * Bytes and strings *)
(* ===================================================================== *)

(** A Go string is a sequence of bytes; [code] is the value of one byte. *)
Definition code (c : ascii) : Z := Z.of_N (Ascii.N_of_ascii c).

Definition byte_of (z : Z) : ascii := Ascii.ascii_of_N (Z.to_N z).

(** The double-quote character, and [quoted s] = the text s between quotes. *)
Definition dquote : string := String (byte_of 34) EmptyString.

Definition quoted (s : string) : string := dquote +:+ s +:+ dquote.

Definition is_digit (c : ascii) : bool := (48 <=? code c) && (code c <=? 57).

Definition is_space (c : ascii) : bool :=
  (code c =? 32) || (code c =? 9) || (code c =? 10) || (code c =? 13).

(** ASCII lower-casing, as used by the case-insensitive key match of
    [encoding/json]. *)
Definition lower (c : ascii) : ascii :=
  if (65 <=? code c) && (code c <=? 90) then byte_of (code c + 32) else c.

Fixpoint equal_fold (a b : string) : bool :=
  match a, b with
  | EmptyString, EmptyString => true
  | String x a', String y b' => Ascii.eqb (lower x) (lower y) && equal_fold a' b'
  | _, _ => false
  end.

Fixpoint skip_ws (s : string) : string :=
  match s with
  | String c r => if is_space c then skip_ws r else s
  | EmptyString => s
  end.

(** [span_digits s] splits off the longest prefix of decimal digits. *)
Fixpoint span_digits (s : string) : string * string :=
  match s with
  | String c r =>
      if is_digit c then let '(d, rest) := span_digits r in (String c d, rest)
      else (EmptyString, s)
  | EmptyString => (EmptyString, EmptyString)
  end.

(** Value of a string of decimal digits. *)
Fixpoint digits_value (acc : Z) (s : string) : Z :=
  match s with
  | String c r => digits_value (10 * acc + (code c - 48)) r
  | EmptyString => acc
  end.

Definition hex_value (c : ascii) : option Z :=
  let n := code c in
  if (48 <=? n) && (n <=? 57) then Some (n - 48)
  else if (97 <=? n) && (n <=? 102) then Some (n - 87)
  else if (65 <=? n) && (n <=? 70) then Some (n - 55)
  else None.

(** Four hexadecimal digits, as after a backslash-u escape. *)
Definition getu4 (s : string) : option (Z * string) :=
  match s with
  | String a (String b (String c (String d r))) =>
      match hex_value a, hex_value b, hex_value c, hex_value d with
      | Some x, Some y, Some z, Some w => Some (4096 * x + 256 * y + 16 * z + w, r)
      | _, _, _, _ => None
      end
  | _ => None
  end.

(** UTF-8 encoding of a code point ([utf8.EncodeRune]). *)
Definition encode_rune (r : Z) : string :=
  if r <? 128 then String (byte_of r) EmptyString
  else if r <? 2048 then
    String (byte_of (192 + r / 64)) (String (byte_of (128 + r mod 64)) EmptyString)
  else if r <? 65536 then
    String (byte_of (224 + r / 4096))
      (String (byte_of (128 + (r / 64) mod 64))
         (String (byte_of (128 + r mod 64)) EmptyString))
  else
    String (byte_of (240 + r / 262144))
      (String (byte_of (128 + (r / 4096) mod 64))
         (String (byte_of (128 + (r / 64) mod 64))
            (String (byte_of (128 + r mod 64)) EmptyString))).

Definition replacement_char : Z := 65533.

Definition is_surrogate (r : Z) : bool := (55296 <=? r) && (r <? 57344).

(* ===================================================================== *)
(** * encoding/json: syntax trees, the decoder's parser *)
(* ===================================================================== *)

(** A parsed JSON text.  A number keeps its literal: which Go type it
    converts to is decided by the field it is decoded into. *)
Inductive json :=
| JNull
| JBool (b : bool)
| JNumber (lit : string)
| JString (s : string)
| JArray (elems : list json)
| JObject (members : list (string * json)).

(** The body of a string literal, after its opening quote: the unquoted
    bytes and the text after the closing quote.  Control characters are
    refused; escapes are resolved as [encoding/json] does, an unpaired
    surrogate becoming U+FFFD.  Every step consumes a byte, so a fuel of
    the length of the text is never exhausted. *)
Fixpoint scan_string (fuel : nat) (s : string) : option (string * string) :=
  match fuel with
  | O => None
  | S n =>
      match s with
      | EmptyString => None
      | String c r =>
          if code c =? 34 then Some (EmptyString, r)
          else if code c <? 32 then None
          else if code c =? 92 then
            match r with
            | EmptyString => None
            | String e r' =>
                let simple (b : Z) :=
                  '(t, rest) ← scan_string n r'; Some (String (byte_of b) t, rest) in
                if code e =? 34 then simple 34
                else if code e =? 92 then simple 92
                else if code e =? 47 then simple 47
                else if code e =? 98 then simple 8
                else if code e =? 102 then simple 12
                else if code e =? 110 then simple 10
                else if code e =? 114 then simple 13
                else if code e =? 116 then simple 9
                else if code e =? 117 then
                  match getu4 r' with
                  | None => None
                  | Some (rr, r1) =>
                      if is_surrogate rr then
                        let paired :=
                          match r1 with
                          | String b1 (String b2 r2) =>
                              if (code b1 =? 92) && (code b2 =? 117) then
                                match getu4 r2 with
                                | Some (rr1, r3) =>
                                    if (rr <? 56320) && (56320 <=? rr1) && (rr1 <? 57344)
                                    then Some ((rr - 55296) * 1024 + (rr1 - 56320) + 65536, r3)
                                    else None
                                | None => None
                                end
                              else None
                          | _ => None
                          end in
                        match paired with
                        | Some (dec, r3) =>
                            '(t, rest) ← scan_string n r3; Some (encode_rune dec +:+ t, rest)
                        | None =>
                            '(t, rest) ← scan_string n r1;
                            Some (encode_rune replacement_char +:+ t, rest)
                        end
                      else
                        '(t, rest) ← scan_string n r1; Some (encode_rune rr +:+ t, rest)
                  end
                else None
            end
          else '(t, rest) ← scan_string n r; Some (String c t, rest)
      end
  end.

(** A number literal: an optional minus, an integer part without a leading
    zero, an optional fraction, an optional exponent. *)
Definition scan_number (s : string) : option (string * string) :=
  let '(sign, s1) :=
    match s with
    | String c r => if code c =? 45 then (String c EmptyString, r) else (EmptyString, s)
    | EmptyString => (EmptyString, s)
    end in
  '(int, s2) ←
    match s1 with
    | String c r =>
        if code c =? 48 then Some (String c EmptyString, r)
        else if is_digit c then Some (span_digits s1)
        else None
    | EmptyString => None
    end;
  '(frac, s3) ←
    match s2 with
    | String c r =>
        if code c =? 46 then
          let '(d, rest) := span_digits r in
          match d with
          | EmptyString => None
          | _ => Some (String c d, rest)
          end
        else Some (EmptyString, s2)
    | EmptyString => Some (EmptyString, s2)
    end;
  '(exp, s4) ←
    match s3 with
    | String c r =>
        if (code c =? 101) || (code c =? 69) then
          let '(sg, r1) :=
            match r with
            | String c' r' =>
                if (code c' =? 43) || (code c' =? 45) then (String c' EmptyString, r')
                else (EmptyString, r)
            | EmptyString => (EmptyString, r)
            end in
          let '(d, rest) := span_digits r1 in
          match d with
          | EmptyString => None
          | _ => Some (String c (sg +:+ d), rest)
          end
        else Some (EmptyString, s3)
    | EmptyString => Some (EmptyString, s3)
    end;
  Some (sign +:+ int +:+ frac +:+ exp, s4).

(** [strip_prefix p s] is the rest of [s] after [p], when [s] starts with it. *)
Fixpoint strip_prefix (p s : string) : option string :=
  match p, s with
  | EmptyString, _ => Some s
  | String a p', String b s' => if Ascii.eqb a b then strip_prefix p' s' else None
  | _, _ => None
  end.

(** One JSON value at the head of a text, and what follows it. *)
Fixpoint parse_value (fuel : nat) (s : string) : option (json * string) :=
  match fuel with
  | O => None
  | S n =>
      match skip_ws s with
      | EmptyString => None
      | String c r as t =>
          if code c =? 123 then
            match skip_ws r with
            | String c' r' =>
                if code c' =? 125 then Some (JObject [], r')
                else '(ms, rest) ← parse_members n (skip_ws r); Some (JObject ms, rest)
            | EmptyString => None
            end
          else if code c =? 91 then
            match skip_ws r with
            | String c' r' =>
                if code c' =? 93 then Some (JArray [], r')
                else '(es, rest) ← parse_elements n r; Some (JArray es, rest)
            | EmptyString => None
            end
          else if code c =? 34 then
            '(str, rest) ← scan_string (String.length r) r; Some (JString str, rest)
          else if (code c =? 45) || is_digit c then
            '(lit, rest) ← scan_number t; Some (JNumber lit, rest)
          else if code c =? 116 then rest ← strip_prefix "true" t; Some (JBool true, rest)
          else if code c =? 102 then rest ← strip_prefix "false" t; Some (JBool false, rest)
          else if code c =? 110 then rest ← strip_prefix "null" t; Some (JNull, rest)
          else None
      end
  end
with parse_members (fuel : nat) (s : string) : option (list (string * json) * string) :=
  match fuel with
  | O => None
  | S n =>
      match s with
      | String c r =>
          if code c =? 34 then
            '(key, s1) ← scan_string (String.length r) r;
            match skip_ws s1 with
            | String c1 s2 =>
                if code c1 =? 58 then
                  '(v, s3) ← parse_value n s2;
                  match skip_ws s3 with
                  | String c3 s4 =>
                      if code c3 =? 44 then
                        '(ms, rest) ← parse_members n (skip_ws s4); Some ((key, v) :: ms, rest)
                      else if code c3 =? 125 then Some ([(key, v)], s4)
                      else None
                  | EmptyString => None
                  end
                else None
            | EmptyString => None
            end
          else None
      | EmptyString => None
      end
  end
with parse_elements (fuel : nat) (s : string) : option (list json * string) :=
  match fuel with
  | O => None
  | S n =>
      '(v, s1) ← parse_value n s;
      match skip_ws s1 with
      | String c s2 =>
          if code c =? 44 then '(es, rest) ← parse_elements n s2; Some (v :: es, rest)
          else if code c =? 93 then Some ([v], s2)
          else None
      | EmptyString => None
      end
  end.

(** What [json.NewDecoder(body).Decode] reads: the first value of the body.
    Text after it is left in the stream and never looked at by this
    package; an empty body is an error (EOF).  A value of n bytes needs at
    most 2n nested calls. *)
Definition read_value (body : string) : option json :=
  fst <$> parse_value (2 * String.length body + 2) body.

(* ===================================================================== *)
(** * Go values: integers, floats, slices *)
(* ===================================================================== *)

(** Go's [int] (64 bits on the platforms the package targets) is a [Z]
    within the bounds below; [float64] is an IEEE 754 binary64 value. *)
Definition int_min : Z := - 2 ^ 63.
Definition int_max : Z := 2 ^ 63 - 1.

Definition float64 : Type := spec_float.

Definition float64_zero : float64 := S754_zero false.

Definition float64_finite (f : float64) : bool :=
  match f with
  | S754_zero _ | S754_finite _ _ _ => true
  | S754_infinity _ | S754_nan => false
  end.

(** A slice is nil or a sequence; the two differ when marshalled (null
    against an array). *)
Definition slice (A : Type) : Type := option (list A).

Definition elems {A} (s : slice A) : list A := default [] s.

(** [append(s, x)] *)
Definition append {A} (s : slice A) (x : A) : slice A := Some (elems s ++ [x]).

(** A number literal cut into sign, digits of the integer part, digits of
    the fraction, sign and digits of the exponent. *)
Definition split_literal (lit : string) : bool * string * string * bool * string :=
  let '(neg, s1) :=
    match lit with
    | String c r => if code c =? 45 then (true, r) else (false, lit)
    | EmptyString => (false, lit)
    end in
  let '(int, s2) := span_digits s1 in
  let '(frac, s3) :=
    match s2 with
    | String c r => if code c =? 46 then span_digits r else (EmptyString, s2)
    | EmptyString => (EmptyString, s2)
    end in
  match s3 with
  | String _ (String c r) =>
      if code c =? 45 then (neg, int, frac, true, r)
      else if code c =? 43 then (neg, int, frac, false, r)
      else (neg, int, frac, false, String c r)
  | _ => (neg, int, frac, false, EmptyString)
  end.

(** [strconv.ParseInt(lit, 10, 64)] on a JSON number literal: integers
    only, within the range of [int]. *)
Definition ParseInt (lit : string) : option Z :=
  let '(neg, int, frac, _, exp) := split_literal lit in
  match frac, exp with
  | EmptyString, EmptyString =>
      let v := if neg then - digits_value 0 int else digits_value 0 int in
      if (int_min <=? v) && (v <=? int_max) then Some v else None
  | _, _ => None
  end.

(** [strconv.ParseFloat(lit, 64)] on a JSON number literal: the binary64
    value nearest to the decimal one (ties to even); a value that rounds
    to infinity is a range error. *)
Definition ParseFloat (lit : string) : option float64 :=
  let '(neg, int, frac, eneg, exp) := split_literal lit in
  let d := digits_value 0 (int +:+ frac) in
  let e := (if eneg then - digits_value 0 exp else digits_value 0 exp)
           - Z.of_nat (String.length frac) in
  let r :=
    match d with
    | Zpos p =>
        if 0 <=? e then binary_round 53 1024 neg (Z.to_pos (d * 10 ^ e)) 0
        else
          let '(q, e', l) := SFdiv_core_binary 53 1024 d 0 (10 ^ (- e)) 0 in
          binary_round_aux 53 1024 neg q e' l
    | _ => S754_zero neg
    end in
  if float64_finite r then Some r else None.

(* ===================================================================== *)
(** * encoding/json: decoding into struct fields *)
(* ===================================================================== *)

(** How a JSON value is stored into a field of a struct [T]: the struct
    with the field set, or a type error.  [null] leaves a field of string,
    number, boolean or struct type as it is and sets a slice to nil. *)
Definition FieldDecoder (T : Type) : Type := json → T → option T.

Definition dec_string {T} (set : string → T → T) : FieldDecoder T :=
  λ j t, match j with
         | JNull => Some t
         | JString s => Some (set s t)
         | _ => None
         end.

Definition dec_bool {T} (set : bool → T → T) : FieldDecoder T :=
  λ j t, match j with
         | JNull => Some t
         | JBool b => Some (set b t)
         | _ => None
         end.

Definition dec_int {T} (set : Z → T → T) : FieldDecoder T :=
  λ j t, match j with
         | JNull => Some t
         | JNumber lit => n ← ParseInt lit; Some (set n t)
         | _ => None
         end.

Definition dec_float64 {T} (set : float64 → T → T) : FieldDecoder T :=
  λ j t, match j with
         | JNull => Some t
         | JNumber lit => f ← ParseFloat lit; Some (set f t)
         | _ => None
         end.

(** A slice field: every element is decoded into a zero element. *)
Definition dec_slice {T A} (elem : json → option A) (set : slice A → T → T)
  : FieldDecoder T :=
  λ j t, match j with
         | JNull => Some (set None t)
         | JArray l => xs ← mapM elem l; Some (set (Some xs) t)
         | _ => None
         end.

(** The field a key selects: the one whose tag is the key, else the first
    whose tag equals the key up to case. *)
Definition find_field {T} (fields : list (string * FieldDecoder T)) (key : string)
  : option (FieldDecoder T) :=
  match List.find (λ f, String.eqb (fst f) key) fields with
  | Some f => Some (snd f)
  | None => snd <$> List.find (λ f, equal_fold (fst f) key) fields
  end.

(** The members of an object are stored in order (a repeated key
    overwrites), unknown keys are skipped. *)
Fixpoint decode_members {T} (fields : list (string * FieldDecoder T))
    (members : list (string * json)) (t : T) : option T :=
  match members with
  | [] => Some t
  | (k, v) :: rest =>
      match find_field fields k with
      | None => decode_members fields rest t
      | Some d => t' ← d v t; decode_members fields rest t'
      end
  end.

Definition decode_struct {T} (fields : list (string * FieldDecoder T)) : FieldDecoder T :=
  λ j t, match j with
         | JNull => Some t
         | JObject members => decode_members fields members t
         | _ => None
         end.

(** [json.NewDecoder(body).Decode(&v)] for [v] a zero value of type [T]. *)
Definition Decoder (T : Type) : Type := string → option T.

Definition decode_body {T} (dec : FieldDecoder T) (zero : T) : Decoder T :=
  λ body, j ← read_value body; dec j zero.

(** What [json.Marshal] is given to render: the tree of tagged fields.
    Integers and floats are kept as values, not as digits. *)
Inductive jdoc :=
| DNull
| DBool (b : bool)
| DInt (n : Z)
| DFloat (f : float64)
| DString (s : string)
| DArray (elems : list jdoc)
| DObject (members : list (string * jdoc)).

Definition member (key : string) (d : jdoc) : option jdoc :=
  match d with
  | DObject ms => snd <$> List.find (λ m, String.eqb (fst m) key) ms
  | _ => None
  end.

Definition keys (d : jdoc) : list string :=
  match d with
  | DObject ms => fst <$> ms
  | _ => []
  end.

(** A float is rendered only when finite: NaN and the infinities make
    [json.Marshal] fail with an unsupported-value error. *)
Definition marshal_float64 (f : float64) : option jdoc :=
  if float64_finite f then Some (DFloat f) else None.

Definition marshal_slice {A} (elem : A → option jdoc) (s : slice A) : option jdoc :=
  match s with
  | None => Some DNull
  | Some l => DArray <$> mapM elem l
  end.

(* ===================================================================== *)
(** * The data model of the package, with its JSON tags *)
(* ===================================================================== *)

(** The authentication token returned by the API. *)
Module JWTToken.
Record t := mk {
  AccessToken : string;
  ExpiresIn : Z;
  RefreshToken : string;
  TokenType : string;
  Scope : string }.

Definition zero : t := mk "" 0 "" "" "".

Definition fields : list (string * FieldDecoder t) :=
  [ ("access_token", dec_string (λ v x, mk v (ExpiresIn x) (RefreshToken x) (TokenType x) (Scope x)));
    ("expires_in", dec_int (λ v x, mk (AccessToken x) v (RefreshToken x) (TokenType x) (Scope x)));
    ("refresh_token", dec_string (λ v x, mk (AccessToken x) (ExpiresIn x) v (TokenType x) (Scope x)));
    ("token_type", dec_string (λ v x, mk (AccessToken x) (ExpiresIn x) (RefreshToken x) v (Scope x)));
    ("scope", dec_string (λ v x, mk (AccessToken x) (ExpiresIn x) (RefreshToken x) (TokenType x) v)) ].

Definition decode : Decoder t := decode_body (decode_struct fields) zero.
End JWTToken.

(** The credentials for logging in. *)
Module Login.
Record t := mk { Email : string; Password : string }.
End Login.

(** Personal information about the authenticated user. *)
Module Me.
Record t := mk {
  Email : string;
  UUID : string;
  FirstName : string;
  LastName : string;
  Sex : string;
  AcceptedTermsOfUse : bool;
  Tracking : bool;
  AuthCode : string;
  ProfileImage : string;
  Verified : bool;
  EduUser : bool;
  NotificationCount : Z;
  RequiresVerificationToUpload : bool }.

Definition zero : t := mk "" "" "" "" "" false false "" "" false false 0 false.

Definition fields : list (string * FieldDecoder t) :=
  [ ("email", dec_string (λ v x, let '(mk a b c d e f g h i j k l m) := x in mk v b c d e f g h i j k l m));
    ("uuid", dec_string (λ v x, let '(mk a b c d e f g h i j k l m) := x in mk a v c d e f g h i j k l m));
    ("firstName", dec_string (λ v x, let '(mk a b c d e f g h i j k l m) := x in mk a b v d e f g h i j k l m));
    ("lastName", dec_string (λ v x, let '(mk a b c d e f g h i j k l m) := x in mk a b c v e f g h i j k l m));
    ("sex", dec_string (λ v x, let '(mk a b c d e f g h i j k l m) := x in mk a b c d v f g h i j k l m));
    ("acceptedTermsOfUse", dec_bool (λ v x, let '(mk a b c d e f g h i j k l m) := x in mk a b c d e v g h i j k l m));
    ("tracking", dec_bool (λ v x, let '(mk a b c d e f g h i j k l m) := x in mk a b c d e f v h i j k l m));
    ("authCode", dec_string (λ v x, let '(mk a b c d e f g h i j k l m) := x in mk a b c d e f g v i j k l m));
    ("profileImage", dec_string (λ v x, let '(mk a b c d e f g h i j k l m) := x in mk a b c d e f g h v j k l m));
    ("isVerified", dec_bool (λ v x, let '(mk a b c d e f g h i j k l m) := x in mk a b c d e f g h i v k l m));
    ("isEduUser", dec_bool (λ v x, let '(mk a b c d e f g h i j k l m) := x in mk a b c d e f g h i j v l m));
    ("notificationCount", dec_int (λ v x, let '(mk a b c d e f g h i j k l m) := x in mk a b c d e f g h i j k v m));
    ("requiresVerificationToUpload", dec_bool (λ v x, let '(mk a b c d e f g h i j k l m) := x in mk a b c d e f g h i j k l v)) ].

Definition decode : Decoder t := decode_body (decode_struct fields) zero.
End Me.

(** A Toniebox household. *)
Module Household.
Record t := mk {
  ID : string;
  Name : string;
  Image : string;
  ForeignCreativeTonieContent : bool;
  Access : string;
  CanLeave : bool;
  OwnerName : string }.

Definition zero : t := mk "" "" "" false "" false "".

Definition fields : list (string * FieldDecoder t) :=
  [ ("id", dec_string (λ v x, let '(mk a b c d e f g) := x in mk v b c d e f g));
    ("name", dec_string (λ v x, let '(mk a b c d e f g) := x in mk a v c d e f g));
    ("image", dec_string (λ v x, let '(mk a b c d e f g) := x in mk a b v d e f g));
    ("foreignCreativeTonieContent", dec_bool (λ v x, let '(mk a b c d e f g) := x in mk a b c v e f g));
    ("access", dec_string (λ v x, let '(mk a b c d e f g) := x in mk a b c d v f g));
    ("canLeave", dec_bool (λ v x, let '(mk a b c d e f g) := x in mk a b c d e v g));
    ("ownerName", dec_string (λ v x, let '(mk a b c d e f g) := x in mk a b c d e f v)) ].

Definition decode_value (j : json) : option t := decode_struct fields j zero.

(** [var result []Household] *)
Definition decode_list : Decoder (slice t) :=
  decode_body (dec_slice decode_value (λ v _, v)) None.
End Household.

(** A chapter (track) on a Creative-Tonie. *)
Module Chapter.
Record t := mk {
  ID : string;
  File : string;
  Title : string;
  Seconds : float64;
  Transcoding : bool }.

Definition zero : t := mk "" "" "" float64_zero false.

Definition fields : list (string * FieldDecoder t) :=
  [ ("id", dec_string (λ v x, mk v (File x) (Title x) (Seconds x) (Transcoding x)));
    ("file", dec_string (λ v x, mk (ID x) v (Title x) (Seconds x) (Transcoding x)));
    ("title", dec_string (λ v x, mk (ID x) (File x) v (Seconds x) (Transcoding x)));
    ("seconds", dec_float64 (λ v x, mk (ID x) (File x) (Title x) v (Transcoding x)));
    ("transcoding", dec_bool (λ v x, mk (ID x) (File x) (Title x) (Seconds x) v)) ].

Definition decode_value (j : json) : option t := decode_struct fields j zero.

Definition marshal (c : t) : option jdoc :=
  s ← marshal_float64 (Seconds c);
  Some (DObject [ ("id", DString (ID c)); ("file", DString (File c));
                  ("title", DString (Title c)); ("seconds", s);
                  ("transcoding", DBool (Transcoding c)) ]).
End Chapter.

(** Addresses of request handlers: a tonie holds a pointer to the handler
    it was fetched through. *)
Definition loc : Type := nat.

(** A Creative-Tonie figurine.  The last two fields are the internal ones,
    tagged [json:"-"] (and unexported): a pointer to the household and a
    pointer to the request handler, either of which may be nil. *)
Module CreativeTonie.
Record t := mk {
  ID : string;
  Name : string;
  Live : bool;
  Private : bool;
  ImageURL : string;
  TranscodingErrors : slice string;
  Transcoding : bool;
  SecondsPresent : float64;
  SecondsRemaining : float64;
  ChaptersPresent : Z;
  ChaptersRemaining : Z;
  Chapters : slice Chapter.t;
  HouseholdID : string;
  household : option Household.t;
  requestHandler : option loc }.

Definition zero : t :=
  mk "" "" false false "" None false float64_zero float64_zero 0 0 None "" None None.

Definition set_Chapters (v : slice Chapter.t) (x : t) : t :=
  let '(mk a b c d e f g h i j k l m n o) := x in mk a b c d e f g h i j k v m n o.

Definition set_household (v : option Household.t) (x : t) : t :=
  let '(mk a b c d e f g h i j k l m n o) := x in mk a b c d e f g h i j k l m v o.

Definition set_requestHandler (v : option loc) (x : t) : t :=
  let '(mk a b c d e f g h i j k l m n o) := x in mk a b c d e f g h i j k l m n v.

Definition fields : list (string * FieldDecoder t) :=
  [ ("id", dec_string (λ v x, let '(mk a b c d e f g h i j k l m n o) := x in mk v b c d e f g h i j k l m n o));
    ("name", dec_string (λ v x, let '(mk a b c d e f g h i j k l m n o) := x in mk a v c d e f g h i j k l m n o));
    ("live", dec_bool (λ v x, let '(mk a b c d e f g h i j k l m n o) := x in mk a b v d e f g h i j k l m n o));
    ("private", dec_bool (λ v x, let '(mk a b c d e f g h i j k l m n o) := x in mk a b c v e f g h i j k l m n o));
    ("imageUrl", dec_string (λ v x, let '(mk a b c d e f g h i j k l m n o) := x in mk a b c d v f g h i j k l m n o));
    ("transcodingErrors", dec_slice (λ j, match j with JString s => Some s | JNull => Some "" | _ => None end)
                            (λ v x, let '(mk a b c d e f g h i j k l m n o) := x in mk a b c d e v g h i j k l m n o));
    ("transcoding", dec_bool (λ v x, let '(mk a b c d e f g h i j k l m n o) := x in mk a b c d e f v h i j k l m n o));
    ("secondsPresent", dec_float64 (λ v x, let '(mk a b c d e f g h i j k l m n o) := x in mk a b c d e f g v i j k l m n o));
    ("secondsRemaining", dec_float64 (λ v x, let '(mk a b c d e f g h i j k l m n o) := x in mk a b c d e f g h v j k l m n o));
    ("chaptersPresent", dec_int (λ v x, let '(mk a b c d e f g h i j k l m n o) := x in mk a b c d e f g h i v k l m n o));
    ("chaptersRemaining", dec_int (λ v x, let '(mk a b c d e f g h i j k l m n o) := x in mk a b c d e f g h i j v l m n o));
    ("chapters", dec_slice Chapter.decode_value set_Chapters);
    ("householdId", dec_string (λ v x, let '(mk a b c d e f g h i j k l m n o) := x in mk a b c d e f g h i j k l v n o)) ].

Definition decode_value (j : json) : option t := decode_struct fields j zero.

(** [var result CreativeTonie] *)
Definition decode : Decoder t := decode_body (decode_struct fields) zero.

(** [var result []CreativeTonie] *)
Definition decode_list : Decoder (slice t) :=
  decode_body (dec_slice decode_value (λ v _, v)) None.

(** [json.Marshal(tonie)]: the thirteen tagged fields in declaration
    order; the two internal fields are not part of the output. *)
Definition marshal (x : t) : option jdoc :=
  sp ← marshal_float64 (SecondsPresent x);
  sr ← marshal_float64 (SecondsRemaining x);
  cs ← marshal_slice Chapter.marshal (Chapters x);
  te ← marshal_slice (λ s, Some (DString s)) (TranscodingErrors x);
  Some (DObject [ ("id", DString (ID x)); ("name", DString (Name x));
                  ("live", DBool (Live x)); ("private", DBool (Private x));
                  ("imageUrl", DString (ImageURL x)); ("transcodingErrors", te);
                  ("transcoding", DBool (Transcoding x));
                  ("secondsPresent", sp); ("secondsRemaining", sr);
                  ("chaptersPresent", DInt (ChaptersPresent x));
                  ("chaptersRemaining", DInt (ChaptersRemaining x));
                  ("chapters", cs); ("householdId", DString (HouseholdID x)) ]).
End CreativeTonie.

(** The form fields of an upload to the object storage. *)
Module FieldsBean.
Record t := mk {
  Key : string;
  Policy : string;
  XAmzAlgorithm : string;
  XAmzCredential : string;
  XAmzDate : string;
  XAmzSignature : string;
  XAmzSecurityToken : string }.

Definition zero : t := mk "" "" "" "" "" "" "".

Definition fields : list (string * FieldDecoder t) :=
  [ ("key", dec_string (λ v x, let '(mk a b c d e f g) := x in mk v b c d e f g));
    ("policy", dec_string (λ v x, let '(mk a b c d e f g) := x in mk a v c d e f g));
    ("x-amz-algorithm", dec_string (λ v x, let '(mk a b c d e f g) := x in mk a b v d e f g));
    ("x-amz-credential", dec_string (λ v x, let '(mk a b c d e f g) := x in mk a b c v e f g));
    ("x-amz-date", dec_string (λ v x, let '(mk a b c d e f g) := x in mk a b c d v f g));
    ("x-amz-signature", dec_string (λ v x, let '(mk a b c d e f g) := x in mk a b c d e v g));
    ("x-amz-security-token", dec_string (λ v x, let '(mk a b c d e f g) := x in mk a b c d e f v)) ].
End FieldsBean.

(** The details of the upload request. *)
Module RequestBean.
Record t := mk { URL : string; Fields : FieldsBean.t }.

Definition zero : t := mk "" FieldsBean.zero.

Definition fields : list (string * FieldDecoder t) :=
  [ ("url", dec_string (λ v x, mk v (Fields x)));
    ("fields", λ j x, f ← decode_struct FieldsBean.fields j (Fields x); Some (mk (URL x) f)) ].
End RequestBean.

(** The answer of the file-upload endpoint: the upload ticket. *)
Module AmazonBean.
Record t := mk { FileID : string; Request : RequestBean.t }.

Definition zero : t := mk "" RequestBean.zero.

Definition fields : list (string * FieldDecoder t) :=
  [ ("fileId", dec_string (λ v x, mk v (Request x)));
    ("request", λ j x, r ← decode_struct RequestBean.fields j (Request x); Some (mk (FileID x) r)) ].

Definition decode : Decoder t := decode_body (decode_struct fields) zero.
End AmazonBean.

(* ===================================================================== *)
(** * Constants of the package *)
(* ===================================================================== *)

Definition openIDConnect : string :=
  "https://login.tonies.com/auth/realms/tonies/protocol/openid-connect/token".
Definition session : string := "https://api.tonie.cloud/v2/sessions".
Definition me : string := "https://api.tonie.cloud/v2/me".
Definition households : string := "https://api.tonie.cloud/v2/households".
Definition fileUpload : string := "https://api.tonie.cloud/v2/file".
Definition fileUploadAmazon : string :=
  "https://bxn-toniecloud-prod-upload.s3.amazonaws.com/".

(** The two format strings, applied: [fmt.Sprintf(creativeTonies, h)] and
    [fmt.Sprintf(creativeTonie, h, id)]. *)
Definition creativeTonies (h : string) : string :=
  "https://api.tonie.cloud/v2/households/" +:+ h +:+ "/creativetonies".
Definition creativeTonie (h id : string) : string :=
  "https://api.tonie.cloud/v2/households/" +:+ h +:+ "/creativetonies/" +:+ id.

Definition contentTypeJSON : string := "application/json".
Definition contentTypeForm : string := "application/x-www-form-urlencoded".

Definition grantTypePassword : string := "password".
Definition clientID : string := "my-tonies".
Definition scopeOpenID : string := "openid".

(* ===================================================================== *)
(** * Errors *)
(* ===================================================================== *)

(** Errors made by the libraries the package calls. *)
Inductive lib_error :=
| url_Error (url : string)      (* net/url: the text does not parse; [url] is the text named *)
| net_Error (msg : string)      (* net/http: no response (timeout, refused, DNS) *)
| os_Error (msg : string)       (* os, io: the file does not open or read *)
| json_Error.                   (* encoding/json: syntax, EOF or type error *)

(** Errors made by the package: [fmt.Errorf] with a fully formatted text,
    or with a text that ends in the wrapped error ([%w]). *)
Inductive error_value :=
| Errorf (msg : string)
| Wrapf (prefix : string) (cause : lib_error).

(** Go's [error]: nil or an error. *)
Definition error : Type := option error_value.

Definition nil_error : error := None.

(** [fmt.Sprintf("<what> with status %d: %s", status, body)] *)
Definition status_message (what : string) (status : Z) (body : string) : string :=
  what +:+ " with status " +:+ pretty status +:+ ": " +:+ body.

(* ===================================================================== *)
(** * net/url, mime/multipart, net/http *)
(* ===================================================================== *)

Module url.
(** [url.Values]: form values by key. *)
Abbreviation Values := (gmap string (list string)).

(** [v.Set(key, value)] *)
Definition Values_Set (key value : string) (v : Values) : Values := <[key := [value]]> v.

Fixpoint has_ctl (s : string) : bool :=
  match s with
  | String c r => (code c <? 32) || (code c =? 127) || has_ctl r
  | EmptyString => false
  end.

(** A percent sign is followed by two hexadecimal digits. *)
Fixpoint escapes_ok (s : string) : bool :=
  match s with
  | String c r =>
      if code c =? 37 then
        match r with
        | String a (String b _) =>
            match hex_value a, hex_value b with
            | Some _, Some _ => escapes_ok r
            | _, _ => false
            end
        | _ => false
        end
      else escapes_ok r
  | EmptyString => true
  end.

(** [cut s sep]: the text before the first [sep] and the text after it. *)
Fixpoint cut (sep : Z) (s : string) : string * string :=
  match s with
  | String c r =>
      if code c =? sep then (EmptyString, r)
      else let '(a, b) := cut sep r in (String c a, b)
  | EmptyString => (EmptyString, EmptyString)
  end.

(** [url.Parse] on an absolute URL of the package (a fixed scheme and host
    followed by a path built from identifiers).  The fragment is cut off at
    the first number sign; what stands before it must hold no control byte
    and, up to the first question mark, well-formed escapes (the query is
    not inspected); then the fragment must have well-formed escapes, and
    may hold any byte. *)
Definition before_fragment (u : string) : string := fst (cut 35 u).

Definition fragment (u : string) : string := snd (cut 35 u).

Definition parses (before : string) : bool :=
  negb (has_ctl before) && escapes_ok (fst (cut 63 before)).

Definition valid (u : string) : bool :=
  parses (before_fragment u) && escapes_ok (fragment u).

(** The text the error of [url.Parse] names: the part before the fragment
    when that part does not parse, the whole text when the fragment does
    not. *)
Definition reported (u : string) : string :=
  if parses (before_fragment u) then u else before_fragment u.
End url.

Module multipart.
(** One part of a form: a plain field, or a file with its file name. *)
Record Part := mkPart {
  FormName : string;
  FileName : option string;
  Content : string }.

(** The writer: the boundary it drew and the parts written so far. *)
Record Writer := mkWriter { Boundary : string; Parts : list Part }.

Definition NewWriter (boundary : string) : Writer := mkWriter boundary [].

(** [w.WriteField(name, value)]; writing into a [bytes.Buffer] cannot
    fail. *)
Definition WriteField (name value : string) (w : Writer) : lib_error + Writer :=
  inr (mkWriter (Boundary w) (Parts w ++ [mkPart name None value])).

(** [w.CreateFormFile(name, filename)]: a new, empty file part. *)
Definition CreateFormFile (name filename : string) (w : Writer) : lib_error + Writer :=
  inr (mkWriter (Boundary w) (Parts w ++ [mkPart name (Some filename) ""])).

(** Bytes written to the part created last. *)
Definition write_part (bytes : string) (w : Writer) : Writer :=
  match reverse (Parts w) with
  | p :: ps =>
      mkWriter (Boundary w)
        (reverse ps ++ [mkPart (FormName p) (FileName p) (Content p +:+ bytes)])
  | [] => w
  end.

(** [w.Close()]: the closing boundary is written. *)
Definition Close (w : Writer) : lib_error + Writer := inr w.

Definition FormDataContentType (w : Writer) : string :=
  "multipart/form-data; boundary=" +:+ Boundary w.
End multipart.

Module http.
Definition StatusOK : Z := 200.
Definition StatusNoContent : Z := 204.

(** What a request carries.  The encoders of the libraries are taken as
    faithful: a form is its values, a marshalled value its tree, a
    multipart body its boundary and parts. *)
Inductive Body :=
| NoBody
| RawBody (bytes : string)
| FormBody (values : url.Values)
| JSONBody (doc : jdoc)
| MultipartBody (boundary : string) (parts : list multipart.Part).

Abbreviation Header := (gmap string (list string)).

Record Request := mkRequest {
  Method : string;
  URL : string;
  Headers : Header;
  ReqBody : Body }.

(** The body of a response is the bytes [io.ReadAll] or the decoder get. *)
Record Response := mkResponse { StatusCode : Z; RespBody : string }.

(** The timeout is in seconds. *)
Record Client := mkClient { Timeout : Z }.

Definition NewRequest (method url : string) (body : Body) : lib_error + Request :=
  if url.valid url then inr (mkRequest method url ∅ body)
  else inl (url_Error (url.reported url)).

(** [req.Header.Set(key, value)] *)
Definition Header_Set (key value : string) (req : Request) : Request :=
  mkRequest (Method req) (URL req) (<[key := [value]]> (Headers req)) (ReqBody req).

(** [req.Header.Get(key)]: the first value, or the empty string. *)
Definition Header_Get (key : string) (req : Request) : string :=
  match Headers req !! key with
  | Some (v :: _) => v
  | _ => ""
  end.
End http.

(* ===================================================================== *)
(** * The world the package runs in *)
(* ===================================================================== *)

(** What [client.Do] returns: a response, or an error and no response. *)
Inductive Reply :=
| Failed (err : lib_error)
| Answered (resp : http.Response).

Definition Exchange : Type := http.Request * Reply.

(** What [os.Open] and the reads that follow find at a path. *)
Inductive File :=
| NoFile (err : string)          (* does not open *)
| Unreadable (err : string)      (* opens, reading fails (a directory, an I/O error) *)
| Regular (content : string).

(** The far side of the wire and the local machine.  The servers answer a
    request knowing the exchanges so far; every exchange is logged.
    [boundaries n] is the boundary the n-th multipart writer draws. *)
Record World := mkWorld {
  servers : list Exchange → http.Client → http.Request → Reply;
  exchanges : list Exchange;
  files : string → File;
  boundaries : nat → string;
  writers : nat }.

(** The request handler: the HTTP client and the token, nil until a login
    succeeds. *)
Record requestHandler := mkRequestHandler {
  client : http.Client;
  jwtToken : option JWTToken.t }.

(** The program state: the request handlers by address, and the world. *)
Record State := mkState {
  handlers : list requestHandler;
  world : World }.

(** A run ends with a value and a state, or in a runtime panic. *)
Inductive Outcome (A : Type) :=
| Done (a : A) (σ : State)
| Panic (σ : State).
Arguments Done {A} a σ.
Arguments Panic {A} σ.

Definition M (A : Type) : Type := State → Outcome A.

#[global] Instance M_ret : MRet M := λ A a σ, Done a σ.

#[global] Instance M_bind : MBind M := λ A B f m σ,
  match m σ with
  | Done a σ' => f a σ'
  | Panic σ' => Panic σ'
  end.

Definition panic {A} : M A := λ σ, Panic σ.

(** Reading through a handler pointer; a pointer to nothing panics. *)
Definition deref (l : loc) : M requestHandler := λ σ,
  match handlers σ !! l with
  | Some rh => Done rh σ
  | None => Panic σ
  end.

(** [rh.jwtToken = &token] *)
Definition set_jwtToken (l : loc) (token : JWTToken.t) : M unit := λ σ,
  match handlers σ !! l with
  | Some rh =>
      Done () (mkState (<[l := mkRequestHandler (client rh) (Some token)]> (handlers σ)) (world σ))
  | None => Panic σ
  end.

(** [&requestHandler{...}] *)
Definition alloc (rh : requestHandler) : M loc := λ σ,
  Done (length (handlers σ)) (mkState (handlers σ ++ [rh]) (world σ)).

(** [client.Do(req)]: the servers answer, the exchange is logged. *)
Definition Do (c : http.Client) (req : http.Request) : M Reply := λ σ,
  let w := world σ in
  let reply := servers w (exchanges w) c req in
  Done reply
    (mkState (handlers σ)
       (mkWorld (servers w) (exchanges w ++ [(req, reply)]) (files w) (boundaries w) (writers w))).

(** [os.Open(path)] and reading the file to its end. *)
Definition Open (path : string) : M File := λ σ, Done (files (world σ) path) σ.

(** [io.Copy(part, file)]: the bytes of the file go into the part created
    last, unless reading fails. *)
Definition Copy (file : File) (w : multipart.Writer) : lib_error + multipart.Writer :=
  match file with
  | Regular content => inr (multipart.write_part content w)
  | NoFile err | Unreadable err => inl (os_Error err)
  end.

(** [multipart.NewWriter(body)]: a fresh boundary is drawn. *)
Definition NewWriter : M multipart.Writer := λ σ,
  let w := world σ in
  Done (multipart.NewWriter (boundaries w (writers w)))
    (mkState (handlers σ)
       (mkWorld (servers w) (exchanges w) (files w) (boundaries w) (S (writers w)))).

(* ===================================================================== *)
(** * The request handler *)
(* ===================================================================== *)

(** [newRequestHandler]: default settings, no token. *)
Definition newRequestHandler : M loc :=
  alloc (mkRequestHandler (http.mkClient 30) None).

(** [login] authenticates the user and stores the token. *)
Definition login (rh : loc) (loginData : Login.t) : M error :=
  let data := url.Values_Set "grant_type" grantTypePassword ∅ in
  let data := url.Values_Set "client_id" clientID data in
  let data := url.Values_Set "scope" scopeOpenID data in
  let data := url.Values_Set "username" (Login.Email loginData) data in
  let data := url.Values_Set "password" (Login.Password loginData) data in
  match http.NewRequest "POST" openIDConnect (http.FormBody data) with
  | inl err => mret (Some (Wrapf "failed to create login request: " err))
  | inr req =>
      let req := http.Header_Set "Content-Type" contentTypeForm req in
      h ← deref rh;
      reply ← Do (client h) req;
      match reply with
      | Failed err => mret (Some (Wrapf "login request failed: " err))
      | Answered resp =>
          if negb (http.StatusCode resp =? http.StatusOK) then
            mret (Some (Errorf (status_message "login failed"
                                  (http.StatusCode resp) (http.RespBody resp))))
          else
            match JWTToken.decode (http.RespBody resp) with
            | None => mret (Some (Wrapf "failed to decode token: " json_Error))
            | Some token => set_jwtToken rh token;; mret nil_error
            end
      end
  end.

(** The bearer header, attached when a token is present. *)
Definition with_bearer (h : requestHandler) (req : http.Request) : http.Request :=
  match jwtToken h with
  | Some token =>
      http.Header_Set "Authorization" ("Bearer " +:+ JWTToken.AccessToken token) req
  | None => req
  end.

(** [executeGetRequest] performs a GET request with authentication and
    decodes the answer into a zero value of the result type. *)
Definition executeGetRequest {A} (rh : loc) (u : string) (result : Decoder A)
  : M (error_value + A) :=
  match http.NewRequest "GET" u http.NoBody with
  | inl err => mret (inl (Wrapf "failed to create request: " err))
  | inr req =>
      h ← deref rh;
      let req := with_bearer h req in
      reply ← Do (client h) req;
      match reply with
      | Failed err => mret (inl (Wrapf "request failed: " err))
      | Answered resp =>
          if negb (http.StatusCode resp =? http.StatusOK) then
            mret (inl (Errorf (status_message "request failed"
                                 (http.StatusCode resp) (http.RespBody resp))))
          else
            match result (http.RespBody resp) with
            | None => mret (inl (Wrapf "failed to decode response: " json_Error))
            | Some v => mret (inr v)
            end
      end
  end.

(** [executePatchRequest] performs a PATCH request with authentication. *)
Definition executePatchRequest (rh : loc) (u : string) (body : http.Body) : M error :=
  match http.NewRequest "PATCH" u body with
  | inl err => mret (Some (Wrapf "failed to create request: " err))
  | inr req =>
      let req := http.Header_Set "Content-Type" contentTypeJSON req in
      h ← deref rh;
      let req := with_bearer h req in
      reply ← Do (client h) req;
      match reply with
      | Failed err => mret (Some (Wrapf "request failed: " err))
      | Answered resp =>
          if negb (http.StatusCode resp =? http.StatusOK)
             && negb (http.StatusCode resp =? http.StatusNoContent) then
            mret (Some (Errorf (status_message "request failed"
                                  (http.StatusCode resp) (http.RespBody resp))))
          else mret nil_error
      end
  end.

Definition getMe (rh : loc) : M (error_value + Me.t) :=
  executeGetRequest rh me Me.decode.

Definition getHouseholds (rh : loc) : M (error_value + slice Household.t) :=
  executeGetRequest rh households Household.decode_list.

(** [getCreativeTonies]: every tonie of the answer gets the household and
    the request handler it came through.  The household is a pointer. *)
Definition getCreativeTonies (rh : loc) (household : option Household.t)
  : M (error_value + slice CreativeTonie.t) :=
  match household with
  | None => panic
  | Some hh =>
      r ← executeGetRequest rh (creativeTonies (Household.ID hh)) CreativeTonie.decode_list;
      match r with
      | inl err => mret (inl err)
      | inr result =>
          mret (inr (fmap (M := list)
                       (λ t, CreativeTonie.set_requestHandler (Some rh)
                               (CreativeTonie.set_household household t))
                     <$> result))
      end
  end.

(** [refreshTonie] retrieves the latest state of a Creative-Tonie. *)
Definition refreshTonie (rh : loc) (tonie : CreativeTonie.t)
  : M (error_value + CreativeTonie.t) :=
  match CreativeTonie.household tonie with
  | None => panic
  | Some hh =>
      r ← executeGetRequest rh (creativeTonie (Household.ID hh) (CreativeTonie.ID tonie))
            CreativeTonie.decode;
      match r with
      | inl err => mret (inl err)
      | inr result =>
          mret (inr (CreativeTonie.set_requestHandler (Some rh)
                       (CreativeTonie.set_household (CreativeTonie.household tonie) result)))
      end
  end.

(** [commitTonie] saves changes to a Creative-Tonie. *)
Definition commitTonie (rh : loc) (tonie : CreativeTonie.t) : M error :=
  match CreativeTonie.household tonie with
  | None => panic
  | Some hh =>
      let u := creativeTonie (Household.ID hh) (CreativeTonie.ID tonie) in
      match CreativeTonie.marshal tonie with
      | None => mret (Some (Wrapf "failed to marshal tonie: " json_Error))
      | Some body => executePatchRequest rh u (http.JSONBody body)
      end
  end.

(** The body of the credential request: an object whose member [headers]
    is an empty object. *)
Definition emptyBody : string := "{" +:+ quoted "headers" +:+ ":{}}".

(** [uploadFile] uploads a file to a Creative-Tonie: the tonie after the
    call, and the error. *)
Definition uploadFile (rh : loc) (tonie : CreativeTonie.t) (filePath title : string)
  : M (CreativeTonie.t * error) :=
  let fail (e : error_value) : M (CreativeTonie.t * error) := mret (tonie, Some e) in
  (* Step 1: request upload credentials *)
  match http.NewRequest "POST" fileUpload (http.RawBody emptyBody) with
  | inl err => fail (Wrapf "failed to create upload request: " err)
  | inr req =>
      let req := http.Header_Set "Content-Type" contentTypeJSON req in
      h ← deref rh;
      match jwtToken h with
      | None => panic
      | Some token =>
          let req :=
            http.Header_Set "Authorization" ("Bearer " +:+ JWTToken.AccessToken token) req in
          reply ← Do (client h) req;
          match reply with
          | Failed err => fail (Wrapf "upload request failed: " err)
          | Answered resp =>
              if negb (http.StatusCode resp =? http.StatusOK) then
                fail (Errorf (status_message "upload request failed"
                                (http.StatusCode resp) (http.RespBody resp)))
              else
                match AmazonBean.decode (http.RespBody resp) with
                | None => fail (Wrapf "failed to decode amazon response: " json_Error)
                | Some amazonBean =>
                    (* Step 2: upload the file to the object storage *)
                    file ← Open filePath;
                    match file with
                    | NoFile err => fail (Wrapf "failed to open file: " (os_Error err))
                    | _ =>
                        writer ← NewWriter;
                        let fields := RequestBean.Fields (AmazonBean.Request amazonBean) in
                        match multipart.WriteField "key" (FieldsBean.Key fields) writer with
                        | inl err => fail (Wrapf "failed to write key field: " err)
                        | inr writer =>
                        match multipart.WriteField "x-amz-algorithm"
                                (FieldsBean.XAmzAlgorithm fields) writer with
                        | inl err => fail (Wrapf "failed to write x-amz-algorithm field: " err)
                        | inr writer =>
                        match multipart.WriteField "x-amz-credential"
                                (FieldsBean.XAmzCredential fields) writer with
                        | inl err => fail (Wrapf "failed to write x-amz-credential field: " err)
                        | inr writer =>
                        match multipart.WriteField "x-amz-date"
                                (FieldsBean.XAmzDate fields) writer with
                        | inl err => fail (Wrapf "failed to write x-amz-date field: " err)
                        | inr writer =>
                        match multipart.WriteField "policy" (FieldsBean.Policy fields) writer with
                        | inl err => fail (Wrapf "failed to write policy field: " err)
                        | inr writer =>
                        match multipart.WriteField "x-amz-signature"
                                (FieldsBean.XAmzSignature fields) writer with
                        | inl err => fail (Wrapf "failed to write x-amz-signature field: " err)
                        | inr writer =>
                        match multipart.WriteField "x-amz-security-token"
                                (FieldsBean.XAmzSecurityToken fields) writer with
                        | inl err => fail (Wrapf "failed to write x-amz-security-token field: " err)
                        | inr writer =>
                        (* the file part *)
                        match multipart.CreateFormFile "file" (FieldsBean.Key fields) writer with
                        | inl err => fail (Wrapf "failed to create form file: " err)
                        | inr writer =>
                        match Copy file writer with
                        | inl err => fail (Wrapf "failed to copy file: " err)
                        | inr writer =>
                        match multipart.Close writer with
                        | inl err => fail (Wrapf "failed to close writer: " err)
                        | inr writer =>
                        match http.NewRequest "POST" fileUploadAmazon
                                (http.MultipartBody (multipart.Boundary writer)
                                   (multipart.Parts writer)) with
                        | inl err => fail (Wrapf "failed to create S3 request: " err)
                        | inr s3Req =>
                            let s3Req :=
                              http.Header_Set "Content-Type"
                                (multipart.FormDataContentType writer) s3Req in
                            s3Reply ← Do (client h) s3Req;
                            match s3Reply with
                            | Failed err => fail (Wrapf "S3 upload failed: " err)
                            | Answered s3Resp =>
                                if negb (http.StatusCode s3Resp =? http.StatusNoContent)
                                   && negb (http.StatusCode s3Resp =? http.StatusOK) then
                                  fail (Errorf (status_message "S3 upload failed"
                                                  (http.StatusCode s3Resp)
                                                  (http.RespBody s3Resp)))
                                else
                                  (* Step 3: add the chapter to the tonie *)
                                  let newChapter :=
                                    Chapter.mk (FieldsBean.Key fields)
                                      (AmazonBean.FileID amazonBean) title
                                      float64_zero false in
                                  mret (CreativeTonie.set_Chapters
                                          (append (CreativeTonie.Chapters tonie) newChapter)
                                          tonie,
                                        nil_error)
                            end
                        end end end end end end end end end end end
                    end
                end
          end
      end
  end.

(** [disconnect] terminates the session. *)
Definition disconnect (rh : loc) : M error :=
  match http.NewRequest "DELETE" session http.NoBody with
  | inl err => mret (Some (Wrapf "failed to create disconnect request: " err))
  | inr req =>
      h ← deref rh;
      let req := with_bearer h req in
      reply ← Do (client h) req;
      match reply with
      | Failed err => mret (Some (Wrapf "disconnect request failed: " err))
      | Answered resp =>
          if negb (http.StatusCode resp =? http.StatusOK)
             && negb (http.StatusCode resp =? http.StatusNoContent) then
            mret (Some (Errorf (status_message "disconnect failed"
                                  (http.StatusCode resp) (http.RespBody resp))))
          else mret nil_error
      end
  end.

(* ===================================================================== *)
(** * The client *)
(* ===================================================================== *)

Module Client.
Record t := mk { requestHandler : loc }.

(** [NewClient] creates a client with default settings. *)
Definition NewClient : M t := rh ← newRequestHandler; mret (mk rh).

Definition Login (c : t) (username password : string) : M error :=
  login (requestHandler c) (Login.mk username password).

Definition GetMe (c : t) : M (error_value + Me.t) := getMe (requestHandler c).

Definition GetHouseholds (c : t) : M (error_value + slice Household.t) :=
  getHouseholds (requestHandler c).

Definition GetCreativeTonies (c : t) (household : option Household.t)
  : M (error_value + slice CreativeTonie.t) :=
  getCreativeTonies (requestHandler c) household.
End Client.

(* ===================================================================== *)
(** * Methods of a Creative-Tonie *)
(* ===================================================================== *)

(** The loop of [FindChapterByTitle] over the chapters from a position on. *)
Fixpoint find_title (title : string) (chapters : list Chapter.t) : option Chapter.t :=
  match chapters with
  | [] => None
  | c :: rest => if String.eqb (Chapter.Title c) title then Some c else find_title title rest
  end.

(** [FindChapterByTitle]: the chapter found, or nil. *)
Definition FindChapterByTitle (ct : CreativeTonie.t) (title : string) : option Chapter.t :=
  find_title title (elems (CreativeTonie.Chapters ct)).

(** The loop of [DeleteChapter]: [newChapters] after the chapters seen. *)
Fixpoint keep_others (id : string) (chapters : list Chapter.t) (newChapters : slice Chapter.t)
  : slice Chapter.t :=
  match chapters with
  | [] => newChapters
  | c :: rest =>
      if negb (String.eqb (Chapter.ID c) id)
      then keep_others id rest (append newChapters c)
      else keep_others id rest newChapters
  end.

(** [DeleteChapter]: the tonie after the call.  The chapter is a pointer;
    it is read once per chapter of the tonie, so a nil pointer panics
    unless the tonie has no chapter. *)
Definition DeleteChapter (ct : CreativeTonie.t) (chapter : option Chapter.t)
  : M CreativeTonie.t :=
  match chapter, elems (CreativeTonie.Chapters ct) with
  | None, _ :: _ => panic
  | None, [] => mret (CreativeTonie.set_Chapters None ct)
  | Some c, chapters =>
      mret (CreativeTonie.set_Chapters (keep_others (Chapter.ID c) chapters None) ct)
  end.

Definition not_initialized : error_value := Errorf "tonie not properly initialized".

(** [UploadFile]: the tonie after the call, and the error. *)
Definition UploadFile (ct : CreativeTonie.t) (title filePath : string)
  : M (CreativeTonie.t * error) :=
  match CreativeTonie.requestHandler ct with
  | None => mret (ct, Some not_initialized)
  | Some rh => uploadFile rh ct filePath title
  end.

(** [Commit] *)
Definition Commit (ct : CreativeTonie.t) : M error :=
  match CreativeTonie.requestHandler ct with
  | None => mret (Some not_initialized)
  | Some rh => commitTonie rh ct
  end.

(** [Refresh]: the tonie after the call, and the error. *)
Definition Refresh (ct : CreativeTonie.t) : M (CreativeTonie.t * error) :=
  match CreativeTonie.requestHandler ct with
  | None => mret (ct, Some not_initialized)
  | Some rh =>
      r ← refreshTonie rh ct;
      match r with
      | inl err => mret (ct, Some err)
      | inr refreshed =>
          mret (CreativeTonie.mk
                  (CreativeTonie.ID refreshed)
                  (CreativeTonie.Name refreshed)
                  (CreativeTonie.Live refreshed)
                  (CreativeTonie.Private refreshed)
                  (CreativeTonie.ImageURL refreshed)
                  (CreativeTonie.TranscodingErrors refreshed)
                  (CreativeTonie.Transcoding refreshed)
                  (CreativeTonie.SecondsPresent refreshed)
                  (CreativeTonie.SecondsRemaining refreshed)
                  (CreativeTonie.ChaptersPresent refreshed)
                  (CreativeTonie.ChaptersRemaining refreshed)
                  (CreativeTonie.Chapters refreshed)
                  (CreativeTonie.HouseholdID refreshed)
                  (CreativeTonie.household ct)
                  (CreativeTonie.requestHandler ct),
                nil_error)
      end
  end.

(* ===================================================================== *)
(** * Sequences of calls on one client *)
(* ===================================================================== *)

(** One call of a program that uses the package: a method of the client
    (or the disconnect of its handler), or a method of a tonie. *)
Inductive Op :=
| OpLogin (username password : string)
| OpGetMe
| OpGetHouseholds
| OpGetCreativeTonies (household : option Household.t)
| OpDisconnect
| OpRefresh (ct : CreativeTonie.t)
| OpCommit (ct : CreativeTonie.t)
| OpUploadFile (ct : CreativeTonie.t) (title filePath : string)
| OpDeleteChapter (ct : CreativeTonie.t) (chapter : option Chapter.t).

Definition call (c : Client.t) (op : Op) : M unit :=
  match op with
  | OpLogin username password => Client.Login c username password;; mret ()
  | OpGetMe => Client.GetMe c;; mret ()
  | OpGetHouseholds => Client.GetHouseholds c;; mret ()
  | OpGetCreativeTonies household => Client.GetCreativeTonies c household;; mret ()
  | OpDisconnect => disconnect (Client.requestHandler c);; mret ()
  | OpRefresh ct => Refresh ct;; mret ()
  | OpCommit ct => Commit ct;; mret ()
  | OpUploadFile ct title filePath => UploadFile ct title filePath;; mret ()
  | OpDeleteChapter ct chapter => DeleteChapter ct chapter;; mret ()
  end.

(** The calls in order; a panic ends the program. *)
Fixpoint run (c : Client.t) (ops : list Op) : M unit :=
  match ops with
  | [] => mret ()
  | op :: rest => call c op;; run c rest
  end.

(** The state a run ends in. *)
Definition final {A} (o : Outcome A) : State :=
  match o with
  | Done _ σ => σ
  | Panic σ => σ
  end.

(** The token a handler holds. *)
Definition stored_token (rh : loc) (σ : State) : option JWTToken.t :=
  h ← handlers σ !! rh; jwtToken h.

(** The token an exchange delivered, when the exchange is a login that
    succeeded: a POST to the identity endpoint answered 200 with a body
    that decodes. *)
Definition login_token (x : Exchange) : option JWTToken.t :=
  match x with
  | (req, Answered resp) =>
      if String.eqb (http.Method req) "POST"
         && String.eqb (http.URL req) openIDConnect
         && (http.StatusCode resp =? http.StatusOK)
      then JWTToken.decode (http.RespBody resp)
      else None
  | (_, Failed _) => None
  end.

(** The tokens delivered by the successful logins of a log, in order. *)
Definition login_tokens (log : list Exchange) : list JWTToken.t := omap login_token log.

(** The requests of a log. *)
Definition requests (log : list Exchange) : list http.Request := fst <$> log.

(* ===================================================================== *)
(** * Test worlds *)
(* ===================================================================== *)

(** A JSON member whose value is a string. *)
Definition jmember (k v : string) : string := quoted k +:+ ":" +:+ quoted v.

(** A world with no file, whose servers are given. *)
Definition world_of (servers : list Exchange → http.Client → http.Request → Reply)
    (files : string → File) : World :=
  mkWorld servers [] files (λ n, "boundary" +:+ pretty (Z.of_nat n)) 0.

Definition no_files : string → File := λ path, NoFile "no such file or directory".

Definition ok (body : string) : Reply := Answered (http.mkResponse 200 body).

(* ===================================================================== *)
(** * Reading the log of an upload *)
(* ===================================================================== *)

(** The state after one more exchange. *)
Definition logged (σ : State) (req : http.Request) (reply : Reply) : State :=
  let w := world σ in
  mkState (handlers σ)
    (mkWorld (servers w) (exchanges w ++ [(req, reply)]) (files w) (boundaries w) (writers w)).

(** The state after one more multipart writer. *)
Definition drawn (σ : State) : State :=
  let w := world σ in
  mkState (handlers σ)
    (mkWorld (servers w) (exchanges w) (files w) (boundaries w) (S (writers w))).

(** The ticket a reply to the credential request delivers: the reply is a
    response, its status is 200 and its body decodes. *)
Definition credentials (r : Reply) : option AmazonBean.t :=
  match r with
  | Answered resp =>
      if http.StatusCode resp =? http.StatusOK then AmazonBean.decode (http.RespBody resp)
      else None
  | Failed _ => None
  end.

(** A reply of the object storage that accepts the upload: 200 or 204. *)
Definition stored (r : Reply) : bool :=
  match r with
  | Answered resp =>
      (http.StatusCode resp =? http.StatusOK) || (http.StatusCode resp =? http.StatusNoContent)
  | Failed _ => false
  end.

Definition readable (f : File) : bool :=
  match f with
  | Regular _ => true
  | NoFile _ | Unreadable _ => false
  end.

(** Step 1 of an upload succeeded: the log of the call starts with an
    exchange that delivered a ticket. *)
Definition step1_ok (new : list Exchange) : bool :=
  match new with
  | x1 :: _ => bool_decide (is_Some (credentials (snd x1)))
  | [] => false
  end.

(** Step 2 succeeded: the file opened and was read, and the log of the call
    goes on with exactly one exchange, accepted by the object storage. *)
Definition step2_ok (file : File) (new : list Exchange) : bool :=
  readable file &&
  match new with
  | [_; x2] => stored (snd x2)
  | _ => false
  end.

(** The form the object storage expects for a ticket and a file content:
    the seven signed-policy fields in their order, then the file. *)
Definition policy_form (bean : AmazonBean.t) (content : string) : list multipart.Part :=
  let f := RequestBean.Fields (AmazonBean.Request bean) in
  [ multipart.mkPart "key" None (FieldsBean.Key f);
    multipart.mkPart "x-amz-algorithm" None (FieldsBean.XAmzAlgorithm f);
    multipart.mkPart "x-amz-credential" None (FieldsBean.XAmzCredential f);
    multipart.mkPart "x-amz-date" None (FieldsBean.XAmzDate f);
    multipart.mkPart "policy" None (FieldsBean.Policy f);
    multipart.mkPart "x-amz-signature" None (FieldsBean.XAmzSignature f);
    multipart.mkPart "x-amz-security-token" None (FieldsBean.XAmzSecurityToken f);
    multipart.mkPart "file" (Some (FieldsBean.Key f)) content ].

(** The bearer value of a token. *)
Definition bearer (token : JWTToken.t) : string := "Bearer " +:+ JWTToken.AccessToken token.

(** The request of step 1, and the request of step 2 for a ticket and the
    content of the file. *)
Definition credential_request (req : http.Request) : Prop :=
  http.Method req = "POST" ∧ http.URL req = fileUpload.

Definition storage_request (bean : AmazonBean.t) (content : string) (req : http.Request)
  : Prop :=
  http.Method req = "POST" ∧ http.URL req = fileUploadAmazon
  ∧ ∃ boundary, http.ReqBody req = http.MultipartBody boundary (policy_form bean content).

(** The chapter step 3 makes of a ticket and a title. *)
Definition chapter_of (bean : AmazonBean.t) (title : string) : Chapter.t :=
  Chapter.mk (FieldsBean.Key (RequestBean.Fields (AmazonBean.Request bean)))
    (AmazonBean.FileID bean) title float64_zero false.

(** The ways an upload that does not panic can go: the exchanges it logs,
    the tonie and the error it returns.  [file] is what is at the path. *)
Inductive upload_path (tonie : CreativeTonie.t) (title : string) (file : File)
  : list Exchange → CreativeTonie.t → error → Prop :=
| upload_refused x1 e :
    credential_request (fst x1) →
    credentials (snd x1) = None →
    upload_path tonie title file [x1] tonie (Some e)
| upload_unread x1 bean e :
    credential_request (fst x1) →
    credentials (snd x1) = Some bean →
    readable file = false →
    upload_path tonie title file [x1] tonie (Some e)
| upload_rejected x1 x2 bean content e :
    credential_request (fst x1) →
    credentials (snd x1) = Some bean →
    file = Regular content →
    storage_request bean content (fst x2) →
    stored (snd x2) = false →
    upload_path tonie title file [x1; x2] tonie (Some e)
| upload_stored x1 x2 bean content :
    credential_request (fst x1) →
    credentials (snd x1) = Some bean →
    file = Regular content →
    storage_request bean content (fst x2) →
    stored (snd x2) = true →
    upload_path tonie title file [x1; x2]
      (CreativeTonie.set_Chapters
         (append (CreativeTonie.Chapters tonie) (chapter_of bean title)) tonie)
      nil_error.

(** The request a login sends. *)
Definition login_request (loginData : Login.t) : http.Request :=
  http.Header_Set "Content-Type" contentTypeForm
    (http.mkRequest "POST" openIDConnect ∅
       (http.FormBody
          (url.Values_Set "password" (Login.Password loginData)
             (url.Values_Set "username" (Login.Email loginData)
                (url.Values_Set "scope" scopeOpenID
                   (url.Values_Set "client_id" clientID
                      (url.Values_Set "grant_type" grantTypePassword ∅))))))).

(** A request that the package authenticates with the stored token when it
    has one: a GET or a PATCH. *)
Definition authenticated (req : http.Request) : Prop :=
  http.Method req = "GET" ∨ http.Method req = "PATCH".

(** Every GET and PATCH of a log carries the bearer value of the token. *)
Definition bearing (token : JWTToken.t) (log : list Exchange) : Prop :=
  ∀ x, x ∈ log → authenticated (fst x) →
       http.Header_Get "Authorization" (fst x) = bearer token.

(** The token a handler holds after a log of exchanges of its client, when
    it held [before] at the start: the token of the last successful login. *)
Definition token_after (before : option JWTToken.t) (log : list Exchange)
  : option JWTToken.t :=
  match last (login_tokens log) with
  | Some token => Some token
  | None => before
  end.

(** An outcome reached from the state [σ] by requests sent through the
    handler [rh], none of them a login: the handlers are left as they
    are, the exchanges added to the log contain no successful login, and
    when the handler holds a token every GET and PATCH among them carries
    it. *)
Definition quiet_from (rh : loc) (σ : State) {A} (o : Outcome A) : Prop :=
  handlers (final o) = handlers σ
  ∧ ∃ new,
      exchanges (world (final o)) = exchanges (world σ) ++ new
      ∧ login_tokens new = []
      ∧ ∀ h token, handlers σ !! rh = Some h → jwtToken h = Some token →
                   bearing token new.

Definition quiet_through (rh : loc) {A} (m : M A) : Prop :=
  ∀ σ, quiet_from rh σ (m σ).

(** A call made after a login on the client [c], before the next login: a
    method of the client other than [Login], or a method of a tonie that
    was fetched through this client. *)
Definition on_client (c : Client.t) (op : Op) : Prop :=
  match op with
  | OpLogin _ _ => False
  | OpRefresh ct | OpCommit ct | OpUploadFile ct _ _ =>
      CreativeTonie.requestHandler ct = Some (Client.requestHandler c)
  | _ => True
  end.

(** The reading of the token rule that the code does not follow: after a
    run with two or more successful logins the handler still holds the token
    of the first of them. *)
Definition token_written_once (c : Client.t) (ops : list Op) (σ : State) : Prop :=
  ∀ new,
    exchanges (world (final (run c ops σ))) = exchanges (world σ) ++ new →
    (2 <= length (login_tokens new))%nat →
    stored_token (Client.requestHandler c) (final (run c ops σ)) = head (login_tokens new).

(** Whether a GET returned an error. *)
Definition failed {A} (o : Outcome (error_value + A)) : Prop :=
  match o with
  | Done (inl _) _ => True
  | _ => False
  end.

(** The reading of the status rule that the code does not follow: a GET
    that got a response returns an error exactly when the status is not
    200. *)
Definition get_fails_on_status_only {A} (dec : Decoder A) (rh : loc) (u : string) (σ : State)
  : Prop :=
  ∀ req resp,
    exchanges (world (final (executeGetRequest rh u dec σ)))
    = exchanges (world σ) ++ [(req, Answered resp)] →
    (failed (executeGetRequest rh u dec σ) ↔ http.StatusCode resp ≠ http.StatusOK).

(** The tags of the serialised fields of a Creative-Tonie. *)
Definition tonie_tags : list string :=
  [ "id"; "name"; "live"; "private"; "imageUrl"; "transcodingErrors"; "transcoding";
    "secondsPresent"; "secondsRemaining"; "chaptersPresent"; "chaptersRemaining";
    "chapters"; "householdId" ].

(** ** Mock servers *)

Definition token_body (access_token : string) : string :=
  "{" +:+ jmember "access_token" access_token +:+ "," +:+ jmember "token_type" "Bearer" +:+ "}".

Definition ticket_body : string :=
  "{" +:+ jmember "fileId" "f1" +:+ "," +:+ quoted "request" +:+ ":{"
  +:+ jmember "url" fileUploadAmazon +:+ "," +:+ quoted "fields" +:+ ":{"
  +:+ jmember "key" "k1" +:+ "," +:+ jmember "policy" "pol" +:+ ","
  +:+ jmember "x-amz-algorithm" "AWS4-HMAC-SHA256" +:+ ","
  +:+ jmember "x-amz-credential" "cred" +:+ "," +:+ jmember "x-amz-date" "20240101T000000Z"
  +:+ "," +:+ jmember "x-amz-signature" "sig" +:+ ","
  +:+ jmember "x-amz-security-token" "sec" +:+ "}}}".

Definition tonie_body : string :=
  "{" +:+ jmember "id" "t1" +:+ "," +:+ jmember "name" "Bedtime" +:+ ","
  +:+ quoted "live" +:+ ":true," +:+ quoted "secondsPresent" +:+ ":12.5,"
  +:+ quoted "chaptersPresent" +:+ ":1," +:+ quoted "chapters" +:+ ":[{"
  +:+ jmember "id" "c9" +:+ "," +:+ jmember "title" "Lullaby" +:+ "}],"
  +:+ jmember "householdId" "h1" +:+ "}".

(** The identity endpoint hands out [abc123] at the first successful login
    and [xyz789] afterwards; the file endpoint a ticket; the object storage
    answers 204; the tonie t1 of the household h1 is served and accepts a
    PATCH; the profile endpoint answers 200 with a page that is no JSON;
    everything else is not found. *)
Definition mock_servers : list Exchange → http.Client → http.Request → Reply :=
  λ log _ req,
    let u := http.URL req in
    if String.eqb u openIDConnect then
      match login_tokens log with
      | [] => ok (token_body "abc123")
      | _ => ok (token_body "xyz789")
      end
    else if String.eqb u fileUpload then ok ticket_body
    else if String.eqb u fileUploadAmazon then Answered (http.mkResponse 204 "")
    else if String.eqb u (creativeTonie "h1" "t1") then
      if String.eqb (http.Method req) "PATCH" then Answered (http.mkResponse 204 "")
      else ok tonie_body
    else if String.eqb u me then ok "<html>maintenance</html>"
    else Answered (http.mkResponse 404 "not found").

Definition mock_files : string → File :=
  λ path, if String.eqb path "/music/story.mp3" then Regular "ID3 audio bytes"
          else NoFile "no such file or directory".

Definition c0 : Client.t := Client.mk 0%nat.

(** One client that has not logged in, and the same after a login. *)
Definition logged_out : State :=
  mkState [mkRequestHandler (http.mkClient 30) None] (world_of mock_servers mock_files).

Definition logged_in : State := final (Client.Login c0 "a@b.com" "pw" logged_out).

(** A tonie of the household h1, fetched through the client, with two
    chapters that share the identifier c1. *)
Definition h1 : Household.t := Household.mk "h1" "Home" "" false "owner" false "Ann".

Definition tonie0 : CreativeTonie.t :=
  CreativeTonie.mk "t1" "Old name" false false "" None false float64_zero float64_zero 3 96
    (Some [ Chapter.mk "c1" "file1" "Intro" float64_zero false;
            Chapter.mk "c2" "file2" "Story" float64_zero false;
            Chapter.mk "c1" "file3" "Outro" float64_zero false ])
    "h1" (Some h1) (Some 0%nat).

(** The value a run returned ([d] when it panicked). *)
Definition returned {A} (d : A) (o : Outcome A) : A :=
  match o with
  | Done a _ => a
  | Panic _ => d
  end.

(** No exchange of a log carries an Authorization header. *)
Definition unauthenticated (log : list Exchange) : Prop :=
  ∀ x, x ∈ log → http.Headers (fst x) !! "Authorization" = None.


(* ===================================================================== *)
(** * More worlds and readings of the log *)
(* ===================================================================== *)

(** Servers that refuse everything. *)
Definition refusing_servers : list Exchange → http.Client → http.Request → Reply :=
  λ _ _ _, Answered (http.mkResponse 401 "unauthorized").

(** The client that logged in, facing servers that now refuse. *)
Definition locked_out : State :=
  mkState (handlers logged_in) (world_of refusing_servers no_files).

(** Method and URL of the requests of a log. *)
Definition destinations (log : list Exchange) : list (string * string) :=
  (λ x, (http.Method (fst x), http.URL (fst x))) <$> log.

(** The requests a call may send, in order: method and URL. *)
Definition endpoints (op : Op) : list (string * string) :=
  match op with
  | OpLogin _ _ => [("POST", openIDConnect)]
  | OpGetMe => [("GET", me)]
  | OpGetHouseholds => [("GET", households)]
  | OpGetCreativeTonies (Some hh) => [("GET", creativeTonies (Household.ID hh))]
  | OpGetCreativeTonies None => []
  | OpDisconnect => [("DELETE", session)]
  | OpRefresh ct =>
      match CreativeTonie.household ct with
      | Some hh => [("GET", creativeTonie (Household.ID hh) (CreativeTonie.ID ct))]
      | None => []
      end
  | OpCommit ct =>
      match CreativeTonie.household ct with
      | Some hh => [("PATCH", creativeTonie (Household.ID hh) (CreativeTonie.ID ct))]
      | None => []
      end
  | OpUploadFile _ _ _ => [("POST", fileUpload); ("POST", fileUploadAmazon)]
  | OpDeleteChapter _ _ => []
  end.

(** The floats of a tonie that [json.Marshal] has to render. *)
Definition tonie_floats (ct : CreativeTonie.t) : list float64 :=
  CreativeTonie.SecondsPresent ct :: CreativeTonie.SecondsRemaining ct
  :: (Chapter.Seconds <$> elems (CreativeTonie.Chapters ct)).

(** A tonie without back-references, as a decoder leaves it. *)
Definition unwired (ct : CreativeTonie.t) : Prop :=
  CreativeTonie.household ct = None ∧ CreativeTonie.requestHandler ct = None.

(** The mock servers, with the listing endpoint of the household h1
    serving one tonie. *)
Definition listing_servers : list Exchange → http.Client → http.Request → Reply :=
  λ log c req,
    if String.eqb (http.URL req) (creativeTonies "h1") then ok ("[" +:+ tonie_body +:+ "]")
    else mock_servers log c req.

Definition listing_world : State :=
  mkState (handlers logged_in) (world_of listing_servers mock_files).

(** The state with another file system. *)
Definition with_files (files' : string → File) (σ : State) : State :=
  let w := world σ in
  mkState (handlers σ) (mkWorld (servers w) (exchanges w) files' (boundaries w) (writers w)).

(** The outcome of a run, seen in another file system. *)
Definition outcome_with_files {A} (files' : string → File) (o : Outcome A) : Outcome A :=
  match o with
  | Done a σ => Done a (with_files files' σ)
  | Panic σ => Panic (with_files files' σ)
  end.

(** Whether a text holds a number sign, which starts the fragment of a URL. *)
Fixpoint has_hash (s : string) : bool :=
  match s with
  | String c r => (code c =? 35) || has_hash r
  | EmptyString => false
  end.

(** A control byte that [url.Parse] sees in an identifier: one that stands
    before the first number sign of the identifier. *)
Definition visible_ctl (id : string) : bool := url.has_ctl (url.before_fragment id).

(* ===================================================================== *)
(** * Chapters: search and deletion *)
(* ===================================================================== *)

Section chapters.
Implicit Types (l : list Chapter.t) (c : Chapter.t) (ct : CreativeTonie.t).

Lemma elems_set_Chapters ct (s : slice Chapter.t) :
  elems (CreativeTonie.Chapters (CreativeTonie.set_Chapters s ct)) = elems s.
Proof. by destruct ct. Qed.

Lemma keep_others_elems id l (acc : slice Chapter.t) :
  elems (keep_others id l acc)
  = elems acc ++ filter (λ x, Chapter.ID x ≠ id) l.
Proof.
  revert acc. induction l as [|x l IH]; intros acc; simpl.
  - by rewrite app_nil_r.
  - destruct (String.eqb_spec (Chapter.ID x) id) as [Heq|Hne]; simpl.
    + rewrite IH. by rewrite filter_cons_False by (intros H; by apply H).
    + rewrite IH. rewrite filter_cons_True by done.
      unfold append. simpl. by rewrite <- app_assoc.
Qed.

Lemma find_title_None title l :
  find_title title l = None ↔ ∀ x, x ∈ l → Chapter.Title x ≠ title.
Proof.
  induction l as [|x l IH]; simpl.
  - split; [intros _ x Hx; by apply not_elem_of_nil in Hx | done].
  - destruct (String.eqb_spec (Chapter.Title x) title) as [Heq|Hne].
    + split; [done | intros H]. exfalso. apply (H x); [left | done].
    + rewrite IH. split.
      * intros H y Hy. apply elem_of_cons in Hy as [->|Hy]; auto.
      * intros H y Hy. apply H. by right.
Qed.

Lemma find_title_Some title l c :
  find_title title l = Some c ↔
  ∃ l1 l2, l = l1 ++ c :: l2 ∧ Chapter.Title c = title
           ∧ ∀ x, x ∈ l1 → Chapter.Title x ≠ title.
Proof.
  induction l as [|x l IH]; simpl.
  - split; [done | intros (l1 & l2 & H & _)]. by destruct l1.
  - destruct (String.eqb_spec (Chapter.Title x) title) as [Heq|Hne].
    + split.
      * intros [= ->]. exists [], l. split_and!; [done | done |].
        intros y Hy. by apply not_elem_of_nil in Hy.
      * intros (l1 & l2 & H & Ht & Hl1). destruct l1 as [|y l1]; simpl in H.
        -- by injection H as -> _.
        -- injection H as -> _. exfalso. apply (Hl1 y); [left | done].
    + rewrite IH. split.
      * intros (l1 & l2 & -> & Ht & Hl1). exists (x :: l1), l2.
        split_and!; [done | done |].
        intros y Hy. apply elem_of_cons in Hy as [->|Hy]; auto.
      * intros (l1 & l2 & H & Ht & Hl1). destruct l1 as [|y l1]; simpl in H.
        -- injection H as -> _. done.
        -- injection H as -> ->. exists l1, l2. split_and!; [done | done |].
           intros z Hz. apply Hl1. by right.
Qed.

Lemma length_filter_split id l :
  (length (filter (λ x, Chapter.ID x ≠ id) l)
   + length (filter (λ x, Chapter.ID x = id) l) = length l)%nat.
Proof.
  induction l as [|x l IH]; [done|].
  destruct (decide (Chapter.ID x = id)) as [Heq|Hne].
  - rewrite filter_cons_False by (intros H; by apply H).
    rewrite filter_cons_True by done. simpl. lia.
  - rewrite filter_cons_True by done.
    rewrite filter_cons_False by done. simpl. lia.
Qed.
End chapters.

(** C8.  [DeleteChapter] given a chapter returns without a panic and leaves
    the whole state (handlers, network log, files) as it was; the chapters of
    the tonie afterwards are exactly those whose identifier differs from the
    given one, in their order, so the length drops by the number of chapters
    with that identifier; searching the deleted chapter's title afterwards
    finds nothing when no remaining chapter has that title.
    [FindChapterByTitle] returns the first chapter whose title is equal to
    the query, and nothing exactly when no chapter has that title (in
    particular on the empty sequence). *)
Theorem DeleteChapter_FindChapterByTitle_spec :
  ∀ (ct : CreativeTonie.t) (c : Chapter.t) (σ : State),
    let before := elems (CreativeTonie.Chapters ct) in
    ∃ ct',
      DeleteChapter ct (Some c) σ = Done ct' σ
      ∧ elems (CreativeTonie.Chapters ct')
        = filter (λ x, Chapter.ID x ≠ Chapter.ID c) before
      ∧ (length (elems (CreativeTonie.Chapters ct'))
         = length before - length (filter (λ x, Chapter.ID x = Chapter.ID c) before))%nat
      ∧ ((∀ x, x ∈ elems (CreativeTonie.Chapters ct') → Chapter.Title x ≠ Chapter.Title c)
         → FindChapterByTitle ct' (Chapter.Title c) = None)
      ∧ (∀ (t : CreativeTonie.t) (title : string),
           (FindChapterByTitle t title = None
            ↔ ∀ x, x ∈ elems (CreativeTonie.Chapters t) → Chapter.Title x ≠ title)
           ∧ (∀ found,
                FindChapterByTitle t title = Some found
                ↔ ∃ l1 l2, elems (CreativeTonie.Chapters t) = l1 ++ found :: l2
                           ∧ Chapter.Title found = title
                           ∧ ∀ x, x ∈ l1 → Chapter.Title x ≠ title)
           ∧ (elems (CreativeTonie.Chapters t) = [] → FindChapterByTitle t title = None)).
Proof.
  intros ct c σ before.
  exists (CreativeTonie.set_Chapters (keep_others (Chapter.ID c) before None) ct).
  assert (Hel : elems (CreativeTonie.Chapters
                  (CreativeTonie.set_Chapters (keep_others (Chapter.ID c) before None) ct))
                = filter (λ x, Chapter.ID x ≠ Chapter.ID c) before).
  { rewrite elems_set_Chapters, keep_others_elems. done. }
  split_and!.
  - done.
  - exact Hel.
  - rewrite Hel. pose proof (length_filter_split (Chapter.ID c) before). lia.
  - intros H. unfold FindChapterByTitle. by apply find_title_None.
  - intros t title. unfold FindChapterByTitle. split_and!.
    + apply find_title_None.
    + intros found. apply find_title_Some.
    + intros ->. done.
Qed.

(* ===================================================================== *)
(** * The authenticated requests *)
(* ===================================================================== *)

(** Unfolding the monad of the package. *)
Ltac exec :=
  unfold mbind, mret, M_bind, M_ret, deref, Do, Open, NewWriter, set_jwtToken, panic in *;
  simpl in *.

Lemma Method_with_bearer h req : http.Method (with_bearer h req) = http.Method req.
Proof. unfold with_bearer. by destruct (jwtToken h). Qed.

Lemma URL_with_bearer h req : http.URL (with_bearer h req) = http.URL req.
Proof. unfold with_bearer. by destruct (jwtToken h). Qed.

Lemma ReqBody_with_bearer h req : http.ReqBody (with_bearer h req) = http.ReqBody req.
Proof. unfold with_bearer. by destruct (jwtToken h). Qed.

(** With a token the header is the bearer value of the token. *)
Lemma Header_Get_with_bearer h token req :
  jwtToken h = Some token →
  http.Header_Get "Authorization" (with_bearer h req) = bearer token.
Proof.
  intros Ht. unfold with_bearer, http.Header_Get, http.Header_Set. rewrite Ht. simpl.
  by rewrite lookup_insert_eq.
Qed.

(** Without a token no header is attached. *)
Lemma with_bearer_no_token h req : jwtToken h = None → with_bearer h req = req.
Proof. intros Ht. unfold with_bearer. by rewrite Ht. Qed.

(** The run of [executeGetRequest], in one equation. *)
Lemma executeGetRequest_run {A} (dec : Decoder A) rh u σ :
  executeGetRequest rh u dec σ =
  if url.valid u then
    match handlers σ !! rh with
    | None => Panic σ
    | Some h =>
        let req := with_bearer h (http.mkRequest "GET" u ∅ http.NoBody) in
        let reply := servers (world σ) (exchanges (world σ)) (client h) req in
        Done
          match reply with
          | Failed err => inl (Wrapf "request failed: " err)
          | Answered resp =>
              if http.StatusCode resp =? http.StatusOK then
                match dec (http.RespBody resp) with
                | None => inl (Wrapf "failed to decode response: " json_Error)
                | Some v => inr v
                end
              else inl (Errorf (status_message "request failed"
                                  (http.StatusCode resp) (http.RespBody resp)))
          end
          (logged σ req reply)
    end
  else Done (inl (Wrapf "failed to create request: " (url_Error (url.reported u)))) σ.
Proof.
  unfold executeGetRequest, http.NewRequest, logged.
  destruct (url.valid u); [|done]. exec.
  destruct (handlers σ !! rh) as [h|]; [|done]. simpl.
  destruct (servers _ _ _ _) as [err|resp]; [done|].
  destruct (http.StatusCode resp =? http.StatusOK); simpl; [|done].
  by destruct (dec (http.RespBody resp)).
Qed.

(** The run of [executePatchRequest], in one equation. *)
Lemma executePatchRequest_run rh u body σ :
  executePatchRequest rh u body σ =
  if url.valid u then
    match handlers σ !! rh with
    | None => Panic σ
    | Some h =>
        let req := with_bearer h (http.Header_Set "Content-Type" contentTypeJSON
                                    (http.mkRequest "PATCH" u ∅ body)) in
        let reply := servers (world σ) (exchanges (world σ)) (client h) req in
        Done
          match reply with
          | Failed err => Some (Wrapf "request failed: " err)
          | Answered resp =>
              if (http.StatusCode resp =? http.StatusOK)
                 || (http.StatusCode resp =? http.StatusNoContent)
              then nil_error
              else Some (Errorf (status_message "request failed"
                                   (http.StatusCode resp) (http.RespBody resp)))
          end
          (logged σ req reply)
    end
  else Done (Some (Wrapf "failed to create request: " (url_Error (url.reported u)))) σ.
Proof.
  unfold executePatchRequest, http.NewRequest, logged.
  destruct (url.valid u); [|done]. exec.
  destruct (handlers σ !! rh) as [h|]; [|done]. simpl.
  destruct (servers _ _ _ _) as [err|resp]; [done|].
  by destruct (http.StatusCode resp =? http.StatusOK),
              (http.StatusCode resp =? http.StatusNoContent).
Qed.

(** The run of [disconnect], in one equation. *)
Lemma disconnect_run rh σ :
  disconnect rh σ =
  match handlers σ !! rh with
  | None => Panic σ
  | Some h =>
      let req := with_bearer h (http.mkRequest "DELETE" session ∅ http.NoBody) in
      let reply := servers (world σ) (exchanges (world σ)) (client h) req in
      Done
        match reply with
        | Failed err => Some (Wrapf "disconnect request failed: " err)
        | Answered resp =>
            if (http.StatusCode resp =? http.StatusOK)
               || (http.StatusCode resp =? http.StatusNoContent)
            then nil_error
            else Some (Errorf (status_message "disconnect failed"
                                 (http.StatusCode resp) (http.RespBody resp)))
        end
        (logged σ req reply)
  end.
Proof.
  unfold disconnect, logged.
  change (http.NewRequest "DELETE" session http.NoBody)
    with (inr (http.mkRequest "DELETE" session ∅ http.NoBody) : lib_error + http.Request).
  exec.
  destruct (handlers σ !! rh) as [h|]; [|done]. simpl.
  destruct (servers _ _ _ _) as [err|resp]; [done|].
  by destruct (http.StatusCode resp =? http.StatusOK),
              (http.StatusCode resp =? http.StatusNoContent).
Qed.

(** The run of [login], in one equation: the token is stored exactly when
    the reply is a response with status 200 whose body decodes. *)
Lemma login_run rh loginData σ :
  login rh loginData σ =
  match handlers σ !! rh with
  | None => Panic σ
  | Some h =>
      let req := login_request loginData in
      let reply := servers (world σ) (exchanges (world σ)) (client h) req in
      let σ1 := logged σ req reply in
      match reply with
      | Failed err => Done (Some (Wrapf "login request failed: " err)) σ1
      | Answered resp =>
          if http.StatusCode resp =? http.StatusOK then
            match JWTToken.decode (http.RespBody resp) with
            | None => Done (Some (Wrapf "failed to decode token: " json_Error)) σ1
            | Some token =>
                Done nil_error
                  (mkState (<[rh := mkRequestHandler (client h) (Some token)]> (handlers σ))
                     (world σ1))
            end
          else Done (Some (Errorf (status_message "login failed"
                                     (http.StatusCode resp) (http.RespBody resp)))) σ1
      end
  end.
Proof.
  unfold login, logged, login_request.
  match goal with
  | |- context [http.NewRequest ?m ?u ?b] =>
      change (http.NewRequest m u b) with (inr (http.mkRequest m u ∅ b) : lib_error + http.Request)
  end.
  exec.
  destruct (handlers σ !! rh) as [h|] eqn:Hh; [|done]. simpl.
  destruct (servers _ _ _ _) as [err|resp]; [done|].
  destruct (http.StatusCode resp =? http.StatusOK); simpl; [|done].
  destruct (JWTToken.decode (http.RespBody resp)); [|done].
  simpl. by rewrite Hh.
Qed.

(* ===================================================================== *)
(** * Calls that are no login *)
(* ===================================================================== *)

Lemma bearing_nil token : bearing token [].
Proof. intros x Hx. by apply not_elem_of_nil in Hx. Qed.

Lemma bearing_app token l1 l2 :
  bearing token l1 → bearing token l2 → bearing token (l1 ++ l2).
Proof.
  intros H1 H2 x Hx. apply elem_of_app in Hx as [Hx|Hx]; [by apply H1 | by apply H2].
Qed.

Lemma bearing_one token x :
  (authenticated (fst x) → http.Header_Get "Authorization" (fst x) = bearer token) →
  bearing token [x].
Proof. intros H y Hy. apply list_elem_of_singleton in Hy as ->. exact H. Qed.

Lemma login_tokens_app l1 l2 : login_tokens (l1 ++ l2) = login_tokens l1 ++ login_tokens l2.
Proof. unfold login_tokens. apply omap_app. Qed.

Lemma login_tokens_quiet new :
  (∀ x, x ∈ new → login_token x = None) → login_tokens new = [].
Proof.
  induction new as [|x new IH]; intros H; [done|].
  unfold login_tokens in *. cbn [omap list_omap].
  rewrite (H x) by left. apply IH. intros y Hy. apply H. by right.
Qed.

(** An exchange whose request is no POST to the identity endpoint is no
    login. *)
Lemma login_token_other req reply :
  String.eqb (http.Method req) "POST" && String.eqb (http.URL req) openIDConnect = false →
  login_token (req, reply) = None.
Proof. intros H. unfold login_token. destruct reply; [done|]. by rewrite H. Qed.

(** Nothing was sent. *)
Lemma quiet_from_same rh σ {A} (o : Outcome A) : final o = σ → quiet_from rh σ o.
Proof.
  intros Ho. unfold quiet_from. rewrite Ho. split; [done|].
  exists []. split_and!; [by rewrite app_nil_r | done |].
  intros. apply bearing_nil.
Qed.

Lemma quiet_ret rh {A} (a : A) : quiet_through rh (mret a).
Proof. intros σ. by apply quiet_from_same. Qed.

Lemma quiet_panic rh {A} : quiet_through rh (panic : M A).
Proof. intros σ. by apply quiet_from_same. Qed.

Lemma quiet_bind rh {A B} (m : M A) (k : A → M B) :
  quiet_through rh m → (∀ a, quiet_through rh (k a)) → quiet_through rh (m ≫= k).
Proof.
  intros Hm Hk σ. specialize (Hm σ). unfold mbind, M_bind.
  destruct (m σ) as [a σ1|σ1]; [|exact Hm].
  destruct Hm as (Hh1 & new1 & Hl1 & Hq1 & Hb1). simpl in *.
  destruct (Hk a σ1) as (Hh2 & new2 & Hl2 & Hq2 & Hb2).
  split; [congruence|]. exists (new1 ++ new2). split_and!.
  - by rewrite Hl2, Hl1, <- app_assoc.
  - by rewrite login_tokens_app, Hq1, Hq2.
  - intros h token Hh Ht. apply bearing_app; [by eapply Hb1|].
    eapply Hb2; [|done]. by rewrite Hh1.
Qed.

(** One logged exchange that is no login and carries the token. *)
Lemma quiet_logged rh σ req reply {A} (a : A) :
  login_token (req, reply) = None →
  (∀ h token, handlers σ !! rh = Some h → jwtToken h = Some token →
              authenticated req → http.Header_Get "Authorization" req = bearer token) →
  quiet_from rh σ (Done a (logged σ req reply)).
Proof.
  intros Hq Hb. split; [done|]. exists [(req, reply)]. split_and!.
  - done.
  - unfold login_tokens. cbn [omap list_omap]. by rewrite Hq.
  - intros h token Hh Ht. apply bearing_one. simpl. by eapply Hb.
Qed.

(** A run that starts by reading the handler. *)
Lemma quiet_deref rh σ {A} (k : requestHandler → Outcome A) :
  (∀ h, handlers σ !! rh = Some h → quiet_from rh σ (k h)) →
  quiet_from rh σ match handlers σ !! rh with
                  | Some h => k h
                  | None => Panic σ
                  end.
Proof.
  intros Hk. destruct (handlers σ !! rh) as [h|] eqn:Hh.
  - by apply Hk.
  - by apply quiet_from_same.
Qed.

Lemma quiet_executeGetRequest rh {A} (dec : Decoder A) u :
  quiet_through rh (executeGetRequest rh u dec).
Proof.
  intros σ. rewrite executeGetRequest_run.
  destruct (url.valid u); [|by apply quiet_from_same].
  apply quiet_deref. intros h Hh. simpl. apply quiet_logged.
  - apply login_token_other. by rewrite Method_with_bearer.
  - intros h' token Hh' Ht _. simplify_eq. by apply Header_Get_with_bearer.
Qed.

Lemma quiet_executePatchRequest rh u body :
  quiet_through rh (executePatchRequest rh u body).
Proof.
  intros σ. rewrite executePatchRequest_run.
  destruct (url.valid u); [|by apply quiet_from_same].
  apply quiet_deref. intros h Hh. simpl. apply quiet_logged.
  - apply login_token_other. by rewrite Method_with_bearer.
  - intros h' token Hh' Ht _. simplify_eq. by apply Header_Get_with_bearer.
Qed.

Lemma quiet_disconnect rh : quiet_through rh (disconnect rh).
Proof.
  intros σ. rewrite disconnect_run.
  apply quiet_deref. intros h Hh. simpl. apply quiet_logged.
  - apply login_token_other. by rewrite Method_with_bearer.
  - intros h' token Hh' Ht _. simplify_eq. by apply Header_Get_with_bearer.
Qed.

(* ===================================================================== *)
(** * The upload *)
(* ===================================================================== *)


Lemma NewRequest_fileUpload m b :
  http.NewRequest m fileUpload b = inr (http.mkRequest m fileUpload ∅ b).
Proof. reflexivity. Qed.

Lemma NewRequest_fileUploadAmazon m b :
  http.NewRequest m fileUploadAmazon b = inr (http.mkRequest m fileUploadAmazon ∅ b).
Proof. reflexivity. Qed.

(** The run of [uploadFile] through a handler that holds a token: it
    returns, the handlers are untouched, and the log grows along one of the
    paths of [upload_path]. *)
Lemma uploadFile_paths rh h token tonie filePath title σ :
  handlers σ !! rh = Some h →
  jwtToken h = Some token →
  ∃ tonie' err σ' new,
    uploadFile rh tonie filePath title σ = Done (tonie', err) σ'
    ∧ handlers σ' = handlers σ
    ∧ exchanges (world σ') = exchanges (world σ) ++ new
    ∧ upload_path tonie title (files (world σ) filePath) new tonie' err.
Proof.
  intros Hh Htoken.
  unfold uploadFile. rewrite NewRequest_fileUpload. exec. rewrite Hh. simpl. rewrite Htoken.
  match goal with
  | |- context [servers ?a ?b ?c ?d] => destruct (servers a b c d) as [err|resp] eqn:Hr1
  end.
  { do 4 eexists. split_and!; [done..|]. by apply upload_refused. }
  destruct (http.StatusCode resp =? http.StatusOK) eqn:Hs; simpl.
  2: { do 4 eexists. split_and!; [done..|]. apply upload_refused; [done|]. simpl. by rewrite Hs. }
  destruct (AmazonBean.decode (http.RespBody resp)) as [bean|] eqn:Hd.
  2: { do 4 eexists. split_and!; [done..|]. apply upload_refused; [done|]. simpl. by rewrite Hs. }
  assert (Hc : ∀ req, credentials (snd (req : http.Request, Answered resp)) = Some bean).
  { intros req. simpl. by rewrite Hs. }
  simpl.
  destruct (files (world σ) filePath) as [e|e|content] eqn:Hf; simpl.
  - do 4 eexists. split_and!; [done..|]. by eapply upload_unread.
  - do 4 eexists. split_and!; [done..|]. by eapply upload_unread.
  - change ("" +:+ content) with content.
    match goal with
    | |- context [servers ?a ?b ?c ?d] => destruct (servers a b c d) as [err2|resp2] eqn:Hr2
    end; simpl.
    { do 4 eexists. split_and!; [done | done | by rewrite <- app_assoc |].
      eapply upload_rejected; [done | apply Hc | done | | done].
      split_and!; [done | done | by eexists]. }
    destruct (http.StatusCode resp2 =? http.StatusOK) eqn:Hs2;
      destruct (http.StatusCode resp2 =? http.StatusNoContent) eqn:Hs3; simpl.
    1-3: do 4 eexists; (split_and!; [done | done | by rewrite <- app_assoc |]);
         eapply upload_stored; [done | apply Hc | done | | by simpl; rewrite Hs2, Hs3];
         (split_and!; [done | done | by eexists]).
    do 4 eexists. split_and!; [done | done | by rewrite <- app_assoc |].
    eapply upload_rejected; [done | apply Hc | done | | by simpl; rewrite Hs2, Hs3].
    split_and!; [done | done | by eexists].
Qed.

(** Without a token the first step dereferences nil. *)
Lemma uploadFile_no_token rh h tonie filePath title σ :
  handlers σ !! rh = Some h → jwtToken h = None →
  uploadFile rh tonie filePath title σ = Panic σ.
Proof.
  intros Hh Hnone. unfold uploadFile. rewrite NewRequest_fileUpload. exec.
  rewrite Hh. simpl. by rewrite Hnone.
Qed.

Lemma uploadFile_no_handler rh tonie filePath title σ :
  handlers σ !! rh = None →
  uploadFile rh tonie filePath title σ = Panic σ.
Proof.
  intros Hh. unfold uploadFile. rewrite NewRequest_fileUpload. exec. by rewrite Hh.
Qed.

(** C1.  Whenever step 1 of an upload (the credential request) or step 2
    (opening and reading the file, building the form, the POST to the object
    storage) fails, [uploadFile] returns an error and the tonie, and so its
    chapter sequence, is what it was before the call.  The handler holds a
    token, as after the login that the package requires before any other
    call. *)
Theorem uploadFile_failure_keeps_chapters :
  ∀ (rh : loc) (h : requestHandler) (token : JWTToken.t)
    (tonie : CreativeTonie.t) (filePath title : string) (σ : State),
    handlers σ !! rh = Some h →
    jwtToken h = Some token →
    ∃ tonie' err σ' new,
      uploadFile rh tonie filePath title σ = Done (tonie', err) σ'
      ∧ exchanges (world σ') = exchanges (world σ) ++ new
      ∧ (step1_ok new = false ∨ step2_ok (files (world σ) filePath) new = false →
         is_Some err
         ∧ tonie' = tonie
         ∧ CreativeTonie.Chapters tonie' = CreativeTonie.Chapters tonie).
Proof.
  intros rh h token tonie filePath title σ Hh Htoken.
  destruct (uploadFile_paths rh h token tonie filePath title σ Hh Htoken)
    as (tonie' & err & σ' & new & Hrun & _ & Hlog & Hpath).
  exists tonie', err, σ', new. split_and!; [done | done |].
  destruct Hpath as [x1 e Hq Hc|x1 bean e Hq Hc Hr|x1 x2 bean content e Hq Hc Hf Hq2 Hst
                    |x1 x2 bean content Hq Hc Hf Hq2 Hst]; try by eauto.
  unfold step1_ok, step2_ok. rewrite Hc, Hf, Hst. simpl.
  by intros [Hno|Hno].
Qed.

(** C2.  When the credential request of an upload is answered 200 with a
    ticket that decodes, the file is read and the object storage answers 200
    or 204, [uploadFile] returns nil and the tonie with exactly one chapter
    appended at the end of its sequence, whose ID is the ticket's key, whose
    File is the ticket's fileId and whose Title is the title given; the call
    sent these two requests and no other.  Conversely an [uploadFile] that
    returns nil got these replies, appended that chapter and sent two POSTs,
    neither of them a PATCH. *)
Theorem uploadFile_success_appends_chapter :
  ∀ (rh : loc) (tonie : CreativeTonie.t) (filePath title : string) (σ : State),
    let o := uploadFile rh tonie filePath title σ in
    (∀ new,
       exchanges (world (final o)) = exchanges (world σ) ++ new →
       step1_ok new = true →
       step2_ok (files (world σ) filePath) new = true →
       ∃ x1 x2 bean newChapter σ',
         new = [x1; x2]
         ∧ credentials (snd x1) = Some bean
         ∧ stored (snd x2) = true
         ∧ newChapter
           = Chapter.mk (FieldsBean.Key (RequestBean.Fields (AmazonBean.Request bean)))
               (AmazonBean.FileID bean) title float64_zero false
         ∧ o = Done (CreativeTonie.set_Chapters
                       (append (CreativeTonie.Chapters tonie) newChapter) tonie,
                     nil_error) σ'
         ∧ elems (append (CreativeTonie.Chapters tonie) newChapter)
           = elems (CreativeTonie.Chapters tonie) ++ [newChapter])
    ∧ (∀ tonie' σ',
         o = Done (tonie', nil_error) σ' →
         ∃ x1 x2 bean newChapter,
           exchanges (world σ') = exchanges (world σ) ++ [x1; x2]
           ∧ credentials (snd x1) = Some bean
           ∧ stored (snd x2) = true
           ∧ Chapter.ID newChapter
             = FieldsBean.Key (RequestBean.Fields (AmazonBean.Request bean))
           ∧ Chapter.File newChapter = AmazonBean.FileID bean
           ∧ Chapter.Title newChapter = title
           ∧ elems (CreativeTonie.Chapters tonie')
             = elems (CreativeTonie.Chapters tonie) ++ [newChapter]
           ∧ tonie' = CreativeTonie.set_Chapters (CreativeTonie.Chapters tonie') tonie
           ∧ http.Method (fst x1) ≠ "PATCH" ∧ http.Method (fst x2) ≠ "PATCH"
           ∧ http.URL (fst x1) = fileUpload ∧ http.URL (fst x2) = fileUploadAmazon).
Proof.
  intros rh tonie filePath title σ o. subst o.
  assert (Hnone : ∀ new, exchanges (world σ) = exchanges (world σ) ++ new →
                         step1_ok new = true → False).
  { intros new Hlog. rewrite <- (app_nil_r (exchanges (world σ))) in Hlog at 1.
    apply app_inv_head in Hlog. by subst new. }
  destruct (handlers σ !! rh) as [h|] eqn:Hh.
  2: { rewrite uploadFile_no_handler by done. split; [|done].
       intros new Hlog H1 _. exfalso. exact (Hnone new Hlog H1). }
  destruct (jwtToken h) as [token|] eqn:Htoken.
  2: { rewrite (uploadFile_no_token _ h) by done. split; [|done].
       intros new Hlog H1 _. exfalso. exact (Hnone new Hlog H1). }
  destruct (uploadFile_paths rh h token tonie filePath title σ Hh Htoken)
    as (t1 & err & σ1 & new1 & Hrun & _ & Hlog1 & Hpath).
  rewrite Hrun. split.
  - intros new Hlog H1 H2. simpl in Hlog. rewrite Hlog1 in Hlog.
    apply app_inv_head in Hlog. subst new1.
    unfold step1_ok, step2_ok in H1, H2.
    destruct Hpath as [x1 e Hq Hc|x1 bean e Hq Hc Hr|x1 x2 bean content e Hq Hc Hf Hq2 Hst
                      |x1 x2 bean content Hq Hc Hf Hq2 Hst].
    + by rewrite Hc in H1.
    + by rewrite Hr in H2.
    + by rewrite Hst, andb_false_r in H2.
    + exists x1, x2, bean, (chapter_of bean title), σ1.
      by split_and!.
  - intros tonie' σ' Hok. injection Hok as -> -> ->.
    inversion Hpath as [| | |x1 x2 bean content Hq Hc Hf Hq2 Hst]; subst.
    destruct Hq as [Hm1 Hu1]. destruct Hq2 as (Hm2 & Hu2 & _).
    exists x1, x2, bean, (chapter_of bean title).
    split_and!; try done.
    + by rewrite elems_set_Chapters.
    + by destruct tonie.
    + by rewrite Hm1.
    + by rewrite Hm2.
Qed.

(** C9.  Whenever step 1 of an upload delivered a ticket and the file was
    read, the request that follows in the log is a POST to the object
    storage whose multipart form is the ticket's seven signed-policy fields
    in the order key, x-amz-algorithm, x-amz-credential, x-amz-date, policy,
    x-amz-signature, x-amz-security-token, each with the ticket's value,
    followed by the content of the file under the field name file; nothing
    else is sent. *)
Theorem uploadFile_form_order :
  ∀ (rh : loc) (h : requestHandler) (token : JWTToken.t)
    (tonie : CreativeTonie.t) (filePath title : string) (σ : State)
    (x1 : Exchange) (rest : list Exchange) (bean : AmazonBean.t) (content : string),
    handlers σ !! rh = Some h →
    jwtToken h = Some token →
    exchanges (world (final (uploadFile rh tonie filePath title σ)))
    = exchanges (world σ) ++ x1 :: rest →
    credentials (snd x1) = Some bean →
    files (world σ) filePath = Regular content →
    let f := RequestBean.Fields (AmazonBean.Request bean) in
    ∃ x2 boundary,
      rest = [x2]
      ∧ http.Method (fst x2) = "POST"
      ∧ http.URL (fst x2) = fileUploadAmazon
      ∧ http.ReqBody (fst x2)
        = http.MultipartBody boundary
            [ multipart.mkPart "key" None (FieldsBean.Key f);
              multipart.mkPart "x-amz-algorithm" None (FieldsBean.XAmzAlgorithm f);
              multipart.mkPart "x-amz-credential" None (FieldsBean.XAmzCredential f);
              multipart.mkPart "x-amz-date" None (FieldsBean.XAmzDate f);
              multipart.mkPart "policy" None (FieldsBean.Policy f);
              multipart.mkPart "x-amz-signature" None (FieldsBean.XAmzSignature f);
              multipart.mkPart "x-amz-security-token" None (FieldsBean.XAmzSecurityToken f);
              multipart.mkPart "file" (Some (FieldsBean.Key f)) content ].
Proof.
  intros rh h token tonie filePath title σ x1 rest bean content Hh Htoken Hlog Hc Hf f.
  destruct (uploadFile_paths rh h token tonie filePath title σ Hh Htoken)
    as (t1 & err & σ1 & new & Hrun & _ & Hlog1 & Hpath).
  rewrite Hrun in Hlog. simpl in Hlog. rewrite Hlog1 in Hlog.
  apply app_inv_head in Hlog. subst new.
  inversion Hpath as [y1 e Hq Hc'|y1 bean' e Hq Hc' Hr
                     |y1 x2 bean' content' e Hq Hc' Hf' Hq2 Hst
                     |y1 x2 bean' content' Hq Hc' Hf' Hq2 Hst]; subst.
  - congruence.
  - rewrite Hf in Hr. done.
  - rewrite Hc in Hc'. injection Hc' as <-. rewrite Hf in Hf'. injection Hf' as <-.
    destruct Hq2 as (Hm & Hu & b & Hb). by exists x2, b.
  - rewrite Hc in Hc'. injection Hc' as <-. rewrite Hf in Hf'. injection Hf' as <-.
    destruct Hq2 as (Hm & Hu & b & Hb). by exists x2, b.
Qed.

(** An upload is no login, and what it sends is a POST. *)
Lemma quiet_uploadFile rh tonie filePath title :
  quiet_through rh (uploadFile rh tonie filePath title).
Proof.
  intros σ.
  destruct (handlers σ !! rh) as [h|] eqn:Hh;
    [|apply quiet_from_same; by rewrite uploadFile_no_handler].
  destruct (jwtToken h) as [token|] eqn:Htoken;
    [|apply quiet_from_same; by rewrite (uploadFile_no_token rh h)].
  destruct (uploadFile_paths rh h token tonie filePath title σ Hh Htoken)
    as (tonie' & err & σ' & new & -> & Hhs & Hlog & Hpath).
  split; [done|]. exists new. split; [done|].
  assert (Hpost : ∀ x, x ∈ new →
            http.Method (fst x) = "POST"
            ∧ (http.URL (fst x) = fileUpload ∨ http.URL (fst x) = fileUploadAmazon)).
  { intros x Hx.
    destruct Hpath as [x1 e [Hm Hu] _|x1 bean e [Hm Hu] _ _
                      |x1 x2 bean content e [Hm Hu] _ _ (Hm2 & Hu2 & _) _
                      |x1 x2 bean content [Hm Hu] _ _ (Hm2 & Hu2 & _) _];
      repeat (apply elem_of_cons in Hx as [->|Hx]); try (by apply not_elem_of_nil in Hx);
      auto. }
  split.
  - apply login_tokens_quiet. intros [req reply] Hx.
    destruct (Hpost _ Hx) as [_ [Hu|Hu]]; simpl in Hu;
      apply login_token_other; rewrite Hu; by rewrite andb_false_r.
  - intros h' token' _ _ x Hx [Hm|Hm]; destruct (Hpost _ Hx) as [Hp _];
      rewrite Hp in Hm; discriminate.
Qed.

(* ===================================================================== *)
(** * The calls of a client, one by one *)
(* ===================================================================== *)

Lemma quiet_getCreativeTonies rh household :
  quiet_through rh (getCreativeTonies rh household).
Proof.
  unfold getCreativeTonies. destruct household as [hh|]; [|apply quiet_panic].
  apply quiet_bind; [apply quiet_executeGetRequest|].
  intros [err|result]; apply quiet_ret.
Qed.

Lemma quiet_refreshTonie rh tonie : quiet_through rh (refreshTonie rh tonie).
Proof.
  unfold refreshTonie. destruct (CreativeTonie.household tonie) as [hh|]; [|apply quiet_panic].
  apply quiet_bind; [apply quiet_executeGetRequest|].
  intros [err|result]; apply quiet_ret.
Qed.

Lemma quiet_commitTonie rh tonie : quiet_through rh (commitTonie rh tonie).
Proof.
  unfold commitTonie. destruct (CreativeTonie.household tonie) as [hh|]; [|apply quiet_panic].
  destruct (CreativeTonie.marshal tonie); [apply quiet_executePatchRequest|apply quiet_ret].
Qed.

Lemma quiet_Refresh rh ct :
  CreativeTonie.requestHandler ct = Some rh ∨ CreativeTonie.requestHandler ct = None →
  quiet_through rh (Refresh ct).
Proof.
  unfold Refresh. intros [->| ->]; [|apply quiet_ret].
  apply quiet_bind; [apply quiet_refreshTonie|].
  intros [err|result]; apply quiet_ret.
Qed.

Lemma quiet_Commit rh ct :
  CreativeTonie.requestHandler ct = Some rh ∨ CreativeTonie.requestHandler ct = None →
  quiet_through rh (Commit ct).
Proof.
  unfold Commit. intros [->| ->]; [apply quiet_commitTonie|apply quiet_ret].
Qed.

Lemma quiet_UploadFile rh ct title filePath :
  CreativeTonie.requestHandler ct = Some rh ∨ CreativeTonie.requestHandler ct = None →
  quiet_through rh (UploadFile ct title filePath).
Proof.
  unfold UploadFile. intros [->| ->]; [apply quiet_uploadFile|apply quiet_ret].
Qed.

Lemma quiet_DeleteChapter rh ct chapter : quiet_through rh (DeleteChapter ct chapter).
Proof.
  unfold DeleteChapter.
  destruct chapter; [apply quiet_ret|].
  destruct (elems _); [apply quiet_ret|apply quiet_panic].
Qed.

(** The handler a call goes through. *)
Lemma quiet_call c op :
  (∀ username password, op ≠ OpLogin username password) →
  ∃ rh, quiet_through rh (call c op)
        ∧ (on_client c op → rh = Client.requestHandler c).
Proof.
  intros Hop.
  assert (Hunit : ∀ rh A (m : M A), quiet_through rh m → quiet_through rh (m;; mret ())).
  { intros rh A m Hm. apply quiet_bind; [done|]. intros _. apply quiet_ret. }
  assert (Hwired : ∀ ct : CreativeTonie.t,
            ∃ rh, (CreativeTonie.requestHandler ct = Some rh
                   ∨ CreativeTonie.requestHandler ct = None)
                  ∧ (CreativeTonie.requestHandler ct = Some (Client.requestHandler c)
                     → rh = Client.requestHandler c)).
  { intros ct. destruct (CreativeTonie.requestHandler ct) as [rh|].
    - exists rh. split; [by left|]. by intros [= ->].
    - exists (Client.requestHandler c). split; [by right|done]. }
  destruct op as [u p| | |hh| |ct|ct|ct title path|ct ch]; simpl.
  - by destruct (Hop u p).
  - exists (Client.requestHandler c). split; [|done].
    apply Hunit, quiet_executeGetRequest.
  - exists (Client.requestHandler c). split; [|done].
    apply Hunit, quiet_executeGetRequest.
  - exists (Client.requestHandler c). split; [|done].
    apply Hunit, quiet_getCreativeTonies.
  - exists (Client.requestHandler c). split; [|done].
    apply Hunit, quiet_disconnect.
  - destruct (Hwired ct) as (rh & Hrh & Heq). exists rh. split; [|done].
    by apply Hunit, quiet_Refresh.
  - destruct (Hwired ct) as (rh & Hrh & Heq). exists rh. split; [|done].
    by apply Hunit, quiet_Commit.
  - destruct (Hwired ct) as (rh & Hrh & Heq). exists rh. split; [|done].
    by apply Hunit, quiet_UploadFile.
  - exists (Client.requestHandler c). split; [|done].
    apply Hunit, quiet_DeleteChapter.
Qed.


(* ===================================================================== *)
(** * The life of the token *)
(* ===================================================================== *)

Lemma token_after_nil before : token_after before [] = before.
Proof. done. Qed.

Lemma token_after_app before l1 l2 :
  token_after before (l1 ++ l2) = token_after (token_after before l1) l2.
Proof.
  unfold token_after. rewrite login_tokens_app, last_app.
  by destruct (last (login_tokens l2)).
Qed.

(** What one call does to the token of the client. *)
Lemma call_token c op σ :
  ∃ new,
    exchanges (world (final (call c op σ))) = exchanges (world σ) ++ new
    ∧ stored_token (Client.requestHandler c) (final (call c op σ))
      = token_after (stored_token (Client.requestHandler c) σ) new.
Proof.
  assert (Hcases : (∃ username password, op = OpLogin username password)
                   ∨ ∀ username password, op ≠ OpLogin username password).
  { destruct op; try (by right); left; by do 2 eexists. }
  destruct Hcases as [(username & password & ->)|Hop].
  - simpl. unfold Client.Login, mbind, M_bind. rewrite login_run.
    unfold stored_token, token_after, login_tokens. simpl.
    destruct (handlers σ !! Client.requestHandler c) as [h|] eqn:Hh; simpl.
    2: { exists []. rewrite app_nil_r. by rewrite Hh. }
    destruct (servers _ _ _ _) as [err|resp] eqn:Hr; simpl.
    { eexists. split; [done|]. simpl. by rewrite Hh. }
    destruct (http.StatusCode resp =? http.StatusOK) eqn:Hs; simpl.
    2: { eexists. split; [done|]. simpl. by rewrite Hh, Hs. }
    destruct (JWTToken.decode (http.RespBody resp)) as [token|] eqn:Hd; simpl.
    2: { eexists. split; [done|]. simpl. by rewrite Hh, Hs, Hd. }
    eexists. split; [done|]. simpl. rewrite Hs, Hd. simpl.
    rewrite list_lookup_insert_eq; [done|]. by eapply lookup_lt_Some.
  - destruct (quiet_call c op Hop) as (rh & Hq & _).
    destruct (Hq σ) as (Hhs & new & Hlog & Hquiet & _).
    exists new. split; [done|].
    unfold stored_token, token_after. by rewrite Hhs, Hquiet.
Qed.

Lemma run_token c ops σ :
  ∃ new,
    exchanges (world (final (run c ops σ))) = exchanges (world σ) ++ new
    ∧ stored_token (Client.requestHandler c) (final (run c ops σ))
      = token_after (stored_token (Client.requestHandler c) σ) new.
Proof.
  revert σ. induction ops as [|op ops IH]; intros σ; simpl.
  - exists []. by rewrite app_nil_r.
  - destruct (call_token c op σ) as (new1 & Hl1 & Ht1).
    unfold mbind, M_bind. destruct (call c op σ) as [[] σ1|σ1]; simpl in *.
    + destruct (IH σ1) as (new2 & Hl2 & Ht2). exists (new1 ++ new2). split.
      * by rewrite Hl2, Hl1, <- app_assoc.
      * by rewrite Ht2, Ht1, token_after_app.
    + exists new1. done.
Qed.

(** C3, as the code has it.  After any sequence of calls on a client, the
    token its handler holds is the token decoded from the response of the
    last successful login of the sequence, and the token it held before the
    sequence when no login succeeded: a successful login replaces the token,
    no other call writes it. *)
Theorem token_of_last_login :
  ∀ (c : Client.t) (ops : list Op) (σ : State),
    ∃ new,
      exchanges (world (final (run c ops σ))) = exchanges (world σ) ++ new
      ∧ (∀ tokens token,
           login_tokens new = tokens ++ [token] →
           stored_token (Client.requestHandler c) (final (run c ops σ)) = Some token)
      ∧ (login_tokens new = [] →
         stored_token (Client.requestHandler c) (final (run c ops σ))
         = stored_token (Client.requestHandler c) σ).
Proof.
  intros c ops σ. destruct (run_token c ops σ) as (new & Hlog & Ht).
  exists new. split; [done|]. rewrite Ht. unfold token_after. split.
  - intros tokens token ->. by rewrite last_snoc.
  - by intros ->.
Qed.

(** C3 fails as stated: two logins that both succeed leave the second
    token in the handler, not the first. *)
Lemma token_written_once_fails :
  ¬ token_written_once c0 [OpLogin "a@b.com" "pw"; OpLogin "a@b.com" "pw"] logged_out.
Proof.
  intros H.
  specialize (H (exchanges (world (final
                   (run c0 [OpLogin "a@b.com" "pw"; OpLogin "a@b.com" "pw"] logged_out))))).
  vm_compute in H. specialize (H eq_refl (le_n 2)). discriminate H.
Qed.

(** The run of the two logins: both succeed, the first delivers the token
    abc123 and the second xyz789, and xyz789 is what the handler holds. *)
Example relogin_replaces_token :
  let σ' := final (run c0 [OpLogin "a@b.com" "pw"; OpLogin "a@b.com" "pw"] logged_out) in
  JWTToken.AccessToken <$> login_tokens (exchanges (world σ')) = ["abc123"; "xyz789"]
  ∧ JWTToken.AccessToken <$> stored_token 0%nat σ' = Some "xyz789".
Proof. vm_compute. repeat split. Qed.



Example bearer_after_login :
  http.Header_Get "Authorization" <$>
    requests (drop 1 (exchanges (world (final
      (run c0 [OpRefresh tonie0; OpCommit tonie0; OpGetMe] logged_in)))))
  = ["Bearer abc123"; "Bearer abc123"; "Bearer abc123"].
Proof. vm_compute. repeat split. Qed.

(* ===================================================================== *)
(** * Status errors *)
(* ===================================================================== *)

Lemma append_assoc (a b c : string) : (a +:+ b) +:+ c = a +:+ (b +:+ c).
Proof.
  induction a as [|x a IH]; [done|].
  change (String x ((a +:+ b) +:+ c) = String x (a +:+ (b +:+ c))). by f_equal.
Qed.

(** The message of a status error ends with the status in decimal, a
    colon, a space and the raw body. *)
Lemma status_message_shape what status body :
  ∃ prefix, status_message what status body = prefix +:+ pretty status +:+ ": " +:+ body.
Proof. exists (what +:+ " with status "). unfold status_message. by rewrite append_assoc. Qed.

(** C5 fails as stated: the mock profile endpoint answers 200 with a page
    that is no JSON, and the GET returns an error although the status is
    200. *)
Lemma get_fails_on_status_only_fails :
  ¬ get_fails_on_status_only Me.decode 0%nat me logged_in.
Proof.
  intros H.
  specialize (H (with_bearer (mkRequestHandler (http.mkClient 30)
                                (stored_token 0%nat logged_in))
                   (http.mkRequest "GET" me ∅ http.NoBody))
                (http.mkResponse 200 "<html>maintenance</html>")).
  assert (Hlog : exchanges (world (final (executeGetRequest 0%nat me Me.decode logged_in)))
                 = exchanges (world logged_in)
                   ++ [(with_bearer (mkRequestHandler (http.mkClient 30)
                                       (stored_token 0%nat logged_in))
                          (http.mkRequest "GET" me ∅ http.NoBody),
                        Answered (http.mkResponse 200 "<html>maintenance</html>"))])
    by (by vm_compute).
  destruct (H Hlog) as [Hfail _]. apply Hfail; [|done]. by vm_compute.
Qed.

(** The GET of the profile against the mock: status 200, and a decode
    error. *)
Example get_decode_error :
  let o := executeGetRequest 0%nat me Me.decode logged_in in
  returned (inr Me.zero) o = inl (Wrapf "failed to decode response: " json_Error)
  ∧ snd <$> last (exchanges (world (final o)))
    = Some (Answered (http.mkResponse 200 "<html>maintenance</html>")).
Proof. vm_compute. split; reflexivity. Qed.

(** C5, as the code has it.  For a GET that got a response: the error is
    the status error, which carries the status and the raw body, exactly
    when the status is not 200, and then the outcome is the same whatever
    the decoder (the body is not decoded); with status 200 the result is the
    decoded body, or a decode error when the body does not decode.  For a
    PATCH that got a response: an error is returned exactly when the status
    is neither 200 nor 204, and it is the status error.  Neither call
    changes the handlers; the message of a status error ends with the status
    in decimal and the raw body. *)
Theorem status_errors :
  ∀ (rh : loc) (u : string) (σ : State) (req : http.Request) (resp : http.Response),
    let status_error :=
      Errorf (status_message "request failed" (http.StatusCode resp) (http.RespBody resp)) in
    (∀ A (dec : Decoder A),
       exchanges (world (final (executeGetRequest rh u dec σ)))
       = exchanges (world σ) ++ [(req, Answered resp)] →
       ∃ r σ',
         executeGetRequest rh u dec σ = Done r σ'
         ∧ handlers σ' = handlers σ
         ∧ (r = inl status_error ↔ http.StatusCode resp ≠ 200)
         ∧ (http.StatusCode resp ≠ 200 →
            ∀ B (dec' : Decoder B), executeGetRequest rh u dec' σ = Done (inl status_error) σ')
         ∧ (http.StatusCode resp = 200 →
            r = match dec (http.RespBody resp) with
                | Some v => inr v
                | None => inl (Wrapf "failed to decode response: " json_Error)
                end))
    ∧ (∀ body,
         exchanges (world (final (executePatchRequest rh u body σ)))
         = exchanges (world σ) ++ [(req, Answered resp)] →
         ∃ err σ',
           executePatchRequest rh u body σ = Done err σ'
           ∧ handlers σ' = handlers σ
           ∧ (is_Some err ↔ http.StatusCode resp ≠ 200 ∧ http.StatusCode resp ≠ 204)
           ∧ (is_Some err → err = Some status_error))
    ∧ ∃ prefix,
        status_message "request failed" (http.StatusCode resp) (http.RespBody resp)
        = prefix +:+ pretty (http.StatusCode resp) +:+ ": " +:+ http.RespBody resp.
Proof.
  intros rh u σ req resp status_error. split_and!.
  - intros A dec. rewrite !executeGetRequest_run.
    destruct (url.valid u) eqn:Hu.
    2: { simpl. intros Hlog. rewrite <- (app_nil_r (exchanges (world σ))) in Hlog at 1.
         by apply app_inv_head in Hlog. }
    destruct (handlers σ !! rh) as [h|] eqn:Hh.
    2: { simpl. intros Hlog. rewrite <- (app_nil_r (exchanges (world σ))) in Hlog at 1.
         by apply app_inv_head in Hlog. }
    simpl. intros Hlog. apply app_inv_head in Hlog. injection Hlog as Hreq Hreply.
    do 2 eexists. split; [done|]. split; [done|]. rewrite Hreply. subst status_error.
    destruct (http.StatusCode resp =? http.StatusOK) eqn:Hs.
    + apply Z.eqb_eq in Hs. split_and!.
      * split; [|done]. by destruct (dec (http.RespBody resp)).
      * done.
      * done.
    + apply Z.eqb_neq in Hs. split_and!; [done | | done].
      intros _ B dec'. rewrite executeGetRequest_run, Hu, Hh. simpl. rewrite Hreply.
      apply Z.eqb_neq in Hs. by rewrite Hs.
  - intros body. rewrite executePatchRequest_run.
    destruct (url.valid u) eqn:Hu.
    2: { simpl. intros Hlog. rewrite <- (app_nil_r (exchanges (world σ))) in Hlog at 1.
         by apply app_inv_head in Hlog. }
    destruct (handlers σ !! rh) as [h|] eqn:Hh.
    2: { simpl. intros Hlog. rewrite <- (app_nil_r (exchanges (world σ))) in Hlog at 1.
         by apply app_inv_head in Hlog. }
    simpl. intros Hlog. apply app_inv_head in Hlog. injection Hlog as Hreq Hreply.
    do 2 eexists. split; [done|]. split; [done|]. rewrite Hreply. subst status_error.
    unfold http.StatusOK, http.StatusNoContent.
    destruct (Z.eqb_spec (http.StatusCode resp) 200) as [H1|H1];
      destruct (Z.eqb_spec (http.StatusCode resp) 204) as [H2|H2]; simpl;
      (split; [split|]);
      first [ by intros [? [=]] | by intros [? ?] | by eauto | done ].
  - apply status_message_shape.
Qed.

(* ===================================================================== *)
(** * Commit and refresh *)
(* ===================================================================== *)

(** A float is rendered exactly when it is finite. *)
Lemma marshal_float64_None f : marshal_float64 f = None ↔ float64_finite f = false.
Proof. unfold marshal_float64. by destruct (float64_finite f). Qed.

Lemma Chapter_marshal_None c :
  Chapter.marshal c = None ↔ float64_finite (Chapter.Seconds c) = false.
Proof.
  unfold Chapter.marshal. rewrite <- marshal_float64_None.
  by destruct (marshal_float64 (Chapter.Seconds c)).
Qed.

Lemma marshal_chapters_None (s : slice Chapter.t) :
  marshal_slice Chapter.marshal s = None
  ↔ ∃ c, c ∈ elems s ∧ float64_finite (Chapter.Seconds c) = false.
Proof.
  destruct s as [l|]; simpl.
  - rewrite fmap_None, mapM_None, Exists_exists.
    split; intros (c & Hc & H); exists c; (split; [done|]); by apply Chapter_marshal_None.
  - split; [done|]. intros (c & Hc & _). by apply not_elem_of_nil in Hc.
Qed.

Lemma marshal_strings_Some (s : slice string) :
  is_Some (marshal_slice (λ x, Some (DString x)) s).
Proof.
  destruct s as [l|]; simpl; [|by eexists].
  apply fmap_is_Some, mapM_is_Some_2, Forall_forall. intros x _. by eexists.
Qed.

(** [json.Marshal] of a tonie fails exactly when one of its floats is NaN
    or infinite. *)
Lemma marshal_tonie_None ct :
  CreativeTonie.marshal ct = None
  ↔ ∃ f, f ∈ tonie_floats ct ∧ float64_finite f = false.
Proof.
  unfold tonie_floats, CreativeTonie.marshal.
  destruct (marshal_strings_Some (CreativeTonie.TranscodingErrors ct)) as [te Hte].
  rewrite Hte. split.
  - destruct (marshal_float64 (CreativeTonie.SecondsPresent ct)) eqn:Hsp.
    2: { intros _. eexists. split; [left|]. by apply marshal_float64_None. }
    destruct (marshal_float64 (CreativeTonie.SecondsRemaining ct)) eqn:Hsr.
    2: { intros _. eexists. split; [right; left|]. by apply marshal_float64_None. }
    destruct (marshal_slice Chapter.marshal (CreativeTonie.Chapters ct)) eqn:Hcs; [done|].
    intros _. apply marshal_chapters_None in Hcs as (c & Hc & Hf).
    exists (Chapter.Seconds c). split; [|done]. do 2 right.
    apply list_elem_of_fmap. by exists c.
  - intros (f & Hin & Hf).
    apply elem_of_cons in Hin as [->|Hin].
    { apply marshal_float64_None in Hf. by rewrite Hf. }
    destruct (marshal_float64 (CreativeTonie.SecondsPresent ct)); [|done]. simpl.
    apply elem_of_cons in Hin as [->|Hin].
    { apply marshal_float64_None in Hf. by rewrite Hf. }
    destruct (marshal_float64 (CreativeTonie.SecondsRemaining ct)); [|done]. simpl.
    apply list_elem_of_fmap in Hin as (c & -> & Hc).
    assert (Hcs : marshal_slice Chapter.marshal (CreativeTonie.Chapters ct) = None).
    { apply marshal_chapters_None. by exists c. }
    by rewrite Hcs.
Qed.

Lemma marshal_tonie_finite ct :
  forallb float64_finite (tonie_floats ct) = true → is_Some (CreativeTonie.marshal ct).
Proof.
  intros Hfin. destruct (CreativeTonie.marshal ct) as [doc|] eqn:Hdoc; [by eexists|].
  apply marshal_tonie_None in Hdoc as (f & Hin & Hf).
  rewrite List.forallb_forall in Hfin. apply list_elem_of_In in Hin.
  rewrite (Hfin f Hin) in Hf. discriminate.
Qed.

(** What is marshalled does not depend on the two internal fields. *)
Lemma marshal_ignores_back_references ct household requestHandler :
  CreativeTonie.marshal
    (CreativeTonie.set_household household
       (CreativeTonie.set_requestHandler requestHandler ct))
  = CreativeTonie.marshal ct.
Proof. by destruct ct. Qed.

(** The shape of a marshalled tonie. *)
Lemma marshal_shape ct doc :
  CreativeTonie.marshal ct = Some doc →
  member "name" doc = Some (DString (CreativeTonie.Name ct))
  ∧ keys doc = tonie_tags.
Proof.
  unfold CreativeTonie.marshal. intros H.
  destruct (marshal_float64 (CreativeTonie.SecondsPresent ct)); [|done].
  destruct (marshal_float64 (CreativeTonie.SecondsRemaining ct)); [|done].
  destruct (marshal_slice Chapter.marshal (CreativeTonie.Chapters ct)); [|done].
  destruct (marshal_slice _ (CreativeTonie.TranscodingErrors ct)); [|done].
  simpl in H. by injection H as <-.
Qed.

Lemma not_in_tonie_tags key :
  forallb (λ tag, negb (String.eqb tag key)) tonie_tags = true → key ∉ tonie_tags.
Proof.
  intros H Hin. rewrite List.forallb_forall in H.
  apply list_elem_of_In in Hin. specialize (H key Hin).
  by rewrite String.eqb_refl in H.
Qed.

(** C6.  A [Commit] of a tonie with an executor and a household, whose
    floats are finite and whose identifiers make a well-formed URL,
    marshals the tonie and sends it: exactly one request, a PATCH to the
    endpoint of the tonie in its household, whose body is the marshalled
    tonie.  Every request a [Commit] sends is that one, and its body is an
    object whose member name is the Name the tonie has in memory and whose
    members are the thirteen tagged fields, none of them the household or
    the request handler; what is marshalled is the same whatever the two
    back-references are. *)
Theorem Commit_body :
  ∀ (ct : CreativeTonie.t) (σ : State),
    (∀ household requestHandler,
       CreativeTonie.marshal
         (CreativeTonie.set_household household
            (CreativeTonie.set_requestHandler requestHandler ct))
       = CreativeTonie.marshal ct)
    ∧ (∀ new x,
         exchanges (world (final (Commit ct σ))) = exchanges (world σ) ++ new →
         x ∈ new →
         ∃ hh doc,
           new = [x]
           ∧ CreativeTonie.household ct = Some hh
           ∧ http.Method (fst x) = "PATCH"
           ∧ http.URL (fst x) = creativeTonie (Household.ID hh) (CreativeTonie.ID ct)
           ∧ CreativeTonie.marshal ct = Some doc
           ∧ http.ReqBody (fst x) = http.JSONBody doc
           ∧ member "name" doc = Some (DString (CreativeTonie.Name ct))
           ∧ keys doc = tonie_tags
           ∧ ("household" ∉ keys doc) ∧ ("requestHandler" ∉ keys doc))
    ∧ (∀ rh h hh,
         CreativeTonie.requestHandler ct = Some rh →
         handlers σ !! rh = Some h →
         CreativeTonie.household ct = Some hh →
         forallb float64_finite (tonie_floats ct) = true →
         url.valid (creativeTonie (Household.ID hh) (CreativeTonie.ID ct)) = true →
         ∃ x doc,
           exchanges (world (final (Commit ct σ))) = exchanges (world σ) ++ [x]
           ∧ CreativeTonie.marshal ct = Some doc
           ∧ http.Method (fst x) = "PATCH"
           ∧ http.URL (fst x) = creativeTonie (Household.ID hh) (CreativeTonie.ID ct)
           ∧ http.ReqBody (fst x) = http.JSONBody doc
           ∧ member "name" doc = Some (DString (CreativeTonie.Name ct))
           ∧ keys doc = tonie_tags
           ∧ ("household" ∉ keys doc) ∧ ("requestHandler" ∉ keys doc)).
Proof.
  intros ct σ. split_and!.
  - intros. apply marshal_ignores_back_references.
  - intros new x. unfold Commit, commitTonie.
    assert (Hnone : exchanges (world σ) = exchanges (world σ) ++ new → x ∈ new → False).
    { intros Hlog Hx. rewrite <- (app_nil_r (exchanges (world σ))) in Hlog at 1.
      apply app_inv_head in Hlog. subst new. by apply not_elem_of_nil in Hx. }
    destruct (CreativeTonie.requestHandler ct) as [rh|]; [|intros Hlog Hx; exfalso; exact (Hnone Hlog Hx)].
    destruct (CreativeTonie.household ct) as [hh|]; [|intros Hlog Hx; exfalso; exact (Hnone Hlog Hx)].
    destruct (CreativeTonie.marshal ct) as [doc|] eqn:Hdoc;
      [|intros Hlog Hx; exfalso; exact (Hnone Hlog Hx)].
    rewrite executePatchRequest_run.
    destruct (url.valid _); [|intros Hlog Hx; exfalso; exact (Hnone Hlog Hx)].
    destruct (handlers σ !! rh) as [h|]; [|intros Hlog Hx; exfalso; exact (Hnone Hlog Hx)].
    simpl. intros Hlog Hx. apply app_inv_head in Hlog. subst new.
    apply list_elem_of_singleton in Hx as ->.
    destruct (marshal_shape ct doc Hdoc) as [Hname Hkeys].
    exists hh, doc. simpl. rewrite Method_with_bearer, URL_with_bearer, ReqBody_with_bearer.
    split_and!; try done.
    + rewrite Hkeys. apply not_in_tonie_tags. by vm_compute.
    + rewrite Hkeys. apply not_in_tonie_tags. by vm_compute.
  - intros rh h hh Hrh Hh Hhh Hfin Hu.
    destruct (marshal_tonie_finite ct Hfin) as [doc Hdoc].
    destruct (marshal_shape ct doc Hdoc) as [Hname Hkeys].
    unfold Commit, commitTonie.
    rewrite Hrh, Hhh, Hdoc, executePatchRequest_run, Hu, Hh. simpl.
    eexists _, doc. split; [done|]. simpl.
    rewrite Method_with_bearer, URL_with_bearer, ReqBody_with_bearer.
    split_and!; try done.
    + rewrite Hkeys. apply not_in_tonie_tags. by vm_compute.
    + rewrite Hkeys. apply not_in_tonie_tags. by vm_compute.
Qed.

(** C6 at work: the mock tonie after a rename is marshalled and sent. *)
Lemma Commit_body_witness :
  let renamed :=
    CreativeTonie.mk "t1" "New name" false false "" None false float64_zero float64_zero 3 96
      (CreativeTonie.Chapters tonie0) "h1" (Some h1) (Some 0%nat) in
  ∃ x doc,
    exchanges (world (final (Commit renamed logged_in))) = exchanges (world logged_in) ++ [x]
    ∧ CreativeTonie.marshal renamed = Some doc
    ∧ http.Method (fst x) = "PATCH"
    ∧ http.URL (fst x) = creativeTonie "h1" "t1"
    ∧ http.ReqBody (fst x) = http.JSONBody doc
    ∧ member "name" doc = Some (DString "New name")
    ∧ keys doc = tonie_tags
    ∧ ("household" ∉ keys doc) ∧ ("requestHandler" ∉ keys doc).
Proof.
  intros renamed.
  exact (proj2 (proj2 (Commit_body renamed logged_in)) 0%nat
           (mkRequestHandler (http.mkClient 30) (stored_token 0%nat logged_in)) h1
           eq_refl eq_refl eq_refl eq_refl eq_refl).
Defined.

(** C6 at work: the commit of the mock tonie after a rename. *)
Example Commit_after_rename :
  let renamed :=
    CreativeTonie.mk "t1" "New name" false false "" None false float64_zero float64_zero 3 96
      (CreativeTonie.Chapters tonie0) "h1" (Some h1) (Some 0%nat) in
  let sent := fst <$> drop 1 (exchanges (world (final (Commit renamed logged_in)))) in
  http.Method <$> sent = ["PATCH"]
  ∧ http.URL <$> sent = [creativeTonie "h1" "t1"]
  ∧ (λ req, match http.ReqBody req with
            | http.JSONBody doc => member "name" doc
            | _ => None
            end) <$> sent = [Some (DString "New name")]
  ∧ (λ req, match http.ReqBody req with
            | http.JSONBody doc => keys doc
            | _ => []
            end) <$> sent = [tonie_tags].
Proof. vm_compute. split_and!; reflexivity. Qed.

(** C7.  A [Refresh] that succeeds got the tonie by a GET of its endpoint,
    answered 200 with a body that decodes; the tonie afterwards has the
    identifier, name, live and private flags, image URL, transcoding errors
    and flag, seconds and chapters present and remaining, chapters and
    household id of the decoded tonie, and the household and request handler
    it had before.  The method returns the receiver updated and nothing
    else; a [Refresh] that fails leaves the receiver as it was. *)
Theorem Refresh_overwrites_fields :
  ∀ (ct ct' : CreativeTonie.t) (err : error) (σ σ' : State),
    Refresh ct σ = Done (ct', err) σ' →
    handlers σ' = handlers σ
    ∧ (is_Some err → ct' = ct)
    ∧ (err = nil_error →
       ∃ rh hh req resp refreshed,
         CreativeTonie.requestHandler ct = Some rh
         ∧ CreativeTonie.household ct = Some hh
         ∧ exchanges (world σ') = exchanges (world σ) ++ [(req, Answered resp)]
         ∧ http.Method req = "GET"
         ∧ http.URL req = creativeTonie (Household.ID hh) (CreativeTonie.ID ct)
         ∧ http.StatusCode resp = http.StatusOK
         ∧ CreativeTonie.decode (http.RespBody resp) = Some refreshed
         ∧ CreativeTonie.ID ct' = CreativeTonie.ID refreshed
         ∧ CreativeTonie.Name ct' = CreativeTonie.Name refreshed
         ∧ CreativeTonie.Live ct' = CreativeTonie.Live refreshed
         ∧ CreativeTonie.Private ct' = CreativeTonie.Private refreshed
         ∧ CreativeTonie.ImageURL ct' = CreativeTonie.ImageURL refreshed
         ∧ CreativeTonie.TranscodingErrors ct' = CreativeTonie.TranscodingErrors refreshed
         ∧ CreativeTonie.Transcoding ct' = CreativeTonie.Transcoding refreshed
         ∧ CreativeTonie.SecondsPresent ct' = CreativeTonie.SecondsPresent refreshed
         ∧ CreativeTonie.SecondsRemaining ct' = CreativeTonie.SecondsRemaining refreshed
         ∧ CreativeTonie.ChaptersPresent ct' = CreativeTonie.ChaptersPresent refreshed
         ∧ CreativeTonie.ChaptersRemaining ct' = CreativeTonie.ChaptersRemaining refreshed
         ∧ CreativeTonie.Chapters ct' = CreativeTonie.Chapters refreshed
         ∧ CreativeTonie.HouseholdID ct' = CreativeTonie.HouseholdID refreshed
         ∧ CreativeTonie.household ct' = CreativeTonie.household ct
         ∧ CreativeTonie.requestHandler ct' = CreativeTonie.requestHandler ct).
Proof.
  intros ct ct' err σ σ'. unfold Refresh, refreshTonie.
  destruct (CreativeTonie.requestHandler ct) as [rh|] eqn:Hrh.
  2: { exec. intros [= <- <- <-]. split_and!; [done | done | done]. }
  destruct (CreativeTonie.household ct) as [hh|] eqn:Hhh; [|done].
  unfold mbind, M_bind. rewrite executeGetRequest_run.
  destruct (url.valid _).
  2: { exec. intros [= <- <- <-]. split_and!; [done | done | done]. }
  destruct (handlers σ !! rh) as [h|]; [|done]. simpl.
  destruct (servers _ _ _ _) as [e|resp] eqn:Hr.
  { exec. intros [= <- <- <-]. split_and!; [done | done | done]. }
  destruct (http.StatusCode resp =? http.StatusOK) eqn:Hs.
  2: { exec. intros [= <- <- <-]. split_and!; [done | done | done]. }
  destruct (CreativeTonie.decode (http.RespBody resp)) as [refreshed|] eqn:Hd.
  2: { exec. intros [= <- <- <-]. split_and!; [done | done | done]. }
  exec. intros [= <- <- <-]. split_and!; [done | by intros [? [=]] |].
  intros _. exists rh, hh. eexists _, resp, refreshed.
  rewrite Method_with_bearer, URL_with_bearer. apply Z.eqb_eq in Hs.
  destruct refreshed. simpl. split_and!; done.
Qed.

(** C7 at work: the refresh of the mock tonie takes the name and the
    chapters the server has, and keeps the household and the handler. *)
Lemma Refresh_overwrites_fields_witness :
  let o := Refresh tonie0 logged_in in
  let ct' := fst (returned (tonie0, nil_error) o) in
  o = Done (ct', nil_error) (final o)
  ∧ CreativeTonie.Name ct' = "Bedtime"
  ∧ Chapter.Title <$> elems (CreativeTonie.Chapters ct') = ["Lullaby"]
  ∧ handlers (final o) = handlers logged_in
  ∧ CreativeTonie.household ct' = CreativeTonie.household tonie0
  ∧ CreativeTonie.requestHandler ct' = CreativeTonie.requestHandler tonie0.
Proof.
  intros o ct'.
  assert (Hrun : o = Done (ct', nil_error) (final o)) by reflexivity.
  destruct (Refresh_overwrites_fields tonie0 ct' nil_error logged_in (final o) Hrun)
    as (Hh & _ & Hok).
  destruct (Hok eq_refl) as (rh & hh & req & resp & refreshed & H).
  split_and!; [exact Hrun | reflexivity | reflexivity | exact Hh | apply H | apply H].
Defined.

(* ===================================================================== *)
(** * The upload without a token *)
(* ===================================================================== *)

(** C10.  On a tonie whose executor is wired to a handler that holds no
    token, [UploadFile] does not return: step 1 dereferences the nil token
    and the call panics, before anything is sent.  The GET, the PATCH and
    the disconnect through the same handler do return, and send their
    request without an Authorization header. *)
Theorem UploadFile_without_token_panics :
  ∀ (ct : CreativeTonie.t) (rh : loc) (h : requestHandler)
    (title filePath : string) (σ : State),
    CreativeTonie.requestHandler ct = Some rh →
    handlers σ !! rh = Some h →
    jwtToken h = None →
    UploadFile ct title filePath σ = Panic σ
    ∧ (∀ A (dec : Decoder A) u,
         ∃ r σ' new,
           executeGetRequest rh u dec σ = Done r σ'
           ∧ exchanges (world σ') = exchanges (world σ) ++ new
           ∧ unauthenticated new)
    ∧ (∀ u body,
         ∃ err σ' new,
           executePatchRequest rh u body σ = Done err σ'
           ∧ exchanges (world σ') = exchanges (world σ) ++ new
           ∧ unauthenticated new)
    ∧ (∃ err σ' new,
         disconnect rh σ = Done err σ'
         ∧ exchanges (world σ') = exchanges (world σ) ++ new
         ∧ unauthenticated new).
Proof.
  intros ct rh h title filePath σ Hrh Hh Hnone.
  assert (Hone : ∀ req reply, http.Headers req !! "Authorization" = None →
                   unauthenticated [(with_bearer h req, reply : Reply)]).
  { intros req reply Hreq x Hx. apply list_elem_of_singleton in Hx as ->.
    simpl. by rewrite with_bearer_no_token. }
  assert (Hnil : unauthenticated []).
  { intros x Hx. by apply not_elem_of_nil in Hx. }
  split_and!.
  - unfold UploadFile. rewrite Hrh. by apply (uploadFile_no_token rh h).
  - intros A dec u. rewrite executeGetRequest_run, Hh.
    destruct (url.valid u).
    + do 3 eexists. split_and!; [done | done |]. by apply Hone.
    + exists (inl (Wrapf "failed to create request: " (url_Error (url.reported u)))), σ, [].
      by rewrite app_nil_r.
  - intros u body. rewrite executePatchRequest_run, Hh.
    destruct (url.valid u).
    + do 3 eexists. split_and!; [done | done |]. by apply Hone.
    + exists (Some (Wrapf "failed to create request: " (url_Error (url.reported u)))), σ, [].
      by rewrite app_nil_r.
  - rewrite disconnect_run, Hh. do 3 eexists. split_and!; [done | done |]. by apply Hone.
Qed.

(** C10 at work: the upload through the client that has not logged in. *)
Lemma UploadFile_without_token_panics_witness :
  UploadFile tonie0 "New" "/music/story.mp3" logged_out = Panic logged_out
  ∧ ∃ err σ' new,
      disconnect 0%nat logged_out = Done err σ'
      ∧ exchanges (world σ') = exchanges (world logged_out) ++ new
      ∧ unauthenticated new.
Proof.
  destruct (UploadFile_without_token_panics tonie0 0%nat
              (mkRequestHandler (http.mkClient 30) None) "New" "/music/story.mp3" logged_out
              eq_refl eq_refl eq_refl) as (Hpanic & _ & _ & Hdisconnect).
  split; [exact Hpanic | exact Hdisconnect].
Defined.

(* ===================================================================== *)
(** * The upload against the mock servers *)
(* ===================================================================== *)

(** C1 at work: the file of the upload does not exist. *)
Lemma uploadFile_failure_keeps_chapters_witness :
  ∃ tonie' err σ' new,
    uploadFile 0%nat tonie0 "/music/missing.mp3" "New" logged_in = Done (tonie', err) σ'
    ∧ exchanges (world σ') = exchanges (world logged_in) ++ new
    ∧ (step1_ok new = false
       ∨ step2_ok (files (world logged_in) "/music/missing.mp3") new = false →
       is_Some err
       ∧ tonie' = tonie0
       ∧ CreativeTonie.Chapters tonie' = CreativeTonie.Chapters tonie0).
Proof.
  apply (uploadFile_failure_keeps_chapters 0%nat
           (mkRequestHandler (http.mkClient 30) (stored_token 0%nat logged_in))
           (JWTToken.mk "abc123" 0 "" "Bearer" "")); reflexivity.
Defined.

Example upload_of_missing_file :
  returned (tonie0, nil_error) (uploadFile 0%nat tonie0 "/music/missing.mp3" "New" logged_in)
  = (tonie0, Some (Wrapf "failed to open file: " (os_Error "no such file or directory"))).
Proof. vm_compute. repeat split. Qed.

(** C2 at work: the upload of the end-to-end scenario (ticket k1, f1;
    storage answers 204). *)
Lemma uploadFile_success_appends_chapter_witness :
  let o := uploadFile 0%nat tonie0 "/music/story.mp3" "New" logged_in in
  let new := drop 1 (exchanges (world (final o))) in
  step1_ok new = true
  ∧ step2_ok (files (world logged_in) "/music/story.mp3") new = true
  ∧ ∃ x1 x2 bean newChapter σ',
      new = [x1; x2]
      ∧ credentials (snd x1) = Some bean
      ∧ stored (snd x2) = true
      ∧ newChapter
        = Chapter.mk (FieldsBean.Key (RequestBean.Fields (AmazonBean.Request bean)))
            (AmazonBean.FileID bean) "New" float64_zero false
      ∧ o = Done (CreativeTonie.set_Chapters
                    (append (CreativeTonie.Chapters tonie0) newChapter) tonie0,
                  nil_error) σ'
      ∧ elems (append (CreativeTonie.Chapters tonie0) newChapter)
        = elems (CreativeTonie.Chapters tonie0) ++ [newChapter].
Proof.
  intros o new.
  split; [reflexivity|]. split; [reflexivity|].
  exact (proj1 (uploadFile_success_appends_chapter 0%nat tonie0 "/music/story.mp3" "New"
                  logged_in) new eq_refl eq_refl eq_refl).
Defined.

Example upload_end_to_end :
  let tonie' := fst (returned (tonie0, nil_error)
                       (UploadFile tonie0 "New" "/music/story.mp3" logged_in)) in
  last (elems (CreativeTonie.Chapters tonie'))
  = Some (Chapter.mk "k1" "f1" "New" float64_zero false)
  ∧ length (elems (CreativeTonie.Chapters tonie')) = 4%nat.
Proof. vm_compute. repeat split. Qed.

(** C9 at work: the form of the upload of the end-to-end scenario. *)
Lemma uploadFile_form_order_witness :
  let o := uploadFile 0%nat tonie0 "/music/story.mp3" "New" logged_in in
  ∃ x1 rest bean,
    exchanges (world (final o)) = exchanges (world logged_in) ++ x1 :: rest
    ∧ credentials (snd x1) = Some bean
    ∧ ∃ x2 boundary,
        rest = [x2]
        ∧ http.Method (fst x2) = "POST"
        ∧ http.URL (fst x2) = fileUploadAmazon
        ∧ http.ReqBody (fst x2)
          = http.MultipartBody boundary
              [ multipart.mkPart "key" None "k1";
                multipart.mkPart "x-amz-algorithm" None "AWS4-HMAC-SHA256";
                multipart.mkPart "x-amz-credential" None "cred";
                multipart.mkPart "x-amz-date" None "20240101T000000Z";
                multipart.mkPart "policy" None "pol";
                multipart.mkPart "x-amz-signature" None "sig";
                multipart.mkPart "x-amz-security-token" None "sec";
                multipart.mkPart "file" (Some "k1") "ID3 audio bytes" ].
Proof.
  intros o.
  pose (log := drop 1 (exchanges (world (final o)))).
  pose (bean := default AmazonBean.zero (AmazonBean.decode ticket_body)).
  exists (default (login_request (Login.mk "" ""), Failed json_Error) (head log)),
         (drop 1 log), bean.
  assert (Hlog : exchanges (world (final o))
                 = exchanges (world logged_in)
                   ++ default (login_request (Login.mk "" ""), Failed json_Error) (head log)
                      :: drop 1 log) by reflexivity.
  split; [exact Hlog|]. split; [reflexivity|].
  exact (uploadFile_form_order 0%nat
           (mkRequestHandler (http.mkClient 30) (stored_token 0%nat logged_in))
           (JWTToken.mk "abc123" 0 "" "Bearer" "")
           tonie0 "/music/story.mp3" "New" logged_in _ _ bean "ID3 audio bytes"
           eq_refl eq_refl Hlog eq_refl eq_refl).
Defined.

(** C8 at work: deleting the chapter c1 of the mock tonie removes both
    chapters with that identifier. *)
Example DeleteChapter_removes_duplicates :
  let c := Chapter.mk "c1" "file1" "Intro" float64_zero false in
  let ct' := returned tonie0 (DeleteChapter tonie0 (Some c) logged_in) in
  Chapter.Title <$> elems (CreativeTonie.Chapters ct') = ["Story"]
  ∧ FindChapterByTitle ct' "Intro" = None
  ∧ Chapter.File <$> FindChapterByTitle tonie0 "Intro" = Some "file1".
Proof. vm_compute. repeat split. Qed.

(* ===================================================================== *)
(** * Login, disconnect and the handlers of several clients *)
(* ===================================================================== *)

(** The token an answered login request delivers. *)
Lemma login_token_answered loginData resp :
  login_token (login_request loginData, Answered resp)
  = if http.StatusCode resp =? http.StatusOK then JWTToken.decode (http.RespBody resp)
    else None.
Proof. reflexivity. Qed.

(** X1.  A login that returns an error sent exactly one request, the login
    request, got no token from it, and left every handler as it was: the
    token stored before (none, or the one of an earlier login) is still
    stored. *)
Theorem login_failure_keeps_token :
  ∀ (rh : loc) (loginData : Login.t) (σ σ' : State) (e : error_value),
    login rh loginData σ = Done (Some e) σ' →
    handlers σ' = handlers σ
    ∧ stored_token rh σ' = stored_token rh σ
    ∧ ∃ reply,
        exchanges (world σ') = exchanges (world σ) ++ [(login_request loginData, reply)]
        ∧ login_token (login_request loginData, reply) = None.
Proof.
  intros rh loginData σ σ' e. rewrite login_run.
  destruct (handlers σ !! rh) as [h|] eqn:Hh; [|done]. cbv zeta.
  destruct (servers _ _ _ _) as [err|resp] eqn:Hr.
  { intros [= <- <-]. split_and!; [done | done |]. by eexists. }
  destruct (http.StatusCode resp =? http.StatusOK) eqn:Hs.
  2: { intros [= <- <-]. split_and!; [done | done |]. eexists. split; [done|].
       by rewrite login_token_answered, Hs. }
  destruct (JWTToken.decode (http.RespBody resp)) as [token|] eqn:Hd; [done|].
  intros [= <- <-]. split_and!; [done | done |]. eexists. split; [done|].
  by rewrite login_token_answered, Hs, Hd.
Qed.

(** X1 at work: a login refused with 401 by a client that holds a token. *)
Lemma login_failure_keeps_token_witness :
  let o := login 0%nat (Login.mk "a@b.com" "wrong") locked_out in
  let e := Errorf (status_message "login failed" 401 "unauthorized") in
  o = Done (Some e) (final o)
  ∧ handlers (final o) = handlers locked_out
  ∧ JWTToken.AccessToken <$> stored_token 0%nat (final o) = Some "abc123".
Proof.
  intros o e.
  assert (Hrun : o = Done (Some e) (final o)) by (vm_compute; reflexivity).
  destruct (login_failure_keeps_token 0%nat _ locked_out (final o) e Hrun) as (Hh & Ht & _).
  split_and!; [exact Hrun | exact Hh |]. rewrite Ht. vm_compute. reflexivity.
Defined.

(** X2.  The request of a login: a POST to the identity endpoint with the
    form content type, without an Authorization header (also when a token
    is stored), whose form holds exactly the five values grant_type =
    password, client_id = my-tonies, scope = openid, username and password.
    A login through an existing handler sends this request, once. *)
Theorem login_sends_credentials_once :
  ∀ (rh : loc) (h : requestHandler) (loginData : Login.t) (σ : State),
    handlers σ !! rh = Some h →
    ∃ reply form,
      exchanges (world (final (login rh loginData σ)))
      = exchanges (world σ) ++ [(login_request loginData, reply)]
      ∧ http.Method (login_request loginData) = "POST"
      ∧ http.URL (login_request loginData) = openIDConnect
      ∧ http.Headers (login_request loginData) = {[ "Content-Type" := [contentTypeForm] ]}
      ∧ http.Headers (login_request loginData) !! "Authorization" = None
      ∧ http.ReqBody (login_request loginData) = http.FormBody form
      ∧ form !! "grant_type" = Some ["password"]
      ∧ form !! "client_id" = Some ["my-tonies"]
      ∧ form !! "scope" = Some ["openid"]
      ∧ form !! "username" = Some [Login.Email loginData]
      ∧ form !! "password" = Some [Login.Password loginData]
      ∧ size form = 5%nat.
Proof.
  intros rh h loginData σ Hh. rewrite login_run, Hh. cbv zeta.
  assert (Hform : ∃ form,
            http.Method (login_request loginData) = "POST"
            ∧ http.URL (login_request loginData) = openIDConnect
            ∧ http.Headers (login_request loginData)
              = {[ "Content-Type" := [contentTypeForm] ]}
            ∧ http.Headers (login_request loginData) !! "Authorization" = None
            ∧ http.ReqBody (login_request loginData) = http.FormBody form
            ∧ form !! "grant_type" = Some ["password"]
            ∧ form !! "client_id" = Some ["my-tonies"]
            ∧ form !! "scope" = Some ["openid"]
            ∧ form !! "username" = Some [Login.Email loginData]
            ∧ form !! "password" = Some [Login.Password loginData]
            ∧ size form = 5%nat).
  { eexists. unfold login_request, http.Header_Set, url.Values_Set. simpl.
    split_and!;
      first [ reflexivity
            | by rewrite insert_empty
            | by simplify_map_eq
            | rewrite !map_size_insert_None, map_size_empty; [done|..];
                by simplify_map_eq ]. }
  destruct Hform as [form Hform].
  destruct (servers _ _ _ _) as [err|resp];
    [|destruct (http.StatusCode resp =? http.StatusOK);
      [destruct (JWTToken.decode (http.RespBody resp))|]];
    (eexists _, form; split; [reflexivity | exact Hform]).
Qed.

(** X2 at work: the login of the client that has not logged in. *)
Lemma login_sends_credentials_once_witness :
  ∃ reply form,
    exchanges (world (final (login 0%nat (Login.mk "a@b.com" "pw") logged_out)))
    = exchanges (world logged_out) ++ [(login_request (Login.mk "a@b.com" "pw"), reply)]
    ∧ http.Method (login_request (Login.mk "a@b.com" "pw")) = "POST"
    ∧ http.URL (login_request (Login.mk "a@b.com" "pw")) = openIDConnect
    ∧ http.Headers (login_request (Login.mk "a@b.com" "pw"))
      = {[ "Content-Type" := [contentTypeForm] ]}
    ∧ http.Headers (login_request (Login.mk "a@b.com" "pw")) !! "Authorization" = None
    ∧ http.ReqBody (login_request (Login.mk "a@b.com" "pw")) = http.FormBody form
    ∧ form !! "grant_type" = Some ["password"]
    ∧ form !! "client_id" = Some ["my-tonies"]
    ∧ form !! "scope" = Some ["openid"]
    ∧ form !! "username" = Some ["a@b.com"]
    ∧ form !! "password" = Some ["pw"]
    ∧ size form = 5%nat.
Proof.
  exact (login_sends_credentials_once 0%nat (mkRequestHandler (http.mkClient 30) None)
           (Login.mk "a@b.com" "pw") logged_out eq_refl).
Defined.

(** What a login does to the handlers. *)
Lemma login_handlers rh loginData σ :
  handlers (final (login rh loginData σ)) = handlers σ
  ∨ ∃ h token,
      handlers σ !! rh = Some h
      ∧ handlers (final (login rh loginData σ))
        = <[rh := mkRequestHandler (client h) (Some token)]> (handlers σ).
Proof.
  rewrite login_run.
  destruct (handlers σ !! rh) as [h|] eqn:Hh; [|by left]. cbv zeta.
  destruct (servers _ _ _ _) as [err|resp]; [by left|].
  destruct (http.StatusCode resp =? http.StatusOK); [|by left].
  destruct (JWTToken.decode (http.RespBody resp)) as [token|]; [|by left].
  right. by exists h, token.
Qed.

(** X3.  A login through one handler writes that handler only: every other
    handler is what it was, the number of handlers is the same, and the
    handler of the login keeps its HTTP client. *)
Theorem login_writes_own_handler_only :
  ∀ (rh : loc) (loginData : Login.t) (σ : State),
    let σ' := final (login rh loginData σ) in
    length (handlers σ') = length (handlers σ)
    ∧ (∀ other, other ≠ rh → handlers σ' !! other = handlers σ !! other)
    ∧ client <$> handlers σ' !! rh = client <$> handlers σ !! rh.
Proof.
  intros rh loginData σ σ'. subst σ'.
  destruct (login_handlers rh loginData σ) as [->|(h & token & Hh & ->)]; [done|].
  split_and!.
  - apply length_insert.
  - intros other Hne. by apply list_lookup_insert_ne.
  - rewrite list_lookup_insert_eq by (by eapply lookup_lt_Some). by rewrite Hh.
Qed.

(** X4.  [disconnect] through an existing handler sends one DELETE to the
    session endpoint, with the bearer value of the token when one is
    stored, returns nil exactly when the answer has status 200 or 204, and
    in every case leaves the handlers as they are: the token is still stored
    after a disconnect that succeeded. *)
Theorem disconnect_keeps_token :
  ∀ (rh : loc) (h : requestHandler) (σ : State),
    handlers σ !! rh = Some h →
    ∃ err σ' req reply,
      disconnect rh σ = Done err σ'
      ∧ handlers σ' = handlers σ
      ∧ stored_token rh σ' = jwtToken h
      ∧ exchanges (world σ') = exchanges (world σ) ++ [(req, reply)]
      ∧ http.Method req = "DELETE"
      ∧ http.URL req = session
      ∧ (∀ token, jwtToken h = Some token →
                  http.Header_Get "Authorization" req = bearer token)
      ∧ (jwtToken h = None → http.Headers req = ∅)
      ∧ (err = nil_error ↔ stored reply = true).
Proof.
  intros rh h σ Hh. rewrite disconnect_run, Hh. cbv zeta.
  do 4 eexists. split; [reflexivity|].
  rewrite Method_with_bearer, URL_with_bearer.
  split_and!; try done.
  - unfold stored_token. simpl. by rewrite Hh.
  - intros token Ht. by apply Header_Get_with_bearer.
  - intros Hnone. by rewrite with_bearer_no_token.
  - destruct (servers _ _ _ _) as [e|resp]; simpl; [done|].
    by destruct ((http.StatusCode resp =? http.StatusOK)
                 || (http.StatusCode resp =? http.StatusNoContent)).
Qed.

(** X4 at work: the disconnect of the client that logged in is refused by
    nobody (the mock answers 404, an error), and the token stays. *)
Lemma disconnect_keeps_token_witness :
  ∃ err σ' req reply,
    disconnect 0%nat logged_in = Done err σ'
    ∧ handlers σ' = handlers logged_in
    ∧ stored_token 0%nat σ' = Some (JWTToken.mk "abc123" 0 "" "Bearer" "")
    ∧ exchanges (world σ') = exchanges (world logged_in) ++ [(req, reply)]
    ∧ http.Method req = "DELETE"
    ∧ http.URL req = session
    ∧ (∀ token, Some (JWTToken.mk "abc123" 0 "" "Bearer" "") = Some token →
                http.Header_Get "Authorization" req = bearer token)
    ∧ (Some (JWTToken.mk "abc123" 0 "" "Bearer" "") = None → http.Headers req = ∅)
    ∧ (err = nil_error ↔ stored reply = true).
Proof.
  exact (disconnect_keeps_token 0%nat
           (mkRequestHandler (http.mkClient 30) (Some (JWTToken.mk "abc123" 0 "" "Bearer" "")))
           logged_in eq_refl).
Defined.

(** X5.  Clients are independent: of two clients made one after the
    other, each has a handler of its own, without a token and with a timeout
    of 30 seconds; a login on the first that succeeds gives the first a
    token and leaves the second without one, so a GET of the second goes out
    without an Authorization header. *)
Theorem clients_are_independent :
  ∀ (σ σ1 σ2 σ3 : State) (c1 c2 : Client.t) (username password : string),
    Client.NewClient σ = Done c1 σ1 →
    Client.NewClient σ1 = Done c2 σ2 →
    Client.Login c1 username password σ2 = Done nil_error σ3 →
    Client.requestHandler c1 ≠ Client.requestHandler c2
    ∧ handlers σ2 !! Client.requestHandler c1 = Some (mkRequestHandler (http.mkClient 30) None)
    ∧ handlers σ2 !! Client.requestHandler c2 = Some (mkRequestHandler (http.mkClient 30) None)
    ∧ is_Some (stored_token (Client.requestHandler c1) σ3)
    ∧ stored_token (Client.requestHandler c2) σ3 = None
    ∧ ∀ A (dec : Decoder A) u x,
        x ∈ drop (length (exchanges (world σ3)))
              (exchanges (world (final (executeGetRequest (Client.requestHandler c2) u dec σ3)))) →
        http.Headers (fst x) !! "Authorization" = None.
Proof.
  intros σ σ1 σ2 σ3 c1 c2 username password H1 H2 H3.
  set (h0 := mkRequestHandler (http.mkClient 30) None).
  unfold Client.NewClient, newRequestHandler, alloc, mbind, M_bind, mret, M_ret in H1, H2.
  injection H1 as <- <-. injection H2 as <- <-.
  unfold Client.Login in H3. cbn [Client.requestHandler handlers world] in *.
  fold h0 in H3 |- *.
  set (l := handlers σ) in *. unfold loc in *.
  assert (Hc1 : ((l ++ [h0]) ++ [h0]) !! length l = Some h0).
  { rewrite <- app_assoc. by rewrite lookup_app_r, Nat.sub_diag by lia. }
  assert (Hc2 : ((l ++ [h0]) ++ [h0]) !! length (l ++ [h0]) = Some h0).
  { by rewrite lookup_app_r, Nat.sub_diag by lia. }
  assert (Hne : length l ≠ length (l ++ [h0])).
  { rewrite length_app. simpl. lia. }
  assert (Hother : handlers σ3 !! length (l ++ [h0]) = Some h0).
  { destruct (login_handlers (length l) (Login.mk username password)
                (mkState ((l ++ [h0]) ++ [h0]) (world σ))) as [Hsame|(h & token & _ & Hset)];
      rewrite H3 in *; cbn [final handlers] in *.
    - by rewrite Hsame.
    - rewrite Hset, list_lookup_insert_ne by done. exact Hc2. }
  assert (Hstored : is_Some (stored_token (length l) σ3)).
  { rewrite login_run in H3. cbn [handlers] in H3. unfold loc in *.
    rewrite Hc1 in H3. cbv zeta in H3.
    destruct (servers _ _ _ _) as [err|resp]; [done|].
    destruct (http.StatusCode resp =? http.StatusOK); [|done].
    destruct (JWTToken.decode (http.RespBody resp)) as [token|]; [|done].
    injection H3 as <-. unfold stored_token. cbn [handlers].
    rewrite list_lookup_insert_eq; [by eexists|].
    rewrite !length_app. simpl. lia. }
  split_and!; try done.
  - unfold stored_token, loc in *. by rewrite Hother.
  - intros A dec u x. rewrite executeGetRequest_run. unfold loc in *. rewrite Hother.
    destruct (url.valid u); cbn [final world exchanges logged].
    + rewrite drop_app_length. intros Hx. apply list_elem_of_singleton in Hx as ->.
      cbn [fst]. by rewrite with_bearer_no_token.
    + rewrite drop_all. intros Hx. by apply not_elem_of_nil in Hx.
Qed.

(** X5 at work: two clients against the mock servers. *)
Lemma clients_are_independent_witness :
  let σ1 := final (Client.NewClient logged_out) in
  let σ2 := final (Client.NewClient σ1) in
  let c1 := Client.mk 1%nat in
  let c2 := Client.mk 2%nat in
  let σ3 := final (Client.Login c1 "a@b.com" "pw" σ2) in
  JWTToken.AccessToken <$> stored_token 1%nat σ3 = Some "abc123"
  ∧ stored_token (Client.requestHandler c2) σ3 = None.
Proof.
  intros σ1 σ2 c1 c2 σ3.
  destruct (clients_are_independent logged_out σ1 σ2 σ3 c1 c2 "a@b.com" "pw"
              eq_refl eq_refl eq_refl) as (_ & _ & _ & _ & Hnone & _).
  split; [vm_compute; reflexivity | exact Hnone].
Defined.

(* ===================================================================== *)
(** * Back-references *)
(* ===================================================================== *)

(** The run of a listing that succeeded. *)
Lemma getCreativeTonies_result rh hh result σ σ' :
  getCreativeTonies rh (Some hh) σ = Done (inr result) σ' →
  ∃ h req resp decoded,
    handlers σ !! rh = Some h
    ∧ handlers σ' = handlers σ
    ∧ exchanges (world σ') = exchanges (world σ) ++ [(req, Answered resp)]
    ∧ http.Method req = "GET"
    ∧ http.URL req = creativeTonies (Household.ID hh)
    ∧ http.StatusCode resp = http.StatusOK
    ∧ CreativeTonie.decode_list (http.RespBody resp) = Some decoded
    ∧ result
      = (fmap (M := list)
           (λ t, CreativeTonie.set_requestHandler (Some rh)
                   (CreativeTonie.set_household (Some hh) t)))
        <$> decoded.
Proof.
  unfold getCreativeTonies, mbind, M_bind.
  rewrite executeGetRequest_run.
  destruct (url.valid _); [|done].
  destruct (handlers σ !! rh) as [h|]; [|done]. cbv zeta.
  destruct (servers _ _ _ _) as [err|resp]; [done|].
  destruct (http.StatusCode resp =? http.StatusOK) eqn:Hs; [|done].
  destruct (CreativeTonie.decode_list (http.RespBody resp)) as [decoded|] eqn:Hd; [|done].
  intros [= <- <-]. eexists h, _, resp, decoded.
  rewrite Method_with_bearer, URL_with_bearer. split_and!; try done.
  by apply Z.eqb_eq.
Qed.

Lemma wired_elems rh hh (decoded : slice CreativeTonie.t) ct :
  ct ∈ elems ((fmap (M := list)
                 (λ t, CreativeTonie.set_requestHandler (Some rh)
                         (CreativeTonie.set_household (Some hh) t))) <$> decoded) →
  CreativeTonie.household ct = Some hh ∧ CreativeTonie.requestHandler ct = Some rh.
Proof.
  destruct decoded as [l|]; simpl.
  - intros Hct. apply list_elem_of_fmap in Hct as (t & -> & _). by destruct t.
  - intros Hct. by apply not_elem_of_nil in Hct.
Qed.

(** X6.  [getCreativeTonies] that succeeds sent one GET to the listing
    endpoint of the household, answered 200 with a body that decodes as a
    list of tonies; the result is that list, in its order, each tonie
    carrying the household given and the handler of the call as its
    back-references and its decoded data otherwise.  With a nil household
    the call panics before anything is sent. *)
Theorem getCreativeTonies_wires_tonies :
  ∀ (rh : loc) (σ : State),
    getCreativeTonies rh None σ = Panic σ
    ∧ ∀ hh result σ',
        getCreativeTonies rh (Some hh) σ = Done (inr result) σ' →
        ∃ req resp decoded,
          exchanges (world σ') = exchanges (world σ) ++ [(req, Answered resp)]
          ∧ http.Method req = "GET"
          ∧ http.URL req = creativeTonies (Household.ID hh)
          ∧ http.StatusCode resp = http.StatusOK
          ∧ CreativeTonie.decode_list (http.RespBody resp) = Some decoded
          ∧ result
            = (fmap (M := list)
                 (λ t, CreativeTonie.set_requestHandler (Some rh)
                         (CreativeTonie.set_household (Some hh) t)))
              <$> decoded
          ∧ length (elems result) = length (elems decoded)
          ∧ ∀ ct, ct ∈ elems result →
                  CreativeTonie.household ct = Some hh
                  ∧ CreativeTonie.requestHandler ct = Some rh.
Proof.
  intros rh σ. split; [done|].
  intros hh result σ' Hrun.
  destruct (getCreativeTonies_result rh hh result σ σ' Hrun)
    as (h & req & resp & decoded & _ & _ & Hlog & Hm & Hu & Hs & Hd & ->).
  exists req, resp, decoded. split_and!; try done.
  - destruct decoded as [l|]; simpl; [|done]. by rewrite length_fmap.
  - intros ct. apply wired_elems.
Qed.

(** X7.  A tonie returned by [GetCreativeTonies] is ready for use in the
    state the call left: its [Commit] and its [Refresh] return (no panic)
    and their error, if any, is not the one of a tonie that was not
    initialised. *)
Theorem listed_tonies_are_initialized :
  ∀ (c : Client.t) (hh : Household.t) (σ σ' : State)
    (result : slice CreativeTonie.t) (ct : CreativeTonie.t),
    Client.GetCreativeTonies c (Some hh) σ = Done (inr result) σ' →
    ct ∈ elems result →
    (∃ err σ'', Commit ct σ' = Done err σ'' ∧ err ≠ Some not_initialized)
    ∧ (∃ ct' err σ'', Refresh ct σ' = Done (ct', err) σ'' ∧ err ≠ Some not_initialized).
Proof.
  intros c hh σ σ' result ct Hlist Hct.
  destruct (getCreativeTonies_result (Client.requestHandler c) hh result σ σ' Hlist)
    as (h & req & resp & decoded & Hh0 & Hhs & _ & _ & _ & _ & _ & ->).
  destruct (wired_elems _ _ _ _ Hct) as [Hhh Hrh].
  assert (Hh : handlers σ' !! Client.requestHandler c = Some h) by (by rewrite Hhs).
  split.
  - unfold Commit, commitTonie. rewrite Hrh, Hhh.
    destruct (CreativeTonie.marshal ct); [|by do 2 eexists].
    rewrite executePatchRequest_run, Hh.
    destruct (url.valid _); [|by do 2 eexists]. cbv zeta.
    do 2 eexists. split; [reflexivity|].
    destruct (servers _ _ _ _) as [err|resp']; [done|].
    destruct (_ || _); [done|]. by intros [=].
  - unfold Refresh, refreshTonie, mbind, M_bind. rewrite Hrh, Hhh.
    rewrite executeGetRequest_run, Hh.
    destruct (url.valid _); [|by do 3 eexists]. cbv zeta.
    destruct (servers _ _ _ _) as [err|resp']; [by do 3 eexists|].
    destruct (http.StatusCode resp' =? http.StatusOK).
    + destruct (CreativeTonie.decode (http.RespBody resp')); by do 3 eexists.
    + do 3 eexists. split; [reflexivity|]. by intros [=].
Qed.

(** X7 at work: the tonie listed by the mock servers. *)
Lemma listed_tonies_are_initialized_witness :
  let o := Client.GetCreativeTonies c0 (Some h1) listing_world in
  let result := match returned (inr None) o with
                | inr r => r
                | inl _ => None
                end in
  let ct := default CreativeTonie.zero (head (elems result)) in
  CreativeTonie.Name ct = "Bedtime"
  ∧ (∃ err σ'', Commit ct (final o) = Done err σ'' ∧ err ≠ Some not_initialized)
  ∧ (∃ ct' err σ'', Refresh ct (final o) = Done (ct', err) σ''
                    ∧ err ≠ Some not_initialized).
Proof.
  intros o result ct. split; [vm_compute; reflexivity|].
  apply (listed_tonies_are_initialized c0 h1 listing_world (final o) result ct).
  - reflexivity.
  - assert (Hone : elems result = [ct]) by (vm_compute; reflexivity).
    rewrite Hone. apply list_elem_of_singleton. reflexivity.
Defined.

(** A field decoder of a list goes from a state of the struct that has a
    property to a state that has it, when every decoder of the list does. *)
Lemma decode_members_preserves {T} (P : T → Prop) (fields : list (string * FieldDecoder T)) :
  Forall (λ f, ∀ j t t', snd f j t = Some t' → P t → P t') fields →
  ∀ members t t', decode_members fields members t = Some t' → P t → P t'.
Proof.
  intros Hfields.
  assert (Hfind : ∀ k d, find_field fields k = Some d →
                         ∀ j t t', d j t = Some t' → P t → P t').
  { intros k d Hd. rewrite Forall_forall in Hfields. unfold find_field in Hd.
    destruct (List.find (λ f, String.eqb (fst f) k) fields) as [f|] eqn:Hf.
    - injection Hd as <-. apply List.find_some in Hf as [Hin _].
      apply Hfields. by apply list_elem_of_In.
    - destruct (List.find (λ f, equal_fold (fst f) k) fields) as [f|] eqn:Hf';
        [|done]. injection Hd as <-. apply List.find_some in Hf' as [Hin _].
      apply Hfields. by apply list_elem_of_In. }
  induction members as [|[k v] members IH]; intros t t'; simpl.
  - by intros [= <-].
  - destruct (find_field fields k) as [d|] eqn:Hd; [|apply IH].
    destruct (d v t) as [t1|] eqn:Hd1; simpl; [|done].
    intros Ht' Ht. eapply IH; [done|]. by eapply Hfind.
Qed.

(** No member of a JSON object reaches the back-references of a tonie. *)
Lemma tonie_fields_keep_unwired :
  Forall (λ f : string * FieldDecoder CreativeTonie.t,
            ∀ j t t', snd f j t = Some t' → unwired t → unwired t')
    CreativeTonie.fields.
Proof.
  unfold CreativeTonie.fields.
  repeat apply List.Forall_cons; [..|apply List.Forall_nil];
    intros j t t' H [Hh Hr]; destruct t; simpl in *;
    unfold dec_string, dec_bool, dec_int, dec_float64, dec_slice in H;
    destruct j; simplify_option_eq; done.
Qed.

Lemma decode_value_unwired j ct : CreativeTonie.decode_value j = Some ct → unwired ct.
Proof.
  unfold CreativeTonie.decode_value, decode_struct. destruct j; try done.
  - by intros [= <-].
  - intros H. eapply (decode_members_preserves unwired); [apply tonie_fields_keep_unwired|done|].
    done.
Qed.

(** X8.  Whatever the body, a tonie decoded from JSON (alone or in a list)
    has no household and no request handler: the two internal fields cannot
    be set from the wire.  On such a tonie [Commit], [Refresh] and
    [UploadFile] return the error of a tonie that was not initialised, send
    nothing and change nothing. *)
Theorem decoded_tonies_are_unwired :
  ∀ (body : string),
    (∀ ct, CreativeTonie.decode body = Some ct → unwired ct)
    ∧ (∀ l ct, CreativeTonie.decode_list body = Some l → ct ∈ elems l → unwired ct)
    ∧ (∀ ct σ, unwired ct →
         Commit ct σ = Done (Some not_initialized) σ
         ∧ Refresh ct σ = Done (ct, Some not_initialized) σ
         ∧ ∀ title filePath,
             UploadFile ct title filePath σ = Done (ct, Some not_initialized) σ).
Proof.
  intros body. split_and!.
  - intros ct. unfold CreativeTonie.decode, decode_body.
    destruct (read_value body) as [j|]; simpl; [|done].
    apply (decode_value_unwired j ct).
  - intros l ct. unfold CreativeTonie.decode_list, decode_body, dec_slice.
    destruct (read_value body) as [j|]; simpl; [|done].
    destruct j as [| | | |js|]; try done.
    + intros [= <-] Hct. by apply not_elem_of_nil in Hct.
    + destruct (mapM CreativeTonie.decode_value js) as [xs|] eqn:Hxs; simpl; [|done].
      intros [= <-] Hct. simpl in Hct.
      apply mapM_Some_1 in Hxs.
      apply list_elem_of_lookup in Hct as [i Hi].
      destruct (Forall2_lookup_r _ _ _ _ _ Hxs Hi) as (j & _ & Hj).
      by eapply decode_value_unwired.
  - intros ct σ [_ Hrh]. unfold Commit, Refresh, UploadFile. by rewrite Hrh.
Qed.

(** X8 at work: the tonie of the mock servers, decoded. *)
Example decoded_mock_tonie_is_unwired :
  (CreativeTonie.household <$> CreativeTonie.decode tonie_body) = Some None
  ∧ (CreativeTonie.requestHandler <$> CreativeTonie.decode tonie_body) = Some None.
Proof. vm_compute. repeat split. Qed.

(** X9.  A [Refresh] that succeeds discards what was changed locally: its
    result and the state it leaves depend on the identifier and the two
    back-references of the receiver only, not on its name, flags, counters
    or chapters. *)
Theorem Refresh_discards_local_changes :
  ∀ (ct ct2 refreshed : CreativeTonie.t) (σ σ' : State),
    CreativeTonie.ID ct2 = CreativeTonie.ID ct →
    CreativeTonie.household ct2 = CreativeTonie.household ct →
    CreativeTonie.requestHandler ct2 = CreativeTonie.requestHandler ct →
    Refresh ct σ = Done (refreshed, nil_error) σ' →
    Refresh ct2 σ = Done (refreshed, nil_error) σ'.
Proof.
  intros ct ct2 refreshed σ σ' Hid Hhh Hrh. unfold Refresh, refreshTonie, mbind, M_bind.
  rewrite Hid, Hhh, Hrh.
  destruct (CreativeTonie.requestHandler ct) as [rh|]; [|done].
  destruct (CreativeTonie.household ct) as [hh|]; [|done].
  rewrite executeGetRequest_run.
  destruct (url.valid _); [|done].
  destruct (handlers σ !! rh) as [h|]; [|done]. cbv zeta.
  destruct (servers _ _ _ _) as [err|resp]; [done|].
  destruct (http.StatusCode resp =? http.StatusOK); [|done].
  by destruct (CreativeTonie.decode (http.RespBody resp)).
Qed.

(** X9 at work: the mock tonie renamed and emptied, then refreshed. *)
Lemma Refresh_discards_local_changes_witness :
  let renamed :=
    CreativeTonie.mk "t1" "Renamed" true true "img" None true float64_zero float64_zero 0 0
      None "other" (Some h1) (Some 0%nat) in
  let o := Refresh tonie0 logged_in in
  Refresh renamed logged_in = Done (fst (returned (tonie0, nil_error) o), nil_error) (final o).
Proof.
  intros renamed o.
  apply (Refresh_discards_local_changes tonie0 renamed _ logged_in (final o)
           eq_refl eq_refl eq_refl).
  reflexivity.
Defined.

(* ===================================================================== *)
(** * More on chapters *)
(* ===================================================================== *)

(** The slice [DeleteChapter] builds: nil as long as nothing is kept. *)
Lemma keep_others_slice id (l : list Chapter.t) (acc : slice Chapter.t) :
  keep_others id l acc
  = match filter (λ x, Chapter.ID x ≠ id) l with
    | [] => acc
    | kept => Some (elems acc ++ kept)
    end.
Proof.
  revert acc. induction l as [|x l IH]; intros acc; simpl; [done|].
  destruct (String.eqb_spec (Chapter.ID x) id) as [Heq|Hne]; simpl.
  - rewrite filter_cons_False by (intros H; by apply H). apply IH.
  - rewrite filter_cons_True by done. rewrite IH. unfold append. simpl.
    destruct (filter _ l); [done|]. by rewrite <- app_assoc.
Qed.

Lemma Chapters_set_Chapters ct (s : slice Chapter.t) :
  CreativeTonie.Chapters (CreativeTonie.set_Chapters s ct) = s.
Proof. by destruct ct. Qed.

Lemma DeleteChapter_Some ct c σ :
  DeleteChapter ct (Some c) σ
  = Done (CreativeTonie.set_Chapters
            (keep_others (Chapter.ID c) (elems (CreativeTonie.Chapters ct)) None) ct) σ.
Proof. done. Qed.

(** X10.  Deleting a chapter twice is deleting it once: the second
    [DeleteChapter] with the same chapter returns the tonie it was given. *)
Theorem DeleteChapter_idempotent :
  ∀ (ct ct1 : CreativeTonie.t) (c : Chapter.t) (σ : State),
    DeleteChapter ct (Some c) σ = Done ct1 σ →
    DeleteChapter ct1 (Some c) σ = Done ct1 σ.
Proof.
  intros ct ct1 c σ. rewrite !DeleteChapter_Some. intros [= <-].
  f_equal. destruct ct. simpl. f_equal.
  set (l := elems Chapters).
  rewrite (keep_others_slice _ l None).
  rewrite keep_others_slice.
  destruct (filter (λ x, Chapter.ID x ≠ Chapter.ID c) l) as [|y kept] eqn:Hf; [done|].
  simpl. rewrite <- Hf. rewrite list_filter_filter.
  rewrite (list_filter_iff _ (λ x, Chapter.ID x ≠ Chapter.ID c)) by tauto.
  by rewrite Hf.
Qed.

Lemma DeleteChapter_idempotent_witness :
  let c := Chapter.mk "c1" "file1" "Intro" float64_zero false in
  let ct1 := returned tonie0 (DeleteChapter tonie0 (Some c) logged_in) in
  DeleteChapter ct1 (Some c) logged_in = Done ct1 logged_in.
Proof.
  intros c ct1. apply (DeleteChapter_idempotent tonie0 ct1 c logged_in). reflexivity.
Defined.

(** X11.  When every chapter of the tonie has the identifier of the one
    given (and when the tonie has no chapter), [DeleteChapter] leaves a nil
    slice, not an empty one, and a [Commit] of that tonie sends null for the
    member chapters; when a chapter is kept the member is an array.  With a
    nil chapter pointer the call panics as soon as the tonie has a chapter,
    and leaves a nil slice when it has none. *)
Theorem DeleteChapter_of_all_leaves_nil :
  ∀ (ct : CreativeTonie.t) (c : Chapter.t) (σ : State),
    let ct' := CreativeTonie.set_Chapters
                 (keep_others (Chapter.ID c) (elems (CreativeTonie.Chapters ct)) None) ct in
    DeleteChapter ct (Some c) σ = Done ct' σ
    ∧ ((∀ x, x ∈ elems (CreativeTonie.Chapters ct) → Chapter.ID x = Chapter.ID c) →
       CreativeTonie.Chapters ct' = None
       ∧ ∀ doc, CreativeTonie.marshal ct' = Some doc → member "chapters" doc = Some DNull)
    ∧ ((∃ x, x ∈ elems (CreativeTonie.Chapters ct) ∧ Chapter.ID x ≠ Chapter.ID c) →
       ∀ doc, CreativeTonie.marshal ct' = Some doc →
              ∃ docs, member "chapters" doc = Some (DArray docs)
                      ∧ length docs = length (elems (CreativeTonie.Chapters ct')))
    ∧ (elems (CreativeTonie.Chapters ct) ≠ [] → DeleteChapter ct None σ = Panic σ)
    ∧ (elems (CreativeTonie.Chapters ct) = [] →
       DeleteChapter ct None σ = Done (CreativeTonie.set_Chapters None ct) σ).
Proof.
  intros ct c σ ct'. subst ct'.
  assert (Hmember : ∀ (t : CreativeTonie.t) doc, CreativeTonie.marshal t = Some doc →
            ∃ cs, marshal_slice Chapter.marshal (CreativeTonie.Chapters t) = Some cs
                  ∧ member "chapters" doc = Some cs).
  { intros t doc. unfold CreativeTonie.marshal.
    destruct (marshal_float64 (CreativeTonie.SecondsPresent t)); [|done].
    destruct (marshal_float64 (CreativeTonie.SecondsRemaining t)); [|done].
    destruct (marshal_slice Chapter.marshal (CreativeTonie.Chapters t)) as [cs|]; [|done].
    destruct (marshal_slice _ (CreativeTonie.TranscodingErrors t)); [|done].
    simpl. intros [= <-]. by exists cs. }
  split_and!.
  - done.
  - intros Hall.
    assert (Hnil : keep_others (Chapter.ID c) (elems (CreativeTonie.Chapters ct)) None = None).
    { rewrite keep_others_slice.
      destruct (filter _ _) as [|y kept] eqn:Hf; [done|].
      assert (Hy : y ∈ filter (λ x, Chapter.ID x ≠ Chapter.ID c)
                     (elems (CreativeTonie.Chapters ct))) by (rewrite Hf; left).
      apply list_elem_of_filter in Hy as [Hne Hy]. by destruct (Hne (Hall y Hy)). }
    rewrite Hnil. split; [apply Chapters_set_Chapters|].
    intros doc Hdoc. destruct (Hmember _ doc Hdoc) as (cs & Hcs & ->).
    rewrite Chapters_set_Chapters in Hcs. by injection Hcs as <-.
  - intros (x & Hx & Hne) doc Hdoc. destruct (Hmember _ doc Hdoc) as (cs & Hcs & ->).
    rewrite Chapters_set_Chapters in Hcs |- *.
    rewrite keep_others_slice in Hcs |- *.
    destruct (filter _ _) as [|y kept] eqn:Hf.
    { assert (Hin : x ∈ filter (λ x, Chapter.ID x ≠ Chapter.ID c)
                      (elems (CreativeTonie.Chapters ct))) by (by apply list_elem_of_filter).
      rewrite Hf in Hin. by apply not_elem_of_nil in Hin. }
    unfold marshal_slice in Hcs. cbn [elems default app] in Hcs |- *.
    destruct (mapM Chapter.marshal (y :: kept)) as [docs|] eqn:Hdocs; [|done].
    injection Hcs as <-. exists docs. split; [done|].
    apply length_mapM in Hdocs. by rewrite <- Hdocs.
  - unfold DeleteChapter. by destruct (elems (CreativeTonie.Chapters ct)).
  - unfold DeleteChapter. by intros ->.
Qed.

Example DeleteChapter_last_chapter_sends_null :
  let refreshed := fst (returned (tonie0, nil_error) (Refresh tonie0 logged_in)) in
  let ct := returned tonie0
              (DeleteChapter refreshed (Some (Chapter.mk "c9" "" "" float64_zero false))
                 logged_in) in
  Chapter.ID <$> elems (CreativeTonie.Chapters refreshed) = ["c9"]
  ∧ CreativeTonie.Chapters ct = None
  ∧ (member "chapters" <$> CreativeTonie.marshal ct) = Some (Some DNull).
Proof. vm_compute. repeat split. Qed.

(** X12.  Find, then delete: every chapter of a tonie is found by its
    title (possibly as an earlier chapter with the same title); and deleting
    a chapter that [FindChapterByTitle] returned removes it: the sequence
    gets strictly shorter and holds no chapter with its identifier. *)
Theorem find_then_delete :
  ∀ (ct : CreativeTonie.t) (σ : State),
    (∀ c, c ∈ elems (CreativeTonie.Chapters ct) →
          ∃ found, FindChapterByTitle ct (Chapter.Title c) = Some found
                   ∧ Chapter.Title found = Chapter.Title c
                   ∧ found ∈ elems (CreativeTonie.Chapters ct))
    ∧ (∀ title c,
         FindChapterByTitle ct title = Some c →
         ∃ ct',
           DeleteChapter ct (Some c) σ = Done ct' σ
           ∧ (length (elems (CreativeTonie.Chapters ct'))
              < length (elems (CreativeTonie.Chapters ct)))%nat
           ∧ (c ∉ elems (CreativeTonie.Chapters ct'))
           ∧ ∀ x, x ∈ elems (CreativeTonie.Chapters ct') → Chapter.ID x ≠ Chapter.ID c).
Proof.
  intros ct σ. split.
  - intros c Hc. unfold FindChapterByTitle.
    destruct (find_title (Chapter.Title c) (elems (CreativeTonie.Chapters ct)))
      as [found|] eqn:Hf.
    + exists found. apply (proj1 (find_title_Some _ _ _)) in Hf as (l1 & l2 & Hl & Ht & _).
      split_and!; [done | done |]. rewrite Hl. apply elem_of_app. right. left.
    + pose proof (proj1 (find_title_None _ _) Hf) as Hnone. by destruct (Hnone c Hc).
  - intros title c Hfind.
    rewrite DeleteChapter_Some. eexists. split; [reflexivity|].
    set (ct' := CreativeTonie.set_Chapters _ ct).
    assert (Hel : elems (CreativeTonie.Chapters ct')
                  = filter (λ x, Chapter.ID x ≠ Chapter.ID c)
                      (elems (CreativeTonie.Chapters ct))).
    { subst ct'. by rewrite elems_set_Chapters, keep_others_elems. }
    pose proof (length_filter_split (Chapter.ID c) (elems (CreativeTonie.Chapters ct)))
      as Hlen. rewrite <- Hel in Hlen.
    apply (proj1 (find_title_Some _ _ _)) in Hfind as (l1 & l2 & Hl & _ & _).
    assert (Hkept : ∀ x, x ∈ elems (CreativeTonie.Chapters ct') →
                         Chapter.ID x ≠ Chapter.ID c).
    { intros x Hx. rewrite Hel in Hx. by apply list_elem_of_filter in Hx as [Hne _]. }
    split_and!; [ | | done].
    + assert (Hpos : (0 < length (filter (λ x, Chapter.ID x = Chapter.ID c)
                                    (elems (CreativeTonie.Chapters ct))))%nat).
      { rewrite Hl, filter_app, filter_cons_True by done. rewrite length_app. simpl. lia. }
      lia.
    + intros Hin. by apply (Hkept c Hin).
Qed.

Lemma find_title_app title (l : list Chapter.t) (c : Chapter.t) :
  find_title title (l ++ [c])
  = match find_title title l with
    | Some found => Some found
    | None => if String.eqb (Chapter.Title c) title then Some c else None
    end.
Proof.
  induction l as [|x l IH]; simpl; [done|].
  by destruct (String.eqb (Chapter.Title x) title).
Qed.

(** X13.  Upload, then find: after an upload that succeeded,
    [FindChapterByTitle] with the title of the upload finds a chapter with
    that title: the chapter that an earlier search would have found, if any,
    and otherwise the chapter just appended. *)
Theorem upload_then_find :
  ∀ (rh : loc) (tonie tonie' : CreativeTonie.t) (filePath title : string) (σ σ' : State),
    uploadFile rh tonie filePath title σ = Done (tonie', nil_error) σ' →
    ∃ found,
      FindChapterByTitle tonie' title = Some found
      ∧ Chapter.Title found = title
      ∧ (∀ old, FindChapterByTitle tonie title = Some old → found = old)
      ∧ (FindChapterByTitle tonie title = None →
         last (elems (CreativeTonie.Chapters tonie')) = Some found).
Proof.
  intros rh tonie tonie' filePath title σ σ' Hok.
  destruct (handlers σ !! rh) as [h|] eqn:Hh;
    [|by rewrite uploadFile_no_handler in Hok].
  destruct (jwtToken h) as [token|] eqn:Htoken;
    [|by rewrite (uploadFile_no_token _ h) in Hok].
  destruct (uploadFile_paths rh h token tonie filePath title σ Hh Htoken)
    as (t1 & err & σ1 & new & Hrun & _ & _ & Hpath).
  rewrite Hrun in Hok. injection Hok as -> -> ->.
  inversion Hpath as [| | |x1 x2 bean content Hq Hc Hf Hq2 Hst]; subst.
  unfold FindChapterByTitle. rewrite elems_set_Chapters. unfold append. simpl.
  rewrite find_title_app. simpl. rewrite String.eqb_refl.
  destruct (find_title title (elems (CreativeTonie.Chapters tonie))) as [old|] eqn:Hold.
  - exists old. apply (proj1 (find_title_Some _ _ _)) in Hold as Hsplit.
    destruct Hsplit as (l1 & l2 & _ & Ht & _).
    split_and!; [done | done | by intros ? [= <-] | done].
  - exists (chapter_of bean title). split_and!; [done | done | done |].
    intros _. by rewrite last_snoc.
Qed.

Lemma upload_then_find_witness :
  let o := uploadFile 0%nat tonie0 "/music/story.mp3" "Story" logged_in in
  let tonie' := fst (returned (tonie0, nil_error) o) in
  ∃ found,
    FindChapterByTitle tonie' "Story" = Some found
    ∧ Chapter.Title found = "Story"
    ∧ (∀ old, FindChapterByTitle tonie0 "Story" = Some old → found = old)
    ∧ (FindChapterByTitle tonie0 "Story" = None →
       last (elems (CreativeTonie.Chapters tonie')) = Some found).
Proof.
  intros o tonie'.
  apply (upload_then_find 0%nat tonie0 tonie' "/music/story.mp3" "Story"
           logged_in (final o)).
  reflexivity.
Defined.

(* ===================================================================== *)
(** * What is sent, and where *)
(* ===================================================================== *)

(** X14.  The requests of an upload: the credential request is a POST of
    the fixed body with the JSON content type and the bearer value of the
    stored token; the request to the object storage carries the multipart
    content type with the boundary of its body and no Authorization header:
    the token is not sent to the object storage. *)
Theorem upload_keeps_token_from_storage :
  ∀ (rh : loc) (h : requestHandler) (token : JWTToken.t)
    (tonie : CreativeTonie.t) (filePath title : string) (σ : State),
    handlers σ !! rh = Some h →
    jwtToken h = Some token →
    ∃ new,
      exchanges (world (final (uploadFile rh tonie filePath title σ)))
      = exchanges (world σ) ++ new
      ∧ ∀ x, x ∈ new →
          (http.URL (fst x) = fileUpload
           ∧ http.Method (fst x) = "POST"
           ∧ http.ReqBody (fst x) = http.RawBody emptyBody
           ∧ http.Header_Get "Content-Type" (fst x) = contentTypeJSON
           ∧ http.Header_Get "Authorization" (fst x) = bearer token)
          ∨ (http.URL (fst x) = fileUploadAmazon
             ∧ http.Method (fst x) = "POST"
             ∧ http.Headers (fst x) !! "Authorization" = None
             ∧ ∃ boundary parts,
                 http.ReqBody (fst x) = http.MultipartBody boundary parts
                 ∧ http.Headers (fst x)
                   = {[ "Content-Type" := ["multipart/form-data; boundary=" +:+ boundary] ]}).
Proof.
  intros rh h token tonie filePath title σ Hh Htoken.
  assert (Hfirst : ∀ req : http.Request,
            req = http.Header_Set "Authorization" (bearer token)
                    (http.Header_Set "Content-Type" contentTypeJSON
                       (http.mkRequest "POST" fileUpload ∅ (http.RawBody emptyBody))) →
            http.URL req = fileUpload
            ∧ http.Method req = "POST"
            ∧ http.ReqBody req = http.RawBody emptyBody
            ∧ http.Header_Get "Content-Type" req = contentTypeJSON
            ∧ http.Header_Get "Authorization" req = bearer token).
  { intros req ->. unfold http.Header_Get, http.Header_Set. simpl.
    split_and!; [done | done | done | by simplify_map_eq | by simplify_map_eq]. }
  assert (Hsecond : ∀ (req : http.Request) b parts,
            req = http.Header_Set "Content-Type" ("multipart/form-data; boundary=" +:+ b)
                    (http.mkRequest "POST" fileUploadAmazon ∅ (http.MultipartBody b parts)) →
            http.URL req = fileUploadAmazon
            ∧ http.Method req = "POST"
            ∧ http.Headers req !! "Authorization" = None
            ∧ ∃ boundary parts',
                http.ReqBody req = http.MultipartBody boundary parts'
                ∧ http.Headers req
                  = {[ "Content-Type" := ["multipart/form-data; boundary=" +:+ boundary] ]}).
  { intros req b parts ->. unfold http.Header_Set. simpl.
    split_and!; [done | done | by simplify_map_eq |].
    exists b, parts. split; [done|]. by rewrite insert_empty. }
  assert (Hone : ∀ (x : Exchange) (P : Exchange → Prop), P x → ∀ y, y ∈ [x] → P y).
  { intros x P HP y Hy. by apply list_elem_of_singleton in Hy as ->. }
  assert (Htwo : ∀ (x1 x2 : Exchange) (P : Exchange → Prop),
            P x1 → P x2 → ∀ y, y ∈ [x1; x2] → P y).
  { intros x1 x2 P H1 H2 y Hy. apply elem_of_cons in Hy as [->|Hy]; [done|].
    by apply list_elem_of_singleton in Hy as ->. }
  unfold uploadFile. rewrite NewRequest_fileUpload. exec. rewrite Hh. simpl. rewrite Htoken.
  match goal with
  | |- context [servers ?a ?b ?c ?d] => destruct (servers a b c d) as [err|resp] eqn:Hr1
  end.
  { eexists. split; [reflexivity|]. apply Hone. left. by apply Hfirst. }
  destruct (http.StatusCode resp =? http.StatusOK) eqn:Hs; simpl.
  2: { eexists. split; [reflexivity|]. apply Hone. left. by apply Hfirst. }
  destruct (AmazonBean.decode (http.RespBody resp)) as [bean|] eqn:Hd.
  2: { eexists. split; [reflexivity|]. apply Hone. left. by apply Hfirst. }
  simpl.
  destruct (files (world σ) filePath) as [e|e|content] eqn:Hf; simpl.
  - eexists. split; [reflexivity|]. apply Hone. left. by apply Hfirst.
  - eexists. split; [reflexivity|]. apply Hone. left. by apply Hfirst.
  - match goal with
    | |- context [servers ?a ?b ?c ?d] => destruct (servers a b c d) as [err2|resp2] eqn:Hr2
    end; simpl.
    { eexists. split; [by rewrite <- app_assoc|]. apply Htwo.
      - left. by apply Hfirst.
      - right. by eapply Hsecond. }
    destruct (negb (http.StatusCode resp2 =? http.StatusNoContent)
              && negb (http.StatusCode resp2 =? http.StatusOK)); simpl.
    + eexists. split; [by rewrite <- app_assoc|]. apply Htwo.
      * left. by apply Hfirst.
      * right. by eapply Hsecond.
    + eexists. split; [by rewrite <- app_assoc|]. apply Htwo.
      * left. by apply Hfirst.
      * right. by eapply Hsecond.
Qed.

Lemma upload_keeps_token_from_storage_witness :
  let sent := requests (drop 1 (exchanges (world (final
                (uploadFile 0%nat tonie0 "/music/story.mp3" "New" logged_in))))) in
  http.URL <$> sent = [fileUpload; fileUploadAmazon]
  ∧ http.Header_Get "Authorization" <$> sent = ["Bearer abc123"; ""]
  ∧ ∃ new,
      exchanges (world (final (uploadFile 0%nat tonie0 "/music/story.mp3" "New" logged_in)))
      = exchanges (world logged_in) ++ new
      ∧ length new = 2%nat.
Proof.
  intros sent. split; [vm_compute; reflexivity|]. split; [vm_compute; reflexivity|].
  destruct (upload_keeps_token_from_storage 0%nat
              (mkRequestHandler (http.mkClient 30) (stored_token 0%nat logged_in))
              (JWTToken.mk "abc123" 0 "" "Bearer" "")
              tonie0 "/music/story.mp3" "New" logged_in eq_refl eq_refl) as (new & Hlog & _).
  exists new. split; [exact Hlog|].
  apply (f_equal length) in Hlog. rewrite length_app in Hlog.
  assert (Hn : length (exchanges (world (final
                 (uploadFile 0%nat tonie0 "/music/story.mp3" "New" logged_in)))) = 3%nat)
    by (vm_compute; reflexivity).
  assert (Hm : length (exchanges (world logged_in)) = 1%nat) by (vm_compute; reflexivity).
  rewrite Hn, Hm in Hlog. lia.
Defined.

(** After a computation, a step that only computes leaves the state. *)
Lemma final_bind_pure {A B} (m : M A) (k : A → M B) σ :
  (∀ a s, final (k a s) = s) → final ((m ≫= k) σ) = final (m σ).
Proof.
  intros Hk. unfold mbind, M_bind. destruct (m σ) as [a s|s]; [apply Hk|done].
Qed.

Lemma sent_nothing (σ : State) (dests : list (string * string)) :
  ∃ new, exchanges (world σ) = exchanges (world σ) ++ new
         ∧ destinations new `prefix_of` dests.
Proof. exists []. split; [by rewrite app_nil_r|]. by exists dests. Qed.

Lemma sent_one (σ : State) req reply (rest : list (string * string)) :
  ∃ new, exchanges (world (logged σ req reply)) = exchanges (world σ) ++ new
         ∧ destinations new `prefix_of` ((http.Method req, http.URL req) :: rest).
Proof. exists [(req, reply)]. split; [done|]. by exists rest. Qed.

Lemma executeGetRequest_sends {A} (dec : Decoder A) rh u σ :
  ∃ new, exchanges (world (final (executeGetRequest rh u dec σ))) = exchanges (world σ) ++ new
         ∧ destinations new `prefix_of` [("GET", u)].
Proof.
  rewrite executeGetRequest_run.
  destruct (url.valid u); [|apply sent_nothing].
  destruct (handlers σ !! rh) as [h|]; [|apply sent_nothing]. cbv zeta. simpl final.
  match goal with
  | |- context [logged σ ?req ?reply] =>
      pose proof (sent_one σ req reply []) as Hsent
  end.
  by rewrite Method_with_bearer, URL_with_bearer in Hsent.
Qed.

Lemma executePatchRequest_sends rh u body σ :
  ∃ new, exchanges (world (final (executePatchRequest rh u body σ)))
         = exchanges (world σ) ++ new
         ∧ destinations new `prefix_of` [("PATCH", u)].
Proof.
  rewrite executePatchRequest_run.
  destruct (url.valid u); [|apply sent_nothing].
  destruct (handlers σ !! rh) as [h|]; [|apply sent_nothing]. cbv zeta. simpl final.
  match goal with
  | |- context [logged σ ?req ?reply] =>
      pose proof (sent_one σ req reply []) as Hsent
  end.
  by rewrite Method_with_bearer, URL_with_bearer in Hsent.
Qed.

Lemma disconnect_sends rh σ :
  ∃ new, exchanges (world (final (disconnect rh σ))) = exchanges (world σ) ++ new
         ∧ destinations new `prefix_of` [("DELETE", session)].
Proof.
  rewrite disconnect_run.
  destruct (handlers σ !! rh) as [h|]; [|apply sent_nothing]. cbv zeta. simpl final.
  match goal with
  | |- context [logged σ ?req ?reply] =>
      pose proof (sent_one σ req reply []) as Hsent
  end.
  by rewrite Method_with_bearer, URL_with_bearer in Hsent.
Qed.

Lemma login_sends rh loginData σ :
  ∃ new, exchanges (world (final (login rh loginData σ))) = exchanges (world σ) ++ new
         ∧ destinations new `prefix_of` [("POST", openIDConnect)].
Proof.
  rewrite login_run.
  destruct (handlers σ !! rh) as [h|]; [|apply sent_nothing]. cbv zeta.
  destruct (servers _ _ _ _) as [err|resp];
    [|destruct (http.StatusCode resp =? http.StatusOK);
      [destruct (JWTToken.decode (http.RespBody resp))|]];
    apply (sent_one σ (login_request loginData) _ []).
Qed.

Lemma uploadFile_sends rh tonie filePath title σ :
  ∃ new, exchanges (world (final (uploadFile rh tonie filePath title σ)))
         = exchanges (world σ) ++ new
         ∧ destinations new `prefix_of` [("POST", fileUpload); ("POST", fileUploadAmazon)].
Proof.
  destruct (handlers σ !! rh) as [h|] eqn:Hh;
    [|rewrite uploadFile_no_handler by done; apply sent_nothing].
  destruct (jwtToken h) as [token|] eqn:Htoken;
    [|rewrite (uploadFile_no_token rh h) by done; apply sent_nothing].
  destruct (uploadFile_paths rh h token tonie filePath title σ Hh Htoken)
    as (tonie' & err & σ' & new & -> & _ & Hlog & Hpath).
  exists new. split; [done|]. unfold destinations.
  destruct Hpath as [x1 e [Hm Hu] _|x1 bean e [Hm Hu] _ _
                    |x1 x2 bean content e [Hm Hu] _ _ (Hm2 & Hu2 & _) _
                    |x1 x2 bean content [Hm Hu] _ _ (Hm2 & Hu2 & _) _];
    simpl; rewrite ?Hm, ?Hu, ?Hm2, ?Hu2; by eexists.
Qed.

(** X15.  Every call sends its requests to fixed places and never
    repeats one: the methods and URLs of the requests a call logs are an
    initial part of the list of the call (one request for a login, a GET of
    the profile, the households, a listing or a tonie, a PATCH of a tonie,
    a DELETE of the session; the file endpoint then the object storage for
    an upload; none for a deletion of a chapter), so a call sends at most
    one request, an upload at most two. *)
Theorem calls_send_to_fixed_endpoints :
  ∀ (c : Client.t) (op : Op) (σ : State),
    ∃ new,
      exchanges (world (final (call c op σ))) = exchanges (world σ) ++ new
      ∧ destinations new `prefix_of` endpoints op
      ∧ (length new ≤ length (endpoints op))%nat
      ∧ (length (endpoints op) ≤ 2)%nat.
Proof.
  intros c op σ.
  assert (Hlen : ∀ (new : list Exchange) dests,
            destinations new `prefix_of` dests → (length new ≤ length dests)%nat).
  { intros new dests Hp. apply prefix_length in Hp. unfold destinations in Hp.
    by rewrite length_fmap in Hp. }
  assert (Hgoal : ∃ new,
            exchanges (world (final (call c op σ))) = exchanges (world σ) ++ new
            ∧ destinations new `prefix_of` endpoints op).
  { destruct op as [u p| | |hh| |ct|ct|ct title path|ct ch]; simpl;
      rewrite final_bind_pure by done.
    - apply login_sends.
    - apply executeGetRequest_sends.
    - apply executeGetRequest_sends.
    - unfold Client.GetCreativeTonies, getCreativeTonies.
      destruct hh as [hh|]; [|apply sent_nothing].
      rewrite final_bind_pure by (by intros [?|?] ?).
      apply executeGetRequest_sends.
    - apply disconnect_sends.
    - unfold Refresh. destruct (CreativeTonie.requestHandler ct) as [rh|];
        [|apply sent_nothing].
      rewrite final_bind_pure by (by intros [?|?] ?).
      unfold refreshTonie. destruct (CreativeTonie.household ct) as [hh|];
        [|apply sent_nothing].
      rewrite final_bind_pure by (by intros [?|?] ?).
      apply executeGetRequest_sends.
    - unfold Commit. destruct (CreativeTonie.requestHandler ct) as [rh|];
        [|apply sent_nothing].
      unfold commitTonie. destruct (CreativeTonie.household ct) as [hh|];
        [|apply sent_nothing].
      destruct (CreativeTonie.marshal ct); [|apply sent_nothing].
      apply executePatchRequest_sends.
    - unfold UploadFile. destruct (CreativeTonie.requestHandler ct) as [rh|];
        [|apply sent_nothing].
      apply uploadFile_sends.
    - unfold DeleteChapter. destruct ch; [apply sent_nothing|].
      destruct (elems _); apply sent_nothing. }
  destruct Hgoal as (new & Hlog & Hp). exists new. split_and!; [done | done | by apply Hlen |].
  destruct op as [u p| | |[hh|]| |ct|ct|ct title path|ct ch]; simpl; try lia;
    destruct (CreativeTonie.household ct); simpl; lia.
Qed.

(** X15 at work: a refresh, an upload and a commit after the login. *)
Example destinations_of_a_session :
  destinations (exchanges (world (final
    (run c0 [OpRefresh tonie0; OpUploadFile tonie0 "New" "/music/story.mp3";
             OpCommit tonie0] logged_in))))
  = [ ("POST", openIDConnect); ("GET", creativeTonie "h1" "t1");
      ("POST", fileUpload); ("POST", fileUploadAmazon);
      ("PATCH", creativeTonie "h1" "t1") ].
Proof. vm_compute. reflexivity. Qed.

(* ===================================================================== *)
(** * Commits and refreshes that stop before the network *)
(* ===================================================================== *)

(** X16.  [json.Marshal] of a tonie fails exactly when one of its floats
    (seconds present, seconds remaining, the seconds of a chapter) is NaN or
    infinite; [Commit] of such a tonie returns the marshal error and sends
    nothing. *)
Theorem Commit_refuses_non_finite_floats :
  ∀ (ct : CreativeTonie.t),
    (CreativeTonie.marshal ct = None
     ↔ ∃ f, f ∈ tonie_floats ct ∧ float64_finite f = false)
    ∧ ∀ rh hh σ,
        CreativeTonie.requestHandler ct = Some rh →
        CreativeTonie.household ct = Some hh →
        CreativeTonie.marshal ct = None →
        Commit ct σ = Done (Some (Wrapf "failed to marshal tonie: " json_Error)) σ.
Proof.
  intros ct. split; [apply marshal_tonie_None|].
  intros rh hh σ Hrh Hhh Hnone. unfold Commit, commitTonie. by rewrite Hrh, Hhh, Hnone.
Qed.

(** X16 at work: the mock tonie with NaN for its seconds present. *)
Example Commit_of_NaN :
  let ct := CreativeTonie.mk "t1" "n" false false "" None false S754_nan float64_zero 0 0
              None "h1" (Some h1) (Some 0%nat) in
  returned nil_error (Commit ct logged_in)
  = Some (Wrapf "failed to marshal tonie: " json_Error)
  ∧ length (exchanges (world (final (Commit ct logged_in)))) = 1%nat.
Proof. vm_compute. repeat split. Qed.

Lemma before_fragment_cons c r :
  url.before_fragment (String c r)
  = if code c =? 35 then EmptyString else String c (url.before_fragment r).
Proof.
  unfold url.before_fragment. simpl. destruct (code c =? 35); [done|].
  by destruct (url.cut 35 r).
Qed.

(** What [url.Parse] sees of a text made of two: the control bytes of the
    first before its number sign, and those of the second when the first has
    no number sign. *)
Lemma visible_ctl_app a b :
  visible_ctl (a +:+ b) = visible_ctl a || (negb (has_hash a) && visible_ctl b).
Proof.
  unfold visible_ctl. induction a as [|c a IH]; [done|].
  change (String c a +:+ b) with (String c (a +:+ b)).
  rewrite !before_fragment_cons. simpl.
  destruct (code c =? 35); [done|]. simpl. rewrite IH. by rewrite !orb_assoc.
Qed.

Lemma visible_ctl_creativeTonie h id :
  visible_ctl (creativeTonie h id) = visible_ctl h || (negb (has_hash h) && visible_ctl id).
Proof. unfold creativeTonie. by rewrite !visible_ctl_app. Qed.

Lemma visible_ctl_invalid u :
  visible_ctl u = true → url.valid u = false ∧ url.reported u = url.before_fragment u.
Proof.
  unfold visible_ctl, url.valid, url.reported, url.parses. by intros ->.
Qed.

(** X17.  [http.NewRequest] refuses a URL with an ASCII control character
    before its fragment.  So for a tonie whose household's identifier holds
    one before its first number sign, or whose own identifier does while the
    household's has no number sign, [Refresh] returns the error of the
    request that could not be created, naming the URL up to the fragment,
    sends nothing and leaves the tonie as it is, and [Commit] returns an
    error and sends nothing. *)
Theorem control_characters_stop_the_request :
  ∀ (ct : CreativeTonie.t) (rh : loc) (hh : Household.t) (σ : State),
    CreativeTonie.requestHandler ct = Some rh →
    CreativeTonie.household ct = Some hh →
    visible_ctl (Household.ID hh) = true
    ∨ (has_hash (Household.ID hh) = false ∧ visible_ctl (CreativeTonie.ID ct) = true) →
    Refresh ct σ
    = Done (ct, Some (Wrapf "failed to create request: "
                        (url_Error (url.before_fragment
                                      (creativeTonie (Household.ID hh) (CreativeTonie.ID ct))))))
        σ
    ∧ ∃ e, Commit ct σ = Done (Some e) σ.
Proof.
  intros ct rh hh σ Hrh Hhh Hctl.
  destruct (visible_ctl_invalid (creativeTonie (Household.ID hh) (CreativeTonie.ID ct)))
    as [Hu Hrep].
  { rewrite visible_ctl_creativeTonie.
    destruct Hctl as [-> | [-> ->]]; [done | by rewrite orb_true_r]. }
  split.
  - unfold Refresh, refreshTonie, mbind, M_bind. rewrite Hrh, Hhh.
    by rewrite executeGetRequest_run, Hu, Hrep.
  - unfold Commit, commitTonie. rewrite Hrh, Hhh.
    destruct (CreativeTonie.marshal ct); [|by eexists].
    rewrite executePatchRequest_run, Hu. by eexists.
Qed.

Lemma control_characters_stop_the_request_witness :
  let newline := String (byte_of 10) EmptyString in
  let ct := CreativeTonie.mk ("t1" +:+ newline) "n" false false "" None false
              float64_zero float64_zero 0 0 None "h1" (Some h1) (Some 0%nat) in
  Refresh ct logged_in
  = Done (ct, Some (Wrapf "failed to create request: "
                      (url_Error (url.before_fragment
                                    (creativeTonie "h1" ("t1" +:+ newline)))))) logged_in
  ∧ ∃ e, Commit ct logged_in = Done (Some e) logged_in.
Proof.
  intros newline ct.
  apply (control_characters_stop_the_request ct 0%nat h1 logged_in eq_refl eq_refl).
  right. split; reflexivity.
Defined.

(** A control character behind a number sign is in the fragment, which
    [url.Parse] does not inspect for it: the request is created and sent. *)
Example control_character_in_fragment_is_sent :
  let newline := String (byte_of 10) EmptyString in
  let ct := CreativeTonie.mk ("t1#" +:+ newline) "n" false false "" None false
              float64_zero float64_zero 0 0 None "h1" (Some h1) (Some 0%nat) in
  http.URL <$> (fst <$> drop 1 (exchanges (world (final (Refresh ct logged_in)))))
  = [creativeTonie "h1" ("t1#" +:+ newline)]
  ∧ http.Method <$> (fst <$> drop 1 (exchanges (world (final (Commit ct logged_in)))))
    = ["PATCH"].
Proof. vm_compute. split; reflexivity. Qed.

(** X18.  The copy that [Refresh] makes field by field loses nothing: on a
    tonie wired to a handler, a [Refresh] that succeeds leaves exactly the
    tonie that [refreshTonie] returned through that handler, and a
    [refreshTonie] that failed is a [Refresh] that returns the same error
    and the receiver as it was. *)
Theorem Refresh_is_refreshTonie :
  ∀ (ct : CreativeTonie.t) (rh : loc) (σ σ' : State),
    CreativeTonie.requestHandler ct = Some rh →
    (∀ fetched, refreshTonie rh ct σ = Done (inr fetched) σ' →
                Refresh ct σ = Done (fetched, nil_error) σ')
    ∧ (∀ e, refreshTonie rh ct σ = Done (inl e) σ' →
            Refresh ct σ = Done (ct, Some e) σ').
Proof.
  intros ct rh σ σ' Hrh. unfold Refresh, mbind, M_bind. rewrite Hrh.
  destruct (refreshTonie rh ct σ) as [[e|fetched'] σ1|σ1] eqn:Hrun; split; try done.
  - intros e' [= <- <-]. done.
  - intros fetched [= <- <-]. unfold mret, M_ret. do 2 f_equal.
    unfold refreshTonie, mbind, M_bind in Hrun.
    destruct (CreativeTonie.household ct) as [hh|] eqn:Hhh; [|done].
    destruct (executeGetRequest rh _ CreativeTonie.decode σ) as [[e|result] σ2|σ2];
      try done.
    injection Hrun as <- <-. by destruct result.
Qed.

Lemma Refresh_is_refreshTonie_witness :
  let o := refreshTonie 0%nat tonie0 logged_in in
  (∀ fetched, o = Done (inr fetched) (final o) →
              Refresh tonie0 logged_in = Done (fetched, nil_error) (final o))
  ∧ CreativeTonie.Name
      (fst (returned (tonie0, nil_error) (Refresh tonie0 logged_in))) = "Bedtime".
Proof.
  intros o.
  destruct (Refresh_is_refreshTonie tonie0 0%nat logged_in (final o) eq_refl) as [Hok _].
  split; [exact Hok | vm_compute; reflexivity].
Defined.

(* ===================================================================== *)
(** * The file of an upload *)
(* ===================================================================== *)

(** X19.  An upload reads the file at the path it is given and no other:
    in a file system that has the same file at that path, whatever it has
    elsewhere, [UploadFile] takes the same course: it returns the same tonie
    and the same error, sends the same requests and gets the same replies,
    and dereferences a nil token in the same cases. *)
Theorem upload_reads_only_its_file :
  ∀ (ct : CreativeTonie.t) (title filePath : string) (σ : State) (files' : string → File),
    files' filePath = files (world σ) filePath →
    UploadFile ct title filePath (with_files files' σ)
    = outcome_with_files files' (UploadFile ct title filePath σ).
Proof.
  intros ct title filePath σ files' Hsame.
  unfold UploadFile. destruct (CreativeTonie.requestHandler ct) as [rh|]; [|done].
  unfold uploadFile. rewrite NewRequest_fileUpload. exec.
  destruct (handlers σ !! rh) as [h|]; simpl; [|done].
  destruct (jwtToken h) as [token|]; simpl; [|done].
  destruct (servers _ _ _ _) as [err|resp]; simpl; [done|].
  destruct (http.StatusCode resp =? http.StatusOK); simpl; [|done].
  destruct (AmazonBean.decode (http.RespBody resp)) as [bean|]; simpl; [|done].
  rewrite Hsame.
  destruct (files (world σ) filePath) as [e|e|content]; simpl; [done|done|].
  destruct (servers _ _ _ _) as [err2|resp2]; simpl; [done|].
  by destruct (negb (http.StatusCode resp2 =? http.StatusNoContent)
               && negb (http.StatusCode resp2 =? http.StatusOK)).
Qed.

Lemma upload_reads_only_its_file_witness :
  let files' := λ path, if String.eqb path "/music/story.mp3" then files (world logged_in) path
                        else Unreadable "is a directory" in
  UploadFile tonie0 "New" "/music/story.mp3" (with_files files' logged_in)
  = outcome_with_files files' (UploadFile tonie0 "New" "/music/story.mp3" logged_in).
Proof.
  intros files'.
  apply (upload_reads_only_its_file tonie0 "New" "/music/story.mp3" logged_in files').
  reflexivity.
Defined.
